(** * mcphost: the agent turn loop of [cmd/root.go]

    A shallow embedding of [pruneMessages] and [RunPrompt] (with the retry
    loop it shares with [CreateMessage]) and the properties of the turn loop:
    history pruning, bounded exponential backoff, tool dispatch. *)

From Stdlib Require Import ZArith Ascii Bool Lia.
From Stdlib Require String.
From stdpp Require Import base option gmap strings list.
From Equations Require Import Equations.

(** * Data model *)

(** Modelled from the spec: the item type [mcp.Content] of a tool result
    payload (package [mcp-go], not under src/).  [RunPrompt] only tells
    [mcp.TextContent] items from all the others. *)
Inductive McpContent : Type :=
| TextContent (Text : string)
| OtherContent.

(** Modelled from the spec: [history.ContentBlock] (package [pkg/history],
    not under src/), with the fields the two functions read and write.
    [Content] is an [interface{}]: [RunPrompt] stores either a slice of
    blocks (error text) or the raw [[]mcp.Content] of a tool result in it. *)
Inductive ContentBlock : Type :=
| mkContentBlock (Type_ Text ID ToolUseID Name Input : string)
                 (Content : Payload)
with Payload : Type :=
| PayloadNil
| PayloadBlocks (blocks : list ContentBlock)
| PayloadMcp (items : list McpContent).

Definition block_Type (b : ContentBlock) : string :=
  let '(mkContentBlock t _ _ _ _ _ _) := b in t.
Definition block_Text (b : ContentBlock) : string :=
  let '(mkContentBlock _ t _ _ _ _ _) := b in t.
Definition block_ID (b : ContentBlock) : string :=
  let '(mkContentBlock _ _ i _ _ _ _) := b in i.
Definition block_ToolUseID (b : ContentBlock) : string :=
  let '(mkContentBlock _ _ _ i _ _ _) := b in i.
Definition block_Name (b : ContentBlock) : string :=
  let '(mkContentBlock _ _ _ _ n _ _) := b in n.
Definition block_Input (b : ContentBlock) : string :=
  let '(mkContentBlock _ _ _ _ _ i _) := b in i.
Definition block_Content (b : ContentBlock) : Payload :=
  let '(mkContentBlock _ _ _ _ _ _ c) := b in c.

(** Modelled from the spec: [history.HistoryMessage]. *)
Record HistoryMessage : Type := mkHistoryMessage {
  msg_Role : string;
  msg_Content : list ContentBlock }.

(** The zero value of every field a composite literal leaves out. *)
Definition textBlock (text : string) : ContentBlock :=
  mkContentBlock "text" text "" "" "" "" PayloadNil.

Definition toolUseBlock (id name input : string) : ContentBlock :=
  mkContentBlock "tool_use" "" id "" name input PayloadNil.

Definition toolResultBlock (toolUseID text : string) (content : Payload)
  : ContentBlock :=
  mkContentBlock "tool_result" text "" toolUseID "" "" content.

(** * pruneMessages *)

Module Prune.

(** A Go [map[string]bool] read with [m[k]]: an absent key reads [false]. *)
Definition lookupBool (m : gmap string bool) (k : string) : bool :=
  default false (m !! k).

Abbreviation IdMaps := (gmap string bool * gmap string bool)%type.

(** First pass, inner loop body: record the id of a [tool_use] block and the
    referenced id of a [tool_result] block. *)
Definition collectBlock (ids : IdMaps) (block : ContentBlock) : IdMaps :=
  let '(toolUseIds, toolResultIds) := ids in
  if String.eqb (block_Type block) "tool_use" then
    (<[block_ID block := true]> toolUseIds, toolResultIds)
  else if String.eqb (block_Type block) "tool_result" then
    (toolUseIds, <[block_ToolUseID block := true]> toolResultIds)
  else ids.

Definition collectMessage (ids : IdMaps) (msg : HistoryMessage) : IdMaps :=
  foldl collectBlock ids (msg_Content msg).

Definition collectIds (messages : list HistoryMessage) : IdMaps :=
  foldl collectMessage (∅, ∅) messages.

(** Second pass, the [keep] flag of one block. *)
Definition keepBlock (ids : IdMaps) (block : ContentBlock) : bool :=
  if String.eqb (block_Type block) "tool_use" then
    lookupBool (snd ids) (block_ID block)
  else if String.eqb (block_Type block) "tool_result" then
    lookupBool (fst ids) (block_ToolUseID block)
  else true.

Definition prunedBlocks (ids : IdMaps) (msg : HistoryMessage)
  : list ContentBlock :=
  List.filter (keepBlock ids) (msg_Content msg).

Definition hasTextBlock (msg : HistoryMessage) : bool :=
  existsb (fun block => String.eqb (block_Type block) "text") (msg_Content msg).

(** Second pass, body of the outer loop: [Some] is the message appended to
    [prunedMessages], [None] a message left out. *)
Definition pruneMessage (ids : IdMaps) (msg : HistoryMessage)
  : option HistoryMessage :=
  let blocks := prunedBlocks ids msg in
  if ((0 <? length blocks)%nat && String.eqb (msg_Role msg) "assistant")
     || negb (String.eqb (msg_Role msg) "assistant")
  then
    if (0 <? length blocks)%nat || hasTextBlock msg
    then Some (mkHistoryMessage (msg_Role msg) blocks)
    else None
  else None.

(** [messages[len(messages)-messageWindow:]]. *)
Definition lastWindow (messageWindow : Z) (messages : list HistoryMessage)
  : list HistoryMessage :=
  drop (Z.to_nat (Z.of_nat (length messages) - messageWindow)) messages.

(** [pruneMessages], with the global [messageWindow] as an argument.  [None]
    is the run-time panic of the slice expression, whose lower bound exceeds
    the length when the window is negative. *)
Definition pruneMessages (messageWindow : Z) (messages : list HistoryMessage)
  : option (list HistoryMessage) :=
  if (Z.of_nat (length messages) <=? messageWindow)%Z then Some messages
  else if (messageWindow <? 0)%Z then None
  else
    let kept := lastWindow messageWindow messages in
    let ids := collectIds kept in
    Some (omap (pruneMessage ids) kept).

(** The blocks of a given type that occur in a sequence of messages. *)
Definition occurs (type : string) (block : ContentBlock)
  (messages : list HistoryMessage) : Prop :=
  ∃ msg, msg ∈ messages ∧ block ∈ msg_Content msg ∧ block_Type block = type.

(** No orphan in either direction. *)
Definition paired (messages : list HistoryMessage) : Prop :=
  (∀ res, occurs "tool_result" res messages →
     ∃ use, occurs "tool_use" use messages ∧
            block_ID use = block_ToolUseID res)
  ∧ (∀ use, occurs "tool_use" use messages →
     ∃ res, occurs "tool_result" res messages ∧
            block_ToolUseID res = block_ID use).

End Prune.

(** * Go library functions the turn loop calls *)

Module GoStrings.

(** [strings.Index]: the byte offset of the first occurrence of [substr] in
    [s], [None] for Go's [-1]. *)
Fixpoint Index (s substr : string) : option nat :=
  if String.prefix substr s then Some 0%nat
  else match s with
       | EmptyString => None
       | String _ rest => S <$> Index rest substr
       end.

(** [strings.Contains(s, substr)] is [Index(s, substr) >= 0]. *)
Definition Contains (s substr : string) : bool :=
  match Index s substr with Some _ => true | None => false end.

(** [s[n:]]. *)
Fixpoint from (n : nat) (s : string) : string :=
  match n, s with
  | S n', String _ rest => from n' rest
  | _, _ => s
  end.

(** [s[:n]]. *)
Fixpoint upto (n : nat) (s : string) : string :=
  match n, s with
  | S n', String c rest => String c (upto n' rest)
  | _, _ => EmptyString
  end.

(** The loop of [strings.Split] for a non-empty separator: cut at the first
    occurrence of [sep], go on after it; the rest is the last part.  Every cut
    removes at least one byte, so [String.length s] rounds always suffice. *)
Fixpoint genSplit (rounds : nat) (s sep : string) : list string :=
  match rounds with
  | O => [s]
  | S rounds' =>
      match Index s sep with
      | None => [s]
      | Some m =>
          upto m s :: genSplit rounds' (from (m + String.length sep) s) sep
      end
  end.

Definition Split (s sep : string) : list string :=
  genSplit (String.length s) s sep.

(** [strings.TrimSpace] on a string of ASCII bytes: the white space of
    [asciiSpace] is tab, line feed, vertical tab, form feed, carriage return
    and space. *)
Definition asciiSpace (c : ascii) : bool :=
  let n := nat_of_ascii c in
  ((9 <=? n) && (n <=? 13) || (n =? 32))%nat.

Fixpoint trimLeft (s : string) : string :=
  match s with
  | EmptyString => EmptyString
  | String c rest => if asciiSpace c then trimLeft rest else s
  end.

Fixpoint trimRight (s : string) : string :=
  match s with
  | EmptyString => EmptyString
  | String c rest =>
      match trimRight rest with
      | EmptyString => if asciiSpace c then EmptyString
                       else String c EmptyString
      | rest' => String c rest'
      end
  end.

Definition TrimSpaceASCII (s : string) : string := trimRight (trimLeft s).

End GoStrings.

(** * RunPrompt *)

Module Turn.

(** The text of a Go [error], as [err.Error()] gives it: the code looks at
    an error through its text only. *)
Abbreviation error := string.

(** Callback enums for message roles. *)
Inductive Mode : Type :=
| MODE_USER_PROMPT
| MODE_CREATE_MESSAGE
| MODE_ASSISTANT_MESSAGE
| MODE_RUN_TOOL
| MODE_ERROR.

(** [time.Duration] is an [int64] count of nanoseconds. *)
Definition Second : Z := 1000000000.
Definition initialBackoff : Z := 1 * Second.
Definition maxBackoff : Z := 30 * Second.
Definition maxRetries : Z := 5.

(** Signed 64-bit wrap-around of [int64] arithmetic. *)
Definition wrap64 (z : Z) : Z := ((z + 2 ^ 63) mod 2 ^ 64 - 2 ^ 63)%Z.

Definition overloadedMessage : error :=
  "claude is currently overloaded. please wait a few minutes and try again".

(** Modelled from the spec: [llm.ToolCall] and [llm.Message] (package
    [pkg/llm], not under src/), the values their methods return. *)
Record ToolCall (ToolArgs : Type) : Type := mkToolCall {
  GetID : string;
  GetName : string;
  GetArguments : ToolArgs }.
Arguments mkToolCall {ToolArgs}.
Arguments GetID {ToolArgs}.
Arguments GetName {ToolArgs}.
Arguments GetArguments {ToolArgs}.

Record Message (ToolArgs : Type) : Type := mkMessage {
  GetRole : string;
  GetContent : string;
  GetToolCalls : list (ToolCall ToolArgs);
  GetUsage : Z * Z }.
Arguments mkMessage {ToolArgs}.
Arguments GetRole {ToolArgs}.
Arguments GetContent {ToolArgs}.
Arguments GetToolCalls {ToolArgs}.
Arguments GetUsage {ToolArgs}.

(** Modelled from the spec: [mcp.CallToolResult]; [None] is a nil
    [Content] slice, which differs from an empty one. *)
Record CallToolResult : Type := mkCallToolResult {
  result_Content : option (list McpContent);
  result_IsError : bool }.

(** What the turn loop does to the outside, in order. *)
Inductive Event (ToolArgs Tool : Type) : Type :=
| EvCallback (mode : Mode) (text : string)
| EvCreateMessage (prompt : string) (llmMessages : list HistoryMessage)
                  (tools : list Tool)
| EvSleep (d : Z)
| EvPrintf (text : string)
| EvCallTool (serverName toolName : string) (toolArgs : ToolArgs)
| EvAppend (msg : HistoryMessage).
Arguments EvCallback {ToolArgs Tool}.
Arguments EvCreateMessage {ToolArgs Tool}.
Arguments EvSleep {ToolArgs Tool}.
Arguments EvPrintf {ToolArgs Tool}.
Arguments EvCallTool {ToolArgs Tool}.
Arguments EvAppend {ToolArgs Tool}.

(** Library functions of Go taken as given: [strings.TrimSpace], and
    [json.Marshal] / [json.Unmarshal] on a [map[string]interface{}]. *)
Record GoLib (ToolArgs : Type) : Type := mkGoLib {
  strings_TrimSpace : string → string;
  json_Marshal : ToolArgs → string + error;
  json_Unmarshal : string → ToolArgs + error }.
Arguments mkGoLib {ToolArgs}.
Arguments strings_TrimSpace {ToolArgs}.
Arguments json_Marshal {ToolArgs}.
Arguments json_Unmarshal {ToolArgs}.

(** A Go call that returns [(value, err)]: both, either or neither may be
    nil. *)
Abbreviation Returns A := (option A * option error)%type.

(** [mcpclient.MCPClient.CallTool] of one server, acting on the world outside
    the program. *)
Abbreviation MCPClient World ToolArgs :=
  (World → string → ToolArgs → World * Returns CallToolResult)%type.

(** The fields of [MCPSession] that [RunPrompt] reads. *)
Record MCPSession (World ToolArgs Tool : Type) : Type := mkMCPSession {
  AllTools : list Tool;
  MCPClients : gmap string (MCPClient World ToolArgs);
  Provider_CreateMessage :
    World → string → list HistoryMessage → list Tool →
    World * Returns (Message ToolArgs) }.
Arguments mkMCPSession {World ToolArgs Tool}.
Arguments AllTools {World ToolArgs Tool}.
Arguments MCPClients {World ToolArgs Tool}.
Arguments Provider_CreateMessage {World ToolArgs Tool}.

(** The [callback] argument, as far as [RunPrompt] depends on it: whether it
    runs the [action] it is handed.  Its return value is dropped at every
    call. *)
Abbreviation Callback := (Mode → string → bool)%type.

(** The callback that [runMCPHost] passes: the spinner runs the action of
    [MODE_CREATE_MESSAGE], and that of [MODE_RUN_TOOL] unless the text is
    empty; the other modes are called with a nil action. *)
Definition cliCallback : Callback := λ mode text,
  match mode with
  | MODE_CREATE_MESSAGE => true
  | MODE_RUN_TOOL => negb (String.eqb text "")
  | _ => false
  end.

(** The program state a run acts on: the world outside, the slice behind
    the [messages] pointer, and the events so far. *)
Record State (World ToolArgs Tool : Type) : Type := mkState {
  world : World;
  messages : list HistoryMessage;
  trace : list (Event ToolArgs Tool) }.
Arguments mkState {World ToolArgs Tool}.
Arguments world {World ToolArgs Tool}.
Arguments messages {World ToolArgs Tool}.
Arguments trace {World ToolArgs Tool}.

(** How the retry loop is left: [break] with the message, or [return err]. *)
Inductive LoopExit (ToolArgs : Type) : Type :=
| LoopBreak (message : option (Message ToolArgs))
| LoopReturn (err : error).
Arguments LoopBreak {ToolArgs}.
Arguments LoopReturn {ToolArgs}.

(** How one call of [RunPrompt] ends. *)
Inductive Outcome : Type :=
| Returned (err : option error)
| Panicked
| OutOfFuel.

(** How the body of [RunPrompt] ends: a return, a nil dereference, or the
    tail call [ms.RunPrompt(ctx, "", messages, callback)]. *)
Inductive Next : Type :=
| Return (err : option error)
| Panic
| Recurse.

(** The local variables of the tool loop that outlive one iteration; [err]
    is the function-wide variable the retry loop has left nil. *)
Record Locals (World ToolArgs Tool : Type) : Type := mkLocals {
  loc_world : World;
  loc_trace : list (Event ToolArgs Tool);
  messageContent : list ContentBlock;
  toolResults : list ContentBlock;
  loc_err : option error }.
Arguments mkLocals {World ToolArgs Tool}.
Arguments loc_world {World ToolArgs Tool}.
Arguments loc_trace {World ToolArgs Tool}.
Arguments messageContent {World ToolArgs Tool}.
Arguments toolResults {World ToolArgs Tool}.
Arguments loc_err {World ToolArgs Tool}.

(** [resultText] after the loop over the payload items. *)
Definition resultText (items : list McpContent) : string :=
  foldl (λ text item,
           match item with
           | TextContent t => text +:+ t +:+ " "
           | OtherContent => text
           end) "" items.

(** How one iteration of the tool loop ends: on to the next tool call, or
    the dereference of a nil [toolResultPtr]. *)
Inductive Iter (World ToolArgs Tool : Type) : Type :=
| Continue (l : Locals World ToolArgs Tool)
| NilDeref (l : Locals World ToolArgs Tool).
Arguments Continue {World ToolArgs Tool}.
Arguments NilDeref {World ToolArgs Tool}.

Definition newline : string := String (ascii_of_nat 10) EmptyString.

Definition userMessage (prompt : string) : HistoryMessage :=
  mkHistoryMessage "user" [textBlock prompt].

Definition toolMessage (toolResult : ContentBlock) : HistoryMessage :=
  mkHistoryMessage "tool" [toolResult].

(** The [tool_result] block that carries the text of an invocation error. *)
Definition errorResult (id errMsg : string) : ContentBlock :=
  toolResultBlock id "" (PayloadBlocks [textBlock errMsg]).

Section WithSession.

Context {World ToolArgs Tool : Type}.
Variable lib : GoLib ToolArgs.
Variable ms : MCPSession World ToolArgs Tool.
Variable callback : Callback.

(** [*messages = append( *messages, msg)]. *)
Definition appendMessage (msg : HistoryMessage)
  (st : State World ToolArgs Tool) : State World ToolArgs Tool :=
  mkState (world st) (messages st ++ [msg]) (trace st ++ [EvAppend msg]).

(** The closure [action] of the retry loop: call the provider and assign
    [message] and [err]. *)
Definition action (prompt : string) (llmMessages : list HistoryMessage)
  (w : World) (tr : list (Event ToolArgs Tool))
  : World * list (Event ToolArgs Tool)
    * option (Message ToolArgs) * option error :=
  let '(w', (message', err')) :=
    Provider_CreateMessage ms w prompt llmMessages (AllTools ms) in
  (w', tr ++ [EvCreateMessage prompt llmMessages (AllTools ms)],
   message', err').

(** The retry loop from its top to the test of [err].  [RunPrompt] hands the
    action to the callback ([observed]); [CreateMessage] runs it itself,
    directly or under a spinner. *)
Definition attempt (observed : bool) (prompt : string)
  (llmMessages : list HistoryMessage)
  (w : World) (tr : list (Event ToolArgs Tool))
  (message : option (Message ToolArgs)) (err : option error)
  : World * list (Event ToolArgs Tool)
    * option (Message ToolArgs) * option error :=
  if observed then
    let tr := tr ++ [EvCallback MODE_CREATE_MESSAGE ""] in
    if callback MODE_CREATE_MESSAGE "" then action prompt llmMessages w tr
    else (w, tr, message, err)
  else action prompt llmMessages w tr.

(** [backoff *= 2; if backoff > maxBackoff { backoff = maxBackoff }]. *)
Definition nextBackoff (backoff : Z) : Z :=
  let backoff := wrap64 (backoff * 2) in
  if (backoff >? maxBackoff)%Z then maxBackoff else backoff.

(** The [for { ... }] loop around [Provider.CreateMessage], the same in
    [RunPrompt] and in [CreateMessage].  It ends because [retries] grows
    towards [maxRetries]. *)
Equations? retryLoop (observed : bool) (prompt : string)
  (llmMessages : list HistoryMessage)
  (w : World) (tr : list (Event ToolArgs Tool))
  (message : option (Message ToolArgs)) (err : option error)
  (backoff retries : Z)
  : World * list (Event ToolArgs Tool) * LoopExit ToolArgs
  by wf (Z.to_nat (maxRetries + 1 - retries)) lt :=
retryLoop observed prompt llmMessages w tr message err backoff retries
  with attempt observed prompt llmMessages w tr message err := {
  | (w', tr', message', None) := (w', tr', LoopBreak message');
  | (w', tr', message', Some e)
      with GoStrings.Contains e "overloaded_error" := {
    | false := (w', tr', LoopReturn e);
    | true with Z_ge_dec retries maxRetries := {
      | left _ := (w', tr', LoopReturn overloadedMessage);
      | right _ :=
          retryLoop observed prompt llmMessages w' (tr' ++ [EvSleep backoff])
            message' (Some e) (nextBackoff backoff) (wrap64 (retries + 1))
      }
    }
  }.
Proof.
  unfold maxRetries, wrap64 in *.
  pose proof (Z.mod_pos_bound (retries + 1 + 2 ^ 63) (2 ^ 64) eq_refl) as Hb.
  destruct (Z_lt_dec retries (- 2 ^ 63)) as [Hlo|Hlo]; [lia|].
  rewrite Z.mod_small by lia. lia.
Qed.

(** [input, _ := json.Marshal(toolCall.GetArguments())]: nil on error. *)
Definition marshalInput (toolCall : ToolCall ToolArgs) : string :=
  match json_Marshal lib (GetArguments toolCall) with
  | inl bytes => bytes
  | inr _ => ""
  end.

(** The body of [for _, toolCall := range message.GetToolCalls()]. *)
Definition dispatch (l : Locals World ToolArgs Tool)
  (toolCall : ToolCall ToolArgs) : Iter World ToolArgs Tool :=
  let w := loc_world l in
  let tr := loc_trace l in
  let input := marshalInput toolCall in
  let content :=
    messageContent l
    ++ [toolUseBlock (GetID toolCall) (GetName toolCall) input] in
  match GoStrings.Split (GetName toolCall) "__" with
  | [serverName; toolName] =>
      match MCPClients ms !! serverName with
      | None =>
          Continue
            (mkLocals w
               (tr ++ [EvPrintf ("Error: Server not found: "
                                 +:+ serverName +:+ newline)])
               content (toolResults l) (loc_err l))
      | Some mcpClient =>
          match json_Unmarshal lib input with
          | inr e =>
              Continue
                (mkLocals w
                   (tr ++ [EvPrintf ("Error parsing tool arguments: "
                                     +:+ e +:+ newline)])
                   content (toolResults l) (loc_err l))
          | inl toolArgs =>
              let tr := tr ++ [EvCallback MODE_RUN_TOOL toolName] in
              let '(w, tr, toolResultPtr, err) :=
                if callback MODE_RUN_TOOL toolName then
                  let '(w', (ptr, err')) := mcpClient w toolName toolArgs in
                  (w', tr ++ [EvCallTool serverName toolName toolArgs],
                   ptr, err')
                else (w, tr, None, loc_err l) in
              match err with
              | Some e =>
                  let errMsg :=
                    "Error calling tool " +:+ toolName +:+ ": " +:+ e in
                  Continue
                    (mkLocals w (tr ++ [EvCallback MODE_ERROR errMsg])
                       content
                       (toolResults l
                        ++ [errorResult (GetID toolCall) errMsg])
                       err)
              | None =>
                  match toolResultPtr with
                  | None => NilDeref (mkLocals w tr content (toolResults l) err)
                  | Some toolResult =>
                      match result_Content toolResult with
                      | Some items =>
                          Continue
                            (mkLocals w tr content
                               (toolResults l
                                ++ [toolResultBlock (GetID toolCall)
                                      (strings_TrimSpace lib (resultText items))
                                      (PayloadMcp items)])
                               err)
                      | None =>
                          Continue (mkLocals w tr content (toolResults l) err)
                      end
                  end
              end
          end
      end
  | _ =>
      Continue
        (mkLocals w
           (tr ++ [EvPrintf ("Error: Invalid tool name format: "
                             +:+ GetName toolCall +:+ newline)])
           content (toolResults l) (loc_err l))
  end.

Fixpoint toolLoop (toolCalls : list (ToolCall ToolArgs))
  (l : Locals World ToolArgs Tool) : Iter World ToolArgs Tool :=
  match toolCalls with
  | [] => Continue l
  | toolCall :: rest =>
      match dispatch l toolCall with
      | Continue l' => toolLoop rest l'
      | NilDeref l' => NilDeref l'
      end
  end.

(** [if prompt != "" { callback(...); *messages = append(...) }]. *)
Definition addPrompt (prompt : string) (st : State World ToolArgs Tool)
  : State World ToolArgs Tool :=
  if String.eqb prompt "" then st
  else
    appendMessage (userMessage prompt)
      (mkState (world st) (messages st)
         (trace st ++ [EvCallback MODE_USER_PROMPT prompt])).

(** The body of [RunPrompt] up to its return or tail call. *)
Definition body (prompt : string) (st : State World ToolArgs Tool)
  : State World ToolArgs Tool * Next :=
  let st := addPrompt prompt st in
  let llmMessages := messages st in
  match retryLoop true prompt llmMessages (world st) (trace st) None None
          initialBackoff 0 with
  | (w, tr, LoopReturn e) => (mkState w (messages st) tr, Return (Some e))
  | (w, tr, LoopBreak None) => (mkState w (messages st) tr, Panic)
  | (w, tr, LoopBreak (Some message)) =>
      let tr :=
        tr ++ [EvCallback MODE_ASSISTANT_MESSAGE (GetContent message)] in
      let content :=
        if String.eqb (GetContent message) "" then []
        else [textBlock (GetContent message)] in
      match toolLoop (GetToolCalls message) (mkLocals w tr content [] None) with
      | NilDeref l => (mkState (loc_world l) (messages st) (loc_trace l), Panic)
      | Continue l =>
          let st :=
            appendMessage
              (mkHistoryMessage (GetRole message) (messageContent l))
              (mkState (loc_world l) (messages st) (loc_trace l)) in
          if (0 <? length (toolResults l))%nat then
            (foldl (λ st toolResult,
                      appendMessage (toolMessage toolResult) st)
               st (toolResults l),
             Recurse)
          else (st, Return None)
      end
  end.

(** [RunPrompt]; the recursion of the source has no bound, so the model
    counts the calls still allowed. *)
Fixpoint RunPrompt (fuel : nat) (prompt : string)
  (st : State World ToolArgs Tool) : State World ToolArgs Tool * Outcome :=
  match fuel with
  | O => (st, OutOfFuel)
  | S fuel' =>
      match body prompt st with
      | (st', Return err) => (st', Returned err)
      | (st', Panic) => (st', Panicked)
      | (st', Recurse) => RunPrompt fuel' "" st'
      end
  end.

(** [CreateMessage] of the session: the retry loop alone. *)
Definition CreateMessage (prompt : string) (st : State World ToolArgs Tool)
  : State World ToolArgs Tool * LoopExit ToolArgs :=
  let '(w, tr, exit) :=
    retryLoop false prompt (messages st) (world st) (trace st) None None
      initialBackoff 0 in
  (mkState w (messages st) tr, exit).

(** ** Vocabulary of the statements *)

(** The delays slept, the requests sent to the provider, the tools run and
    the messages appended, each in the order of the trace. *)
Definition sleeps (tr : list (Event ToolArgs Tool)) : list Z :=
  omap (λ ev, match ev with EvSleep d => Some d | _ => None end) tr.

Definition requests (tr : list (Event ToolArgs Tool))
  : list (string * list HistoryMessage * list Tool) :=
  omap (λ ev, match ev with
              | EvCreateMessage prompt llmMessages tools =>
                  Some (prompt, llmMessages, tools)
              | _ => None
              end) tr.

Definition toolRuns (tr : list (Event ToolArgs Tool))
  : list (string * string * ToolArgs) :=
  omap (λ ev, match ev with
              | EvCallTool serverName toolName toolArgs =>
                  Some (serverName, toolName, toolArgs)
              | _ => None
              end) tr.

Definition appends (tr : list (Event ToolArgs Tool)) : list HistoryMessage :=
  omap (λ ev, match ev with EvAppend msg => Some msg | _ => None end) tr.

(** The events of one attempt, and of [n] attempts each followed by its
    back-off sleep. *)
Definition attemptEvents (observed : bool) (prompt : string)
  (llmMessages : list HistoryMessage) : list (Event ToolArgs Tool) :=
  (if observed then [EvCallback MODE_CREATE_MESSAGE ""] else [])
  ++ [EvCreateMessage prompt llmMessages (AllTools ms)].

Fixpoint retryEvents (observed : bool) (prompt : string)
  (llmMessages : list HistoryMessage) (n : nat) (backoff : Z)
  : list (Event ToolArgs Tool) :=
  match n with
  | O => []
  | S n' =>
      attemptEvents observed prompt llmMessages ++ [EvSleep backoff]
      ++ retryEvents observed prompt llmMessages n' (nextBackoff backoff)
  end.

(** The provider fails with a transient overload [n] times in a row on the
    same request, taking the world from the first state to the last. *)
Inductive overloadedRun (prompt : string) (llmMessages : list HistoryMessage)
  : World → nat → World → Prop :=
| overloaded_none w : overloadedRun prompt llmMessages w 0 w
| overloaded_again w w1 message e n w2 :
    Provider_CreateMessage ms w prompt llmMessages (AllTools ms)
      = (w1, (message, Some e)) →
    GoStrings.Contains e "overloaded_error" = true →
    overloadedRun prompt llmMessages w1 n w2 →
    overloadedRun prompt llmMessages w (S n) w2.

(** The tool call has a two-part name, a registered server and arguments
    that parse, and the callback runs the invocation. *)
Definition routed (toolCall : ToolCall ToolArgs) (serverName toolName : string)
  (mcpClient : MCPClient World ToolArgs) (toolArgs : ToolArgs) : Prop :=
  GoStrings.Split (GetName toolCall) "__" = [serverName; toolName]
  ∧ MCPClients ms !! serverName = Some mcpClient
  ∧ json_Unmarshal lib (marshalInput toolCall) = inl toolArgs
  ∧ callback MODE_RUN_TOOL toolName = true.

(** The invocation of a routed tool call succeeds in world [w] with a
    payload whose [Content] is nil. *)
Definition yieldsNilContent (w : World) (toolCall : ToolCall ToolArgs)
  (w' : World) : Prop :=
  ∃ serverName toolName mcpClient toolArgs toolResult,
    routed toolCall serverName toolName mcpClient toolArgs
    ∧ mcpClient w toolName toolArgs = (w', (Some toolResult, None))
    ∧ result_Content toolResult = None.

Inductive allNilContent
  : World → list (ToolCall ToolArgs) → World → Prop :=
| nil_content_done w : allNilContent w [] w
| nil_content_next w toolCall w1 rest w2 :
    yieldsNilContent w toolCall w1 →
    allNilContent w1 rest w2 →
    allNilContent w (toolCall :: rest) w2.

(** The [tool_use] block the loop appends for a tool call. *)
Definition toolUseOf (toolCall : ToolCall ToolArgs) : ContentBlock :=
  toolUseBlock (GetID toolCall) (GetName toolCall) (marshalInput toolCall).

(** The text block of the assistant message, if the completion has text. *)
Definition textOf (message : Message ToolArgs) : list ContentBlock :=
  if String.eqb (GetContent message) "" then []
  else [textBlock (GetContent message)].

(** The locals after a tool call that is skipped with a printed error. *)
Definition skipped (l : Locals World ToolArgs Tool)
  (toolCall : ToolCall ToolArgs) (report : string)
  : Locals World ToolArgs Tool :=
  mkLocals (loc_world l) (loc_trace l ++ [EvPrintf report])
    (messageContent l ++ [toolUseOf toolCall]) (toolResults l) (loc_err l).

(** Some tool-role message is appended before some tool is run: what
    appending each result right after its dispatch shows in a round of two
    dispatches. *)
Definition appendedBetweenDispatches (tr : list (Event ToolArgs Tool))
  : Prop :=
  ∃ before toolResult between serverName toolName toolArgs after,
    tr = before ++ EvAppend (toolMessage toolResult) :: between
         ++ EvCallTool serverName toolName toolArgs :: after.

(** The same as a test: [seen] records a tool-role append so far. *)
Fixpoint runsAfterToolAppend (seen : bool) (tr : list (Event ToolArgs Tool))
  : bool :=
  match tr with
  | [] => false
  | EvAppend msg :: tr' =>
      runsAfterToolAppend (seen || String.eqb (msg_Role msg) "tool") tr'
  | EvCallTool _ _ _ :: tr' => seen || runsAfterToolAppend seen tr'
  | _ :: tr' => runsAfterToolAppend seen tr'
  end.

(** Some block of the history is a [tool_result] for the given id. *)
Definition hasToolResult (id : string) (history : list HistoryMessage)
  : Prop :=
  ∃ msg block, msg ∈ history ∧ block ∈ msg_Content msg
               ∧ block_Type block = "tool_result"
               ∧ block_ToolUseID block = id.

End WithSession.

End Turn.

(** * Concrete sessions *)

Module Examples.

Import Turn.

(** Arguments are carried in their serialised form; a tool is its name; the
    world counts the provider calls made. *)
Definition lib : GoLib string := mkGoLib GoStrings.TrimSpaceASCII inl inl.

(** A tool server that answers every call with two text items. *)
Definition echo : MCPClient nat string := λ w toolName toolArgs,
  (w, (Some (mkCallToolResult
               (Some [TextContent ("ran " +:+ toolName); OtherContent;
                      TextContent toolArgs]) false), None)).

(** A tool server whose every call fails. *)
Definition broken : MCPClient nat string := λ w toolName toolArgs,
  (w, (None, Some "connection refused")).

(** A tool server that answers with a nil [Content]. *)
Definition silent : MCPClient nat string := λ w toolName toolArgs,
  (w, (Some (mkCallToolResult None false), None)).

(** A provider that plays a script, one entry per call. *)
Definition scripted (script : list (Returns (Message string)))
  : nat → string → list HistoryMessage → list string
    → nat * Returns (Message string) :=
  λ w prompt llmMessages tools,
    (S w, nth w script (None, Some "script exhausted")).

Definition session (script : list (Returns (Message string)))
  : MCPSession nat string string :=
  mkMCPSession ["fs__read"; "fs__list"]
    {[ "fs" := echo; "net" := broken; "null" := silent ]}
    (scripted script).

Definition answer (content : string) (toolCalls : list (ToolCall string))
  : Message string :=
  mkMessage "assistant" content toolCalls (0, 0)%Z.

Definition completion (content : string) (toolCalls : list (ToolCall string))
  : Returns (Message string) :=
  (Some (answer content toolCalls), None).

Definition fails (text : string) : Returns (Message string) :=
  (None, Some text).

Definition start : State nat string string := mkState 0 [] [].

Definition readCall : ToolCall string := mkToolCall "t1" "fs__read" "{}".
Definition listCall : ToolCall string := mkToolCall "t2" "fs__list" "{a}".
Definition ghostCall : ToolCall string := mkToolCall "t3" "ghost__read" "{}".
Definition netCall : ToolCall string := mkToolCall "t4" "net__get" "{}".
Definition nullCall : ToolCall string := mkToolCall "t5" "null__noop" "{}".
Definition badCall : ToolCall string := mkToolCall "t6" "nodelimiter" "{}".

(** Two tool calls in one completion, then a plain answer. *)
Definition twoTools : list (Returns (Message string)) :=
  [completion "let me look" [readCall; listCall]; completion "done" []].

(** A tool call for a server that is not connected. *)
Definition ghostTool : list (Returns (Message string)) :=
  [completion "" [ghostCall]].

(** A plain answer. *)
Definition plainAnswer : list (Returns (Message string)) :=
  [completion "done" []].

(** One overloaded attempt, then a rejected key. *)
Definition rejected : list (Returns (Message string)) :=
  [fails "529 overloaded_error: try later"; fails "401 invalid x-api-key"].

(** A tool call that fails, one that answers with nil content, and one with
    a name of one part followed by a good one. *)
Definition failingTool : list (Returns (Message string)) :=
  [completion "" [netCall]; completion "the server is down" []].

Definition silentTool : list (Returns (Message string)) :=
  [completion "checking" [nullCall]].

Definition badThenGood : list (Returns (Message string)) :=
  [completion "" [badCall; readCall]; completion "done" []].

(** An overloaded provider. *)
Definition overloaded : list (Returns (Message string)) :=
  replicate 6 (fails "529 overloaded_error: try later").

(** The retry loop of [RunPrompt] for the prompt ["hi"] in a fresh session,
    and the events up to the answer to its first attempt. *)
Definition ask (script : list (Returns (Message string)))
  : nat * list (Event string string) * LoopExit string :=
  retryLoop (session script) cliCallback true "hi"
    (messages (addPrompt "hi" start)) (world (addPrompt "hi" start))
    (trace (addPrompt "hi" start)) None None initialBackoff 0.

Definition firstAttempt (script : list (Returns (Message string)))
  : list (Event string string) :=
  trace (addPrompt "hi" start)
  ++ attemptEvents (session script) true "hi"
       (messages (addPrompt "hi" start)).

(** A history of one assistant message whose [tool_use] has no result. *)
Definition orphanHistory : list HistoryMessage :=
  [mkHistoryMessage "assistant" [toolUseBlock "t1" "fs__read" "{}"]].

(** Five messages; the third holds a [tool_use] whose result is missing. *)
Definition fiveMessages : list HistoryMessage :=
  [mkHistoryMessage "user" [textBlock "one"];
   mkHistoryMessage "assistant" [textBlock "two"];
   mkHistoryMessage "assistant" [toolUseBlock "t1" "fs__read" "{}"];
   mkHistoryMessage "user" [textBlock "four"];
   mkHistoryMessage "assistant" [textBlock "five"]].

End Examples.

(** * Vocabulary for the history *)

Module History.

(** A block of one of the two kinds that the filter of [pruneMessages] may
    remove. *)
Definition isToolBlock (block : ContentBlock) : bool :=
  String.eqb (block_Type block) "tool_use"
  || String.eqb (block_Type block) "tool_result".

(** All the blocks of a history, in order. *)
Definition blocksOf (messages : list HistoryMessage) : list ContentBlock :=
  concat (map msg_Content messages).

(** The blocks of a history that are neither [tool_use] nor [tool_result]. *)
Definition plainBlocks (messages : list HistoryMessage) : list ContentBlock :=
  List.filter (λ block, negb (isToolBlock block)) (blocksOf messages).

(** A message that holds at least one block, none of them of a tool kind. *)
Definition plainMessage (msg : HistoryMessage) : Prop :=
  msg_Content msg ≠ []
  ∧ Forall (λ block, isToolBlock block = false) (msg_Content msg).

End History.

(** * Vocabulary for one round of the turn loop *)

Module Rounds.

Import Turn.

(** The assistant message a round builds from a completion: the text block,
    if any, and one [tool_use] block for each tool call. *)
Definition assistantMessage {ToolArgs : Type} (lib : GoLib ToolArgs)
  (message : Message ToolArgs) : HistoryMessage :=
  mkHistoryMessage (GetRole message)
    (textOf message ++ map (toolUseOf lib) (GetToolCalls message)).

(** The block is a [tool_result] for a [tool_use] among [content]. *)
Definition refersInto (content : list ContentBlock) (result : ContentBlock)
  : Prop :=
  block_Type result = "tool_result"
  ∧ ∃ use, use ∈ content ∧ block_Type use = "tool_use"
           ∧ block_ID use = block_ToolUseID result.

(** Events among which there is no append, no request and no sleep: those
    of a dispatch are callbacks, prints and tool runs. *)
Definition quiet {ToolArgs Tool : Type} (ev : list (Event ToolArgs Tool))
  : Prop :=
  appends ev = [] ∧ requests ev = [] ∧ sleeps ev = [].

(** Walking along a trace from a history: every append extends the
    history, and every request to the provider carries the history as it is
    at that point. *)
Fixpoint carriesHistory {ToolArgs Tool : Type} (history : list HistoryMessage)
  (tr : list (Event ToolArgs Tool)) : Prop :=
  match tr with
  | [] => True
  | EvAppend msg :: tr' => carriesHistory (history ++ [msg]) tr'
  | EvCreateMessage _ llmMessages _ :: tr' =>
      llmMessages = history ∧ carriesHistory history tr'
  | _ :: tr' => carriesHistory history tr'
  end.

End Rounds.

(** * The session around the turn loop *)

Module Session.

Import Turn.

(** [strings.SplitN(s, sep, n)] for a non-empty separator: at most [n] parts,
    the last one the unsplit rest; all the parts for a negative [n]; nil for
    zero. *)
Definition SplitN (s sep : string) (n : Z) : list string :=
  if (n =? 0)%Z then []
  else if (n <? 0)%Z then GoStrings.Split s sep
  else
    GoStrings.genSplit (Nat.min (Z.to_nat n - 1) (String.length s)) s sep.

(** The package-level variables that the command-line flags fill in and the
    provider set-up reads. *)
Record Flags : Type := mkFlags {
  anthropicAPIKey : string;
  anthropicBaseURL : string;
  openaiAPIKey : string;
  openaiBaseURL : string;
  googleAPIKey : string }.

(** The constructors of the four provider packages, taken as given.  Those
    of [ollama] and [google] return an error beside the provider. *)
Record Constructors (P : Type) : Type := mkConstructors {
  anthropic_NewProvider : string → string → string → string → P;
  ollama_NewProvider : string → string → Returns P;
  openai_NewProvider : string → string → string → string → P;
  google_NewProvider : string → string → string → Returns P }.
Arguments mkConstructors {P}.
Arguments anthropic_NewProvider {P}.
Arguments ollama_NewProvider {P}.
Arguments openai_NewProvider {P}.
Arguments google_NewProvider {P}.

Definition invalidModelFormat (modelString : string) : error :=
  "invalid model format. Expected provider:model, got " +:+ modelString.

Definition noAnthropicKey : error :=
  "Anthropic API key not provided. Use --anthropic-api-key flag or ANTHROPIC_API_KEY environment variable".

Definition noOpenAIKey : error :=
  "OpenAI API key not provided. Use --openai-api-key flag or OPENAI_API_KEY environment variable".

Section WithEnvironment.

Context {P : Type}.
Variable flags : Flags.
Variable os_Getenv : string → string.
Variable new : Constructors P.

(** [apiKey := flag; if apiKey == "" { apiKey = os.Getenv(name) }]. *)
Definition keyOr (flag name : string) : string :=
  if String.eqb flag "" then os_Getenv name else flag.

(** The key for Google: the flag, then [GOOGLE_API_KEY], then
    [GEMINI_API_KEY]. *)
Definition googleKey : string :=
  let apiKey := keyOr (googleAPIKey flags) "GOOGLE_API_KEY" in
  if String.eqb apiKey "" then os_Getenv "GEMINI_API_KEY" else apiKey.

(** The [switch provider] of the function [createProvider]. *)
Definition selectProvider (provider model systemPrompt : string)
  : Returns P :=
  if String.eqb provider "anthropic" then
    let apiKey := keyOr (anthropicAPIKey flags) "ANTHROPIC_API_KEY" in
    if String.eqb apiKey "" then (None, Some noAnthropicKey)
    else
      (Some (anthropic_NewProvider new apiKey (anthropicBaseURL flags)
               model systemPrompt), None)
  else if String.eqb provider "ollama" then
    ollama_NewProvider new model systemPrompt
  else if String.eqb provider "openai" then
    let apiKey := keyOr (openaiAPIKey flags) "OPENAI_API_KEY" in
    if String.eqb apiKey "" then (None, Some noOpenAIKey)
    else
      (Some (openai_NewProvider new apiKey (openaiBaseURL flags)
               model systemPrompt), None)
  else if String.eqb provider "google" then
    google_NewProvider new googleKey model systemPrompt
  else (None, Some ("unsupported provider: " +:+ provider)).

(** [createProvider] of [cmd/root.go]. *)
Definition createProvider (modelString systemPrompt : string) : Returns P :=
  match SplitN modelString ":" 2 with
  | provider :: model :: _ => selectProvider provider model systemPrompt
  | _ => (None, Some (invalidModelFormat modelString))
  end.

(** The fields of [MCPSession] that the provider set-up reads and writes. *)
Record Setup : Type := mkSetup {
  SystemPrompt : string;
  Model : string;
  Provider : option P }.

(** The [switch provider] of the method [CreateProvider], which assigns to
    [ms.Provider]; the branches for [anthropic] and [openai] return nil, those
    for [ollama] and [google] store what the constructor returns and return
    its error. *)
Definition assignProvider (ms : Setup) (provider model : string)
  : Setup * option error :=
  if String.eqb provider "anthropic" then
    let apiKey := keyOr (anthropicAPIKey flags) "ANTHROPIC_API_KEY" in
    if String.eqb apiKey "" then (ms, Some noAnthropicKey)
    else
      (mkSetup (SystemPrompt ms) (Model ms)
         (Some (anthropic_NewProvider new apiKey (anthropicBaseURL flags)
                  model (SystemPrompt ms))),
       None)
  else if String.eqb provider "ollama" then
    let '(provider', err) := ollama_NewProvider new model (SystemPrompt ms) in
    (mkSetup (SystemPrompt ms) (Model ms) provider', err)
  else if String.eqb provider "openai" then
    let apiKey := keyOr (openaiAPIKey flags) "OPENAI_API_KEY" in
    if String.eqb apiKey "" then (ms, Some noOpenAIKey)
    else
      (mkSetup (SystemPrompt ms) (Model ms)
         (Some (openai_NewProvider new apiKey (openaiBaseURL flags)
                  model (SystemPrompt ms))),
       None)
  else if String.eqb provider "google" then
    let '(provider', err) :=
      google_NewProvider new googleKey model (SystemPrompt ms) in
    (mkSetup (SystemPrompt ms) (Model ms) provider', err)
  else (ms, Some ("unsupported provider: " +:+ provider)).

(** The method [CreateProvider] of the session. *)
Definition CreateProvider (ms : Setup) : Setup * option error :=
  if String.eqb (SystemPrompt ms) "" then
    (ms, Some "system prompt is not set")
  else if String.eqb (Model ms) "" then (ms, Some "model is not set")
  else
    match SplitN (Model ms) ":" 2 with
    | provider :: model :: _ => assignProvider ms provider model
    | _ => (ms, Some (invalidModelFormat (Model ms)))
    end.

End WithEnvironment.

Arguments Setup : clear implicits.
Arguments mkSetup {P}.

(** ** The system prompt file and NewSession *)

(** [InitConfig], what [NewSession] is called with. *)
Record InitConfig : Type := mkInitConfig {
  AnthropicAPIKey : string;
  AnthropicBaseURL : string;
  OpenAIAPIKey : string;
  OpenAIBaseURL : string;
  GoogleAPIKey : string;
  ModelFlag : string;
  SystemPromptFile : string;
  DebugMode : bool;
  ConfigFile : string;
  InTerminal : bool }.

Section WithFiles.

Context {P Connected : Type}.
Variable flags : Flags.
Variable os_Getenv : string → string.
Variable new : Constructors P.

(** [os.ReadFile]: the content of the file, or the error. *)
Variable os_ReadFile : string → string + error.

(** [json.Unmarshal] into a struct whose one field is [systemPrompt]: the
    value of the field, empty when the document has none, or the error. *)
Variable unmarshalSystemPrompt : string → string + error.

(** What [NewSession] does once the provider is there: [LoadMCPConfig] on the
    configuration file, [createMCPClients] and the listing of the tools. *)
Variable connect : string → Setup P → Returns Connected.

(** The function [loadSystemPrompt] of [cmd/root.go]. *)
Definition loadSystemPrompt (filePath : string) : string * option error :=
  if String.eqb filePath "" then ("", None)
  else
    match os_ReadFile filePath with
    | inr err => ("", Some ("error reading config file: " +:+ err))
    | inl data =>
        match unmarshalSystemPrompt data with
        | inr err => ("", Some ("error parsing config file: " +:+ err))
        | inl systemPrompt => (systemPrompt, None)
        end
    end.

(** The method [LoadSystemPrompt] of the session, which assigns to
    [ms.SystemPrompt]. *)
Definition LoadSystemPrompt (filePath : string) (ms : Setup P)
  : Setup P * option error :=
  if String.eqb filePath "" then (ms, None)
  else
    match os_ReadFile filePath with
    | inr err => (ms, Some ("error reading config file: " +:+ err))
    | inl data =>
        match unmarshalSystemPrompt data with
        | inr err => (ms, Some ("error parsing config file: " +:+ err))
        | inl systemPrompt =>
            (mkSetup systemPrompt (Model ms) (Provider ms), None)
        end
    end.

(** [NewSession]; the log level it sets first is not part of the model. *)
Definition NewSession (cfg : InitConfig) : Returns Connected :=
  let ms := mkSetup "" (ModelFlag cfg) None in
  match LoadSystemPrompt (SystemPromptFile cfg) ms with
  | (_, Some err) =>
      (None, Some ("error loading system prompt: " +:+ err))
  | (ms, None) =>
      match CreateProvider flags os_Getenv new ms with
      | (_, Some err) =>
          (None, Some ("error creating provider: " +:+ err))
      | (ms, None) =>
          match SplitN (ModelFlag cfg) ":" 2 with
          | _ :: _ :: _ => connect (ConfigFile cfg) ms
          | _ => (None, Some (invalidModelFormat (ModelFlag cfg)))
          end
      end
  end.

End WithFiles.

(** ** Close *)

(** [Close] of one client, acting on the world outside. *)
Abbreviation Closer World := (World → World * option error)%type.



(** ** The main interaction loop *)

(** What the form of one pass returns: the prompt entered, the abort of the
    user, or another error. *)
Inductive FormResult : Type :=
| Entered (prompt : string)
| ErrUserAborted
| FormError (e : error).

(** How the loop of [runMCPHost] is left: [return err], a crash, or, in the
    model, the end of the inputs or of the fuel of [RunPrompt]. *)
Inductive HostExit : Type :=
| Exited (err : option error)
| Crashed
| AwaitingInput
| Exhausted.

Section WithHost.

Context {World ToolArgs Tool : Type}.
Variable lib : GoLib ToolArgs.
Variable ms : MCPSession World ToolArgs Tool.
Variable messageWindow : Z.

(** [handleSlashCommand], defined in another file: whether the prompt was a
    command, and its error. *)
Variable handleSlashCommand : string → list HistoryMessage → bool * option error.

(** One prompt that is not a command: the history is pruned unless it is
    empty, then [RunPrompt] runs with the callback of the command line. *)
Definition turn (fuel : nat) (prompt : string)
  (st : State World ToolArgs Tool) : State World ToolArgs Tool * Outcome :=
  match
    if (0 <? length (messages st))%nat
    then Prune.pruneMessages messageWindow (messages st)
    else Some (messages st)
  with
  | None => (st, Panicked)
  | Some pruned =>
      RunPrompt lib ms cliCallback fuel prompt
        (mkState (world st) pruned (trace st))
  end.

(** The [for] loop of [runMCPHost], one pass for each result of the form. *)
Fixpoint promptLoop (fuel : nat) (inputs : list FormResult)
  (st : State World ToolArgs Tool) : State World ToolArgs Tool * HostExit :=
  match inputs with
  | [] => (st, AwaitingInput)
  | ErrUserAborted :: _ => (st, Exited None)
  | FormError e :: _ => (st, Exited (Some e))
  | Entered prompt :: rest =>
      if String.eqb prompt "" then promptLoop fuel rest st
      else
        match handleSlashCommand prompt (messages st) with
        | (_, Some e) => (st, Exited (Some e))
        | (true, None) => promptLoop fuel rest st
        | (false, None) =>
            match turn fuel prompt st with
            | (st', Returned None) => promptLoop fuel rest st'
            | (st', Returned (Some e)) => (st', Exited (Some e))
            | (st', Panicked) => (st', Crashed)
            | (st', OutOfFuel) => (st', Exhausted)
            end
        end
  end.

End WithHost.

End Session.

(** * More concrete inputs *)

Module Scenarios.

Import Turn.

(** A question, the tool call it leads to and the result of the tool. *)
Definition pairedHistory : list HistoryMessage :=
  [mkHistoryMessage "user" [textBlock "list the files"];
   mkHistoryMessage "assistant" [toolUseBlock "t1" "fs__list" "{}"];
   mkHistoryMessage "tool" [toolResultBlock "t1" "a.txt" PayloadNil]].

(** A conversation without tools. *)
Definition plainHistory : list HistoryMessage :=
  [mkHistoryMessage "user" [textBlock "one"];
   mkHistoryMessage "assistant" [textBlock "two"];
   mkHistoryMessage "user" [textBlock "three"]].

(** A tool call whose qualified name ends with the separator: the server is
    connected and the tool name is empty. *)
Definition unnamedCall : ToolCall string := mkToolCall "t7" "fs__" "{}".

Definition unnamedTool : list (Returns (Message string)) :=
  [Examples.completion "" [unnamedCall]].

(** Providers that record how they were built. *)
Definition recording : Session.Constructors (list string) :=
  Session.mkConstructors
    (λ apiKey baseURL model systemPrompt,
       ["anthropic"; apiKey; baseURL; model; systemPrompt])
    (λ model systemPrompt, (Some ["ollama"; model; systemPrompt], None))
    (λ apiKey baseURL model systemPrompt,
       ["openai"; apiKey; baseURL; model; systemPrompt])
    (λ apiKey model systemPrompt,
       (Some ["google"; apiKey; model; systemPrompt], None)).

(** No key on the command line, and all three keys on the command line. *)
Definition noFlags : Session.Flags := Session.mkFlags "" "" "" "" "".

Definition allFlags : Session.Flags :=
  Session.mkFlags "sk-ant" "" "sk-oai" "" "g-key".

(** An environment with no variable set, and one with a key for Anthropic. *)
Definition emptyEnv : string → string := λ _, "".

Definition anthropicEnv : string → string := λ name,
  if String.eqb name "ANTHROPIC_API_KEY" then "sk-env" else "".

(** A call of [NewSession] that names no system prompt file, a disk with
    no file on it, a parser that finds the field empty, and a rest of the
    set-up that hands the session on. *)
Definition noPromptFile : Session.InitConfig :=
  Session.mkInitConfig "sk-ant" "" "" "" "" "anthropic:claude" "" false ""
    true.

Definition noFiles : string → string + error :=
  λ _, inr "no such file or directory".

Definition noField : string → string + error := λ _, inl "".

Definition handOn : string → Session.Setup (list string)
                    → Returns (Session.Setup (list string)) :=
  λ _ ms, (Some ms, None).

(** A session that has a history of five messages already. *)
Definition resumed : State nat string string :=
  mkState 0 Examples.fiveMessages [].

(** No prompt is a command. *)
Definition noCommands : string → list HistoryMessage → bool * option error :=
  λ _ _, (false, None).

End Scenarios.

(** * Properties of pruneMessages *)

Module PruneFacts.

Import Prune.

Lemma length_omap_le {A B} (f : A → option B) (l : list A) :
  (length (omap f l) ≤ length l)%nat.
Proof.
  induction l as [|a l IH]; csimpl; [lia|].
  destruct (f a); simpl; lia.
Qed.

Lemma lastWindow_length messageWindow messages :
  (0 ≤ messageWindow < Z.of_nat (length messages))%Z →
  Z.of_nat (length (lastWindow messageWindow messages)) = messageWindow.
Proof.
  intros Hw. unfold lastWindow. rewrite length_drop. lia.
Qed.

(** Beyond the window the function runs its two passes. *)
Lemma pruneMessages_beyond messageWindow messages :
  (0 ≤ messageWindow < Z.of_nat (length messages))%Z →
  pruneMessages messageWindow messages =
    Some (omap (pruneMessage (collectIds (lastWindow messageWindow messages)))
            (lastWindow messageWindow messages)).
Proof.
  intros Hw. unfold pruneMessages.
  destruct (Z.leb_spec (Z.of_nat (length messages)) messageWindow); [lia|].
  destruct (Z.ltb_spec messageWindow 0); [lia|]. reflexivity.
Qed.

Lemma pruneMessages_within messageWindow messages :
  (Z.of_nat (length messages) ≤ messageWindow)%Z →
  pruneMessages messageWindow messages = Some messages.
Proof.
  intros Hw. unfold pruneMessages.
  destruct (Z.leb_spec (Z.of_nat (length messages)) messageWindow); [|lia].
  reflexivity.
Qed.

(** The result never has more messages than the window. *)
Lemma pruneMessages_length messageWindow messages out :
  (0 ≤ messageWindow)%Z →
  pruneMessages messageWindow messages = Some out →
  (Z.of_nat (length out) ≤ messageWindow)%Z.
Proof.
  intros Hw Hout.
  destruct (Z.le_gt_cases (Z.of_nat (length messages)) messageWindow) as [Hle|Hgt].
  - rewrite pruneMessages_within in Hout by exact Hle.
    injection Hout as <-. exact Hle.
  - rewrite pruneMessages_beyond in Hout by lia.
    injection Hout as <-.
    pose proof (length_omap_le
                  (pruneMessage (collectIds (lastWindow messageWindow messages)))
                  (lastWindow messageWindow messages)) as Hlen.
    pose proof (lastWindow_length messageWindow messages) as Hkept.
    lia.
Qed.

(** A left fold whose step adds the elements that satisfy [Q] to what [P]
    holds of. *)
Lemma foldl_collects {A S} (f : S → A → S) (P : S → Prop) (Q : A → Prop) :
  (∀ s a, P (f s a) ↔ P s ∨ Q a) →
  ∀ l s, P (foldl f s l) ↔ P s ∨ ∃ a, a ∈ l ∧ Q a.
Proof.
  intros Hstep l. induction l as [|a l IH]; intros s; simpl.
  - split; [auto|]. intros [H|(a & Ha & _)]; [exact H|]. inversion Ha.
  - rewrite IH, Hstep. split.
    + intros [[H|H]|(b & Hb & HQ)]; [auto| |].
      * right. exists a. split; [constructor|exact H].
      * right. exists b. split; [by constructor|exact HQ].
    + intros [H|(b & Hb & HQ)]; [auto|].
      apply elem_of_cons in Hb as [->|Hb]; [auto|].
      right. exists b. auto.
Qed.

Lemma lookupBool_empty k : lookupBool ∅ k = false.
Proof. unfold lookupBool. by rewrite lookup_empty. Qed.

Lemma lookupBool_insert (m : gmap string bool) k k' :
  lookupBool (<[k:=true]> m) k' = true ↔ lookupBool m k' = true ∨ k = k'.
Proof.
  unfold lookupBool. destruct (decide (k = k')) as [->|Hne].
  - rewrite lookup_insert_eq. simpl. tauto.
  - rewrite lookup_insert_ne by exact Hne. tauto.
Qed.

Lemma collectBlock_use ids block k :
  lookupBool (fst (collectBlock ids block)) k = true ↔
  lookupBool (fst ids) k = true
  ∨ (block_Type block = "tool_use" ∧ block_ID block = k).
Proof.
  destruct ids as [uses results]. unfold collectBlock.
  destruct (String.eqb_spec (block_Type block) "tool_use") as [Hu|Hu]; simpl.
  - rewrite lookupBool_insert. tauto.
  - destruct (String.eqb (block_Type block) "tool_result"); simpl; tauto.
Qed.

Lemma collectBlock_result ids block k :
  lookupBool (snd (collectBlock ids block)) k = true ↔
  lookupBool (snd ids) k = true
  ∨ (block_Type block = "tool_result" ∧ block_ToolUseID block = k).
Proof.
  destruct ids as [uses results]. unfold collectBlock.
  destruct (String.eqb_spec (block_Type block) "tool_use") as [Hu|Hu]; simpl.
  - rewrite Hu. split; [auto|]. intros [H|[H _]]; [exact H|discriminate].
  - destruct (String.eqb_spec (block_Type block) "tool_result") as [Hr|Hr];
      simpl.
    + rewrite lookupBool_insert. tauto.
    + tauto.
Qed.

(** What the first pass collects: the ids of the [tool_use] blocks and the
    ids the [tool_result] blocks refer to. *)
Lemma collectIds_use messages k :
  lookupBool (fst (collectIds messages)) k = true ↔
  ∃ use, occurs "tool_use" use messages ∧ block_ID use = k.
Proof.
  unfold collectIds.
  rewrite (foldl_collects collectMessage
             (λ ids, lookupBool (fst ids) k = true)
             (λ msg, ∃ use, use ∈ msg_Content msg
                            ∧ block_Type use = "tool_use"
                            ∧ block_ID use = k)).
  - simpl. rewrite lookupBool_empty. unfold occurs. split.
    + intros [H|(msg & Hmsg & use & Huse & Ht & Hid)]; [discriminate|].
      exists use. split; [|exact Hid]. exists msg. auto.
    + intros (use & (msg & Hmsg & Huse & Ht) & Hid).
      right. exists msg. split; [exact Hmsg|]. exists use. auto.
  - intros ids msg. unfold collectMessage.
    apply (foldl_collects collectBlock
             (λ ids, lookupBool (fst ids) k = true)
             (λ use, block_Type use = "tool_use" ∧ block_ID use = k)).
    intros s a. apply collectBlock_use.
Qed.

Lemma collectIds_result messages k :
  lookupBool (snd (collectIds messages)) k = true ↔
  ∃ res, occurs "tool_result" res messages ∧ block_ToolUseID res = k.
Proof.
  unfold collectIds.
  rewrite (foldl_collects collectMessage
             (λ ids, lookupBool (snd ids) k = true)
             (λ msg, ∃ res, res ∈ msg_Content msg
                            ∧ block_Type res = "tool_result"
                            ∧ block_ToolUseID res = k)).
  - simpl. rewrite lookupBool_empty. unfold occurs. split.
    + intros [H|(msg & Hmsg & res & Hres & Ht & Hid)]; [discriminate|].
      exists res. split; [|exact Hid]. exists msg. auto.
    + intros (res & (msg & Hmsg & Hres & Ht) & Hid).
      right. exists msg. split; [exact Hmsg|]. exists res. auto.
  - intros ids msg. unfold collectMessage.
    apply (foldl_collects collectBlock
             (λ ids, lookupBool (snd ids) k = true)
             (λ res, block_Type res = "tool_result"
                     ∧ block_ToolUseID res = k)).
    intros s a. apply collectBlock_result.
Qed.

Lemma elem_of_prunedBlocks ids msg block :
  block ∈ prunedBlocks ids msg ↔
  block ∈ msg_Content msg ∧ keepBlock ids block = true.
Proof.
  unfold prunedBlocks. rewrite !list_elem_of_In.
  apply List.filter_In.
Qed.

(** A text block is never filtered out. *)
Lemma keepBlock_text ids block :
  block_Type block = "text" → keepBlock ids block = true.
Proof. intros Ht. unfold keepBlock. rewrite Ht. reflexivity. Qed.

Lemma hasTextBlock_survives ids msg :
  hasTextBlock msg = true → prunedBlocks ids msg ≠ [].
Proof.
  unfold hasTextBlock. rewrite List.existsb_exists.
  intros (block & Hin & Ht) Hnil.
  apply String.eqb_eq in Ht.
  assert (Hsurv : block ∈ prunedBlocks ids msg).
  { apply elem_of_prunedBlocks. split.
    - by apply list_elem_of_In.
    - by apply keepBlock_text. }
  rewrite Hnil in Hsurv. inversion Hsurv.
Qed.

Lemma length_pos_nonempty {A} (l : list A) :
  (0 <? length l)%nat = true ↔ l ≠ [].
Proof.
  destruct l; simpl; split; intros H; try done.
Qed.

(** The decision of the second pass, whatever the role. *)
Lemma pruneMessage_kept ids msg :
  prunedBlocks ids msg ≠ [] →
  pruneMessage ids msg =
    Some (mkHistoryMessage (msg_Role msg) (prunedBlocks ids msg)).
Proof.
  intros Hne. apply length_pos_nonempty in Hne.
  unfold pruneMessage. cbv zeta. rewrite Hne. simpl.
  destruct (String.eqb (msg_Role msg) "assistant"); reflexivity.
Qed.

Lemma pruneMessage_dropped ids msg :
  prunedBlocks ids msg = [] →
  hasTextBlock msg = false →
  pruneMessage ids msg = None.
Proof.
  intros Hnil Htext. unfold pruneMessage. cbv zeta.
  rewrite Hnil, Htext. simpl.
  destruct (String.eqb (msg_Role msg) "assistant"); reflexivity.
Qed.

Lemma pruneMessage_None ids msg :
  pruneMessage ids msg = None ↔
  prunedBlocks ids msg = [] ∧ hasTextBlock msg = false.
Proof.
  split.
  - intros Hdrop.
    destruct (prunedBlocks ids msg) as [|b bs] eqn:Hblocks.
    + split; [reflexivity|].
      destruct (hasTextBlock msg) eqn:Htext; [|reflexivity].
      by apply (hasTextBlock_survives ids) in Htext.
    + rewrite pruneMessage_kept in Hdrop; [discriminate|].
      by rewrite Hblocks.
  - intros [Hnil Htext]. by apply pruneMessage_dropped.
Qed.

Lemma pruneMessage_Some ids msg msg' :
  pruneMessage ids msg = Some msg' →
  msg' = mkHistoryMessage (msg_Role msg) (prunedBlocks ids msg)
  ∧ prunedBlocks ids msg ≠ [].
Proof.
  intros Hkeep.
  destruct (prunedBlocks ids msg) as [|b bs] eqn:Hblocks.
  - destruct (hasTextBlock msg) eqn:Htext.
    + by apply (hasTextBlock_survives ids) in Htext.
    + rewrite pruneMessage_dropped in Hkeep by assumption. discriminate.
  - rewrite pruneMessage_kept in Hkeep by (by rewrite Hblocks).
    rewrite Hblocks in Hkeep. injection Hkeep as <-. done.
Qed.

(** The blocks of the result are the blocks of the window that the filter
    keeps: dropping whole messages loses none of them. *)
Lemma occurs_pruned ids kept type block :
  occurs type block (omap (pruneMessage ids) kept) ↔
  occurs type block kept ∧ keepBlock ids block = true.
Proof.
  unfold occurs. split.
  - intros (msg' & Hmsg' & Hblock & Ht).
    apply list_elem_of_omap in Hmsg' as (msg & Hmsg & Hprune).
    apply pruneMessage_Some in Hprune as [-> _]. simpl in Hblock.
    apply elem_of_prunedBlocks in Hblock as [Hin Hkeep].
    split; [|exact Hkeep]. exists msg. auto.
  - intros [(msg & Hmsg & Hblock & Ht) Hkeep].
    assert (Hsurv : block ∈ prunedBlocks ids msg)
      by (by apply elem_of_prunedBlocks).
    exists (mkHistoryMessage (msg_Role msg) (prunedBlocks ids msg)).
    split; [|by split].
    apply list_elem_of_omap. exists msg. split; [exact Hmsg|].
    apply pruneMessage_kept. intros Hnil. rewrite Hnil in Hsurv.
    inversion Hsurv.
Qed.

(** After the two passes every [tool_result] has its [tool_use] and every
    [tool_use] its [tool_result]. *)
Lemma pruned_paired kept :
  paired (omap (pruneMessage (collectIds kept)) kept).
Proof.
  split.
  - intros res Hres. apply occurs_pruned in Hres as [Hocc Hkeep].
    assert (Ht : block_Type res = "tool_result")
      by (destruct Hocc as (? & ? & ? & Ht); exact Ht).
    unfold keepBlock in Hkeep. rewrite Ht in Hkeep. simpl in Hkeep.
    apply collectIds_use in Hkeep as (use & Huse & Hid).
    exists use. split; [|exact Hid].
    apply occurs_pruned. split; [exact Huse|].
    assert (Hu : block_Type use = "tool_use")
      by (destruct Huse as (? & ? & ? & Hu); exact Hu).
    unfold keepBlock. rewrite Hu. simpl.
    apply collectIds_result. exists res. auto.
  - intros use Huse. apply occurs_pruned in Huse as [Hocc Hkeep].
    assert (Hu : block_Type use = "tool_use")
      by (destruct Hocc as (? & ? & ? & Hu); exact Hu).
    unfold keepBlock in Hkeep. rewrite Hu in Hkeep. simpl in Hkeep.
    apply collectIds_result in Hkeep as (res & Hres & Hid).
    exists res. split; [|exact Hid].
    apply occurs_pruned. split; [exact Hres|].
    assert (Ht : block_Type res = "tool_result")
      by (destruct Hres as (? & ? & ? & Ht); exact Ht).
    unfold keepBlock. rewrite Ht. simpl.
    apply collectIds_use. exists use. auto.
Qed.

(** ** The claims about pruning *)

(** C8. Pruning is idempotent: for every message sequence and every window
    [w > 0], pruning returns a sequence, and pruning that sequence again with
    the same window returns it unchanged. *)
Theorem pruneMessages_idempotent messageWindow messages :
  (0 < messageWindow)%Z →
  ∃ out, pruneMessages messageWindow messages = Some out
         ∧ pruneMessages messageWindow out = Some out.
Proof.
  intros Hw.
  destruct (Z.le_gt_cases (Z.of_nat (length messages)) messageWindow)
    as [Hle|Hgt].
  - exists messages. split; by apply pruneMessages_within.
  - eexists. split; [apply pruneMessages_beyond; lia|].
    apply pruneMessages_within.
    apply (pruneMessages_length messageWindow messages); [lia|].
    apply pruneMessages_beyond. lia.
Qed.

Lemma pruneMessages_idempotent_witness :
  (0 < 3)%Z
  ∧ ∃ out, pruneMessages 3 Examples.fiveMessages = Some out
           ∧ pruneMessages 3 out = Some out.
Proof.
  split; [lia|]. apply (pruneMessages_idempotent 3 Examples.fiveMessages). lia.
Defined.

(** C2, as stated, fails: a history that fits in the window is returned as
    it is, with the orphan [tool_use] it holds. *)
Lemma pruneMessages_orphan_within_window :
  pruneMessages 10 Examples.orphanHistory = Some Examples.orphanHistory
  ∧ ¬ paired Examples.orphanHistory.
Proof.
  split; [reflexivity|].
  intros [_ Huse].
  destruct (Huse (toolUseBlock "t1" "fs__read" "{}"))
    as (res & (msg & Hmsg & Hres & Ht) & _).
  { eexists. split; [constructor|]. split; [constructor|reflexivity]. }
  unfold Examples.orphanHistory in Hmsg.
  apply elem_of_cons in Hmsg as [->|Hmsg]; [|inversion Hmsg].
  simpl in Hres.
  apply elem_of_cons in Hres as [->|Hres]; [|inversion Hres].
  discriminate Ht.
Qed.

(** C2, amended. For every message sequence longer than the window
    [w > 0], in the output of pruning every surviving [tool_result] refers to
    the id of a surviving [tool_use] and every surviving [tool_use] has a
    surviving [tool_result] that refers to it, also after whole messages
    have been dropped. *)
Theorem pruneMessages_paired messageWindow messages :
  (0 < messageWindow)%Z →
  (messageWindow < Z.of_nat (length messages))%Z →
  ∃ out, pruneMessages messageWindow messages = Some out ∧ paired out.
Proof.
  intros Hw Hlen. eexists. split; [apply pruneMessages_beyond; lia|].
  apply pruned_paired.
Qed.

Lemma pruneMessages_paired_witness :
  (0 < 3)%Z ∧ (3 < Z.of_nat (length Examples.fiveMessages))%Z
  ∧ ∃ out, pruneMessages 3 Examples.fiveMessages = Some out ∧ paired out.
Proof.
  split; [lia|]. split; [simpl; lia|].
  apply (pruneMessages_paired 3 Examples.fiveMessages); simpl; lia.
Defined.

(** C9. After the block filter, an assistant message is left out exactly
    when no block of it survives and it had no text block; a message of
    another role is kept exactly when it had a text block or a block of it
    survives, and a kept message carries the surviving blocks. *)
Theorem pruneMessage_drop_rule ids msg :
  (msg_Role msg = "assistant" →
     (pruneMessage ids msg = None ↔
      prunedBlocks ids msg = [] ∧ hasTextBlock msg = false))
  ∧ (msg_Role msg ≠ "assistant" →
     (is_Some (pruneMessage ids msg) ↔
      hasTextBlock msg = true ∨ prunedBlocks ids msg ≠ []))
  ∧ (∀ msg', pruneMessage ids msg = Some msg' →
             msg' = mkHistoryMessage (msg_Role msg) (prunedBlocks ids msg)).
Proof.
  split; [|split].
  - intros _. apply pruneMessage_None.
  - intros _. split.
    + intros [msg' Hkeep]. right. by apply pruneMessage_Some in Hkeep as [_ ?].
    + intros Hwhy. rewrite pruneMessage_kept; [by eexists|].
      destruct Hwhy as [Htext|Hne]; [|exact Hne].
      by apply hasTextBlock_survives.
  - intros msg' Hkeep. by apply pruneMessage_Some in Hkeep as [? _].
Qed.

(** An assistant message whose only block is an orphan [tool_use] is left
    out. *)
Lemma pruneMessage_drop_rule_witness :
  msg_Role (mkHistoryMessage "assistant" [toolUseBlock "t1" "fs__read" "{}"])
  = "assistant"
  ∧ pruneMessage (∅, ∅)
      (mkHistoryMessage "assistant" [toolUseBlock "t1" "fs__read" "{}"])
    = None.
Proof.
  split; [reflexivity|].
  apply (proj1 (pruneMessage_drop_rule (∅, ∅)
                  (mkHistoryMessage "assistant"
                     [toolUseBlock "t1" "fs__read" "{}"]))
           eq_refl).
  split; reflexivity.
Defined.

End PruneFacts.

(** * Properties of the string functions *)

Module GoStringsFacts.

Import GoStrings.

Lemma prefix_from sep s :
  String.prefix sep s = true → s = sep +:+ from (String.length sep) s.
Proof.
  revert s. induction sep as [|a sep IH]; intros s Hpre.
  - by destruct s.
  - destruct s as [|b s]; [discriminate|]. simpl in Hpre.
    destruct (ascii_dec a b) as [->|]; [|discriminate].
    change (String b s = String b (sep +:+ from (String.length sep) s)).
    f_equal. by apply IH.
Qed.

Lemma Index_unfold s sep :
  Index s sep =
  if String.prefix sep s then Some 0%nat
  else match s with
       | EmptyString => None
       | String _ rest => S <$> Index rest sep
       end.
Proof. by destruct s. Qed.

(** [Index] finds an occurrence: the string is the part before it, the
    separator and the part after it. *)
Lemma Index_Some s sep m :
  Index s sep = Some m →
  s = upto m s +:+ sep +:+ from (m + String.length sep) s
  ∧ String.length (upto m s) = m.
Proof.
  revert m. induction s as [|c s IH]; intros m; rewrite Index_unfold.
  - destruct (String.prefix sep "") eqn:Hpre; [|discriminate].
    intros [= <-]. split; [|reflexivity]. by apply prefix_from in Hpre.
  - destruct (String.prefix sep (String c s)) eqn:Hpre.
    + intros [= <-]. split; [|reflexivity]. by apply prefix_from in Hpre.
    + destruct (Index s sep) as [m'|] eqn:Hidx; [|discriminate].
      intros [= <-]. destruct (IH m' eq_refl) as [Heq Hlen].
      split; [|simpl; by rewrite Hlen].
      change (String c s
              = String c (upto m' s +:+ sep
                          +:+ from (m' + String.length sep) s)).
      by rewrite <- Heq.
Qed.

Lemma genSplit_single rounds s sep part :
  genSplit rounds s sep = [part] → part = s.
Proof.
  destruct rounds as [|rounds]; simpl; [by intros [= <-]|].
  destruct (Index s sep) as [m|]; [|by intros [= <-]].
  destruct rounds as [|rounds]; simpl; [discriminate|].
  destruct (Index _ sep); discriminate.
Qed.

(** A name that [Split] cuts in two is cut at the first occurrence of the
    separator. *)
Lemma Split_two s sep first second :
  Split s sep = [first; second] →
  Index s sep = Some (String.length first)
  ∧ s = first +:+ sep +:+ second.
Proof.
  unfold Split. destruct (String.length s) as [|rounds]; simpl;
    [discriminate|].
  destruct (Index s sep) as [m|] eqn:Hidx; [|discriminate].
  intros [= <- Hrest]. apply genSplit_single in Hrest as ->.
  apply Index_Some in Hidx as [Heq Hlen].
  rewrite Hlen. by split.
Qed.

End GoStringsFacts.

(** * Properties of RunPrompt *)

Module TurnFacts.

Import Turn.

Section WithSession.

Context {World ToolArgs Tool : Type}.
Variable lib : GoLib ToolArgs.
Variable ms : MCPSession World ToolArgs Tool.
Variable callback : Callback.

(** ** The retry loop *)

(** One turn of the loop, as the source reads. *)
Lemma retryLoop_unfold observed prompt llmMessages w tr message err
  backoff retries :
  retryLoop ms callback observed prompt llmMessages w tr message err
    backoff retries =
  let '(w', tr', message', err') :=
    attempt ms callback observed prompt llmMessages w tr message err in
  match err' with
  | None => (w', tr', LoopBreak message')
  | Some e =>
      if GoStrings.Contains e "overloaded_error" then
        if (retries >=? maxRetries)%Z then
          (w', tr', LoopReturn overloadedMessage)
        else
          retryLoop ms callback observed prompt llmMessages w'
            (tr' ++ [EvSleep backoff]) message' (Some e)
            (nextBackoff backoff) (wrap64 (retries + 1))
      else (w', tr', LoopReturn e)
  end.
Proof.
  simp retryLoop.
  destruct (attempt ms callback observed prompt llmMessages w tr message err)
    as [[[w' tr'] message'] [e|]]; simpl; [|reflexivity].
  destruct (GoStrings.Contains e "overloaded_error"); simpl; [|reflexivity].
  destruct (Z_ge_dec retries maxRetries) as [Hge|Hlt]; simpl.
  - destruct (Z.geb_spec retries maxRetries); [reflexivity|lia].
  - destruct (Z.geb_spec retries maxRetries); [lia|reflexivity].
Qed.

(** When the action runs, an attempt is one provider call. *)
Lemma attempt_calls (observed : bool) prompt llmMessages w tr message err
  w1 message1 err1 :
  (if observed then callback MODE_CREATE_MESSAGE "" else true) = true →
  Provider_CreateMessage ms w prompt llmMessages (AllTools ms)
    = (w1, (message1, err1)) →
  attempt ms callback observed prompt llmMessages w tr message err =
    (w1, tr ++ attemptEvents ms observed prompt llmMessages, message1, err1).
Proof.
  intros Hacts Hcall. unfold attempt, action, attemptEvents.
  destruct observed.
  - rewrite Hacts, Hcall. by rewrite <- app_assoc.
  - rewrite Hcall. reflexivity.
Qed.

Lemma wrap64_small z : (- 2 ^ 63 ≤ z < 2 ^ 63)%Z → wrap64 z = z.
Proof. intros Hz. unfold wrap64. rewrite Z.mod_small by lia. lia. Qed.

(** After [n] overloaded attempts within the allowance, an error of another
    kind is returned at once. *)
Lemma retryLoop_fatal_after (observed : bool) prompt llmMessages n w wn :
  (if observed then callback MODE_CREATE_MESSAGE "" else true) = true →
  overloadedRun ms prompt llmMessages w n wn →
  ∀ w' message' e tr message err backoff retries,
    Provider_CreateMessage ms wn prompt llmMessages (AllTools ms)
      = (w', (message', Some e)) →
    GoStrings.Contains e "overloaded_error" = false →
    (0 ≤ retries)%Z →
    (retries + Z.of_nat n ≤ maxRetries)%Z →
    retryLoop ms callback observed prompt llmMessages w tr message err
      backoff retries =
    (w', tr ++ retryEvents ms observed prompt llmMessages n backoff
            ++ attemptEvents ms observed prompt llmMessages,
     LoopReturn e).
Proof.
  intros Hacts Hrun.
  induction Hrun as [w|w w1 message1 e1 n w2 Hcall1 Hover1 Hrun IH];
    intros w' message' e tr message err backoff retries
           Hcall Hfatal Hlo Hhi;
    rewrite retryLoop_unfold.
  - rewrite (attempt_calls _ _ _ _ _ _ _ _ _ _ Hacts Hcall).
    rewrite Hfatal. reflexivity.
  - rewrite (attempt_calls _ _ _ _ _ _ _ _ _ _ Hacts Hcall1).
    rewrite Hover1.
    destruct (Z.geb_spec retries maxRetries) as [Hge|_]; [lia|].
    unfold maxRetries in Hhi.
    rewrite wrap64_small by lia.
    rewrite (IH w' message' e) by (assumption || unfold maxRetries; lia).
    simpl. by rewrite <- !app_assoc.
Qed.

(** With [retries] at [maxRetries - n], the overloaded attempt after [n]
    retries ends the loop with the terminal error. *)
Lemma retryLoop_exhausts (observed : bool) prompt llmMessages n :
  (if observed then callback MODE_CREATE_MESSAGE "" else true) = true →
  ∀ w wn tr message err backoff retries,
    overloadedRun ms prompt llmMessages w (S n) wn →
    (0 ≤ retries)%Z →
    (retries + Z.of_nat n = maxRetries)%Z →
    retryLoop ms callback observed prompt llmMessages w tr message err
      backoff retries =
    (wn, tr ++ retryEvents ms observed prompt llmMessages n backoff
            ++ attemptEvents ms observed prompt llmMessages,
     LoopReturn overloadedMessage).
Proof.
  intros Hacts.
  induction n as [|n IH];
    intros w wn tr message err backoff retries Hrun Hlo Hhi;
    inversion Hrun as [|? w1 message1 e1 ? ? Hcall1 Hover1 Hrest]; subst;
    rewrite retryLoop_unfold;
    rewrite (attempt_calls _ _ _ _ _ _ _ _ _ _ Hacts Hcall1), Hover1.
  - inversion Hrest; subst.
    destruct (Z.geb_spec retries maxRetries) as [_|Hlt]; [|lia].
    reflexivity.
  - destruct (Z.geb_spec retries maxRetries) as [Hge|_]; [lia|].
    unfold maxRetries in Hhi.
    rewrite wrap64_small by lia.
    rewrite (IH w1 wn) by (assumption || unfold maxRetries; lia).
    simpl. by rewrite <- !app_assoc.
Qed.

(** After [n] overloaded attempts within the allowance, a completion ends
    the loop with its message. *)
Lemma retryLoop_succeeds_after (observed : bool) prompt llmMessages n w wn :
  (if observed then callback MODE_CREATE_MESSAGE "" else true) = true →
  overloadedRun ms prompt llmMessages w n wn →
  ∀ w' message' tr message err backoff retries,
    Provider_CreateMessage ms wn prompt llmMessages (AllTools ms)
      = (w', (message', None)) →
    (0 ≤ retries)%Z →
    (retries + Z.of_nat n ≤ maxRetries)%Z →
    retryLoop ms callback observed prompt llmMessages w tr message err
      backoff retries =
    (w', tr ++ retryEvents ms observed prompt llmMessages n backoff
            ++ attemptEvents ms observed prompt llmMessages,
     LoopBreak message').
Proof.
  intros Hacts Hrun.
  induction Hrun as [w|w w1 message1 e1 n w2 Hcall1 Hover1 Hrun IH];
    intros w' message' tr message err backoff retries Hcall Hlo Hhi;
    rewrite retryLoop_unfold.
  - by rewrite (attempt_calls _ _ _ _ _ _ _ _ _ _ Hacts Hcall).
  - rewrite (attempt_calls _ _ _ _ _ _ _ _ _ _ Hacts Hcall1).
    rewrite Hover1.
    destruct (Z.geb_spec retries maxRetries) as [Hge|_]; [lia|].
    unfold maxRetries in Hhi.
    rewrite wrap64_small by lia.
    rewrite (IH w' message') by (assumption || unfold maxRetries; lia).
    simpl. by rewrite <- !app_assoc.
Qed.

(** The four views of a trace go through concatenation. *)
Lemma sleeps_app (tr1 tr2 : list (Event ToolArgs Tool)) :
  sleeps (tr1 ++ tr2) = sleeps tr1 ++ sleeps tr2.
Proof. apply omap_app. Qed.

Lemma requests_app (tr1 tr2 : list (Event ToolArgs Tool)) :
  requests (tr1 ++ tr2) = requests tr1 ++ requests tr2.
Proof. apply omap_app. Qed.

Lemma toolRuns_app (tr1 tr2 : list (Event ToolArgs Tool)) :
  toolRuns (tr1 ++ tr2) = toolRuns tr1 ++ toolRuns tr2.
Proof. apply omap_app. Qed.

Lemma appends_app (tr1 tr2 : list (Event ToolArgs Tool)) :
  appends (tr1 ++ tr2) = appends tr1 ++ appends tr2.
Proof. apply omap_app. Qed.

(** What the events of the retries add up to. *)
Lemma requests_attemptEvents observed prompt llmMessages :
  requests (attemptEvents ms observed prompt llmMessages)
  = [(prompt, llmMessages, AllTools ms)].
Proof. by destruct observed. Qed.

Lemma sleeps_attemptEvents observed prompt llmMessages :
  sleeps (attemptEvents ms observed prompt llmMessages) = [].
Proof. by destruct observed. Qed.

Lemma appends_attemptEvents observed prompt llmMessages :
  appends (attemptEvents ms observed prompt llmMessages) = [].
Proof. by destruct observed. Qed.

Lemma requests_retryEvents observed prompt llmMessages n backoff :
  requests (retryEvents ms observed prompt llmMessages n backoff)
  = replicate n (prompt, llmMessages, AllTools ms).
Proof.
  revert backoff. induction n as [|n IH]; intros backoff; [reflexivity|].
  simpl. rewrite requests_app, requests_attemptEvents.
  change (EvSleep backoff :: ?tr) with ([EvSleep backoff] ++ tr).
  rewrite requests_app, IH. reflexivity.
Qed.

Lemma appends_retryEvents observed prompt llmMessages n backoff :
  appends (retryEvents ms observed prompt llmMessages n backoff) = [].
Proof.
  revert backoff. induction n as [|n IH]; intros backoff; [reflexivity|].
  simpl. rewrite appends_app, appends_attemptEvents.
  change (EvSleep backoff :: ?tr) with ([EvSleep backoff] ++ tr).
  rewrite appends_app, IH. reflexivity.
Qed.

(** The delays of [n] retries: the back-off at the first, then each the
    double of the one before, held at the cap. *)
Lemma sleeps_retryEvents observed prompt llmMessages n backoff :
  sleeps (retryEvents ms observed prompt llmMessages (S n) backoff)
  = backoff
    :: sleeps (retryEvents ms observed prompt llmMessages n
                 (nextBackoff backoff)).
Proof.
  simpl. by rewrite sleeps_app, sleeps_attemptEvents.
Qed.

Lemma length_sleeps_retryEvents observed prompt llmMessages n backoff :
  length (sleeps (retryEvents ms observed prompt llmMessages n backoff)) = n.
Proof.
  revert backoff. induction n as [|n IH]; intros backoff; [reflexivity|].
  rewrite sleeps_retryEvents. simpl. by rewrite IH.
Qed.

(** ** The prompt *)

Lemma addPrompt_world prompt (st : State World ToolArgs Tool) :
  world (addPrompt prompt st) = world st.
Proof. unfold addPrompt. by destruct (String.eqb prompt ""). Qed.

Lemma addPrompt_messages prompt (st : State World ToolArgs Tool) :
  messages (addPrompt prompt st)
  = messages st ++ (if String.eqb prompt "" then [] else [userMessage prompt]).
Proof.
  unfold addPrompt. destruct (String.eqb prompt ""); simpl; [|reflexivity].
  by rewrite app_nil_r.
Qed.

(** ** How the body ends after the retry loop *)

Lemma body_loop_error prompt (st : State World ToolArgs Tool) w tr e :
  retryLoop ms callback true prompt (messages (addPrompt prompt st))
    (world (addPrompt prompt st)) (trace (addPrompt prompt st))
    None None initialBackoff 0 = (w, tr, LoopReturn e) →
  body lib ms callback prompt st
  = (mkState w (messages (addPrompt prompt st)) tr, Return (Some e)).
Proof. intros Hloop. unfold body. by rewrite Hloop. Qed.

Lemma RunPrompt_return fuel prompt (st st' : State World ToolArgs Tool) err :
  body lib ms callback prompt st = (st', Return err) →
  RunPrompt lib ms callback (S fuel) prompt st = (st', Returned err).
Proof. intros Hbody. simpl. by rewrite Hbody. Qed.

Lemma RunPrompt_recurse fuel prompt (st st' : State World ToolArgs Tool) :
  body lib ms callback prompt st = (st', Recurse) →
  RunPrompt lib ms callback (S fuel) prompt st
  = RunPrompt lib ms callback fuel "" st'.
Proof. intros Hbody. simpl. by rewrite Hbody. Qed.

(** ** The claims about the retry protocol *)

(** C1. When the provider keeps failing with a transient overload, one call
    of [RunPrompt] sends the same request six times, sleeps 1, 2, 4, 8 and
    16 seconds between the attempts (each the double of the one before, none
    above the cap of 30 seconds), and answers the sixth failure with the
    terminal overloaded error instead of a sixth retry.  This holds from
    every state, so the retry count starts at 0 in each call. *)
Theorem RunPrompt_overloaded_backoff fuel prompt
  (st : State World ToolArgs Tool) w' :
  callback MODE_CREATE_MESSAGE "" = true →
  overloadedRun ms prompt (messages (addPrompt prompt st)) (world st) 6 w' →
  ∃ tr,
    RunPrompt lib ms callback (S fuel) prompt st
    = (mkState w' (messages (addPrompt prompt st))
         (trace (addPrompt prompt st) ++ tr),
       Returned (Some overloadedMessage))
    ∧ sleeps tr
      = [1 * Second; 2 * Second; 4 * Second; 8 * Second; 16 * Second]%Z
    ∧ Forall (λ d, (d ≤ maxBackoff)%Z) (sleeps tr)
    ∧ requests tr
      = replicate 6 (prompt, messages (addPrompt prompt st), AllTools ms)
    ∧ appends tr = [].
Proof.
  intros Hacts Hrun.
  exists (retryEvents ms true prompt (messages (addPrompt prompt st)) 5
            initialBackoff
          ++ attemptEvents ms true prompt (messages (addPrompt prompt st))).
  split; [|split; [|split; [|split]]].
  - apply RunPrompt_return, body_loop_error.
    rewrite addPrompt_world.
    by apply (retryLoop_exhausts true prompt _ 5 Hacts (world st) w').
  - reflexivity.
  - replace (sleeps _)
      with [1 * Second; 2 * Second; 4 * Second; 8 * Second; 16 * Second]%Z
      by reflexivity.
    repeat constructor; unfold maxBackoff, Second; lia.
  - by rewrite requests_app, requests_retryEvents, requests_attemptEvents.
  - by rewrite appends_app, appends_retryEvents, appends_attemptEvents.
Qed.

(** The same protocol in [CreateMessage], which runs the action itself. *)
Lemma CreateMessage_overloaded_backoff prompt
  (st : State World ToolArgs Tool) w' :
  overloadedRun ms prompt (messages st) (world st) 6 w' →
  ∃ tr,
    CreateMessage ms callback prompt st
    = (mkState w' (messages st) (trace st ++ tr),
       LoopReturn overloadedMessage)
    ∧ sleeps tr
      = [1 * Second; 2 * Second; 4 * Second; 8 * Second; 16 * Second]%Z
    ∧ requests tr = replicate 6 (prompt, messages st, AllTools ms).
Proof.
  intros Hrun.
  exists (retryEvents ms false prompt (messages st) 5 initialBackoff
          ++ attemptEvents ms false prompt (messages st)).
  split; [|split].
  - unfold CreateMessage.
    by rewrite (retryLoop_exhausts false prompt _ 5 eq_refl (world st) w').
  - reflexivity.
  - by rewrite requests_app, requests_retryEvents, requests_attemptEvents.
Qed.

(** C7. A provider error that is not a transient overload ends the call at
    once with that error, whether it is the answer to the first attempt or
    comes after [n] overloaded ones: the failed attempt is the last event,
    with no sleep and no request after it.  The history is then the one
    built before the completion: the user message if there is a prompt, and
    no message of this round. *)
Theorem RunPrompt_provider_error fuel prompt
  (st : State World ToolArgs Tool) n wn w' message' e :
  callback MODE_CREATE_MESSAGE "" = true →
  (Z.of_nat n ≤ maxRetries)%Z →
  overloadedRun ms prompt (messages (addPrompt prompt st)) (world st) n wn →
  Provider_CreateMessage ms wn prompt (messages (addPrompt prompt st))
    (AllTools ms) = (w', (message', Some e)) →
  GoStrings.Contains e "overloaded_error" = false →
  ∃ tr,
    RunPrompt lib ms callback (S fuel) prompt st
    = (mkState w'
         (messages st
          ++ (if String.eqb prompt "" then [] else [userMessage prompt]))
         (trace (addPrompt prompt st) ++ tr),
       Returned (Some e))
    ∧ tr = retryEvents ms true prompt (messages (addPrompt prompt st)) n
             initialBackoff
           ++ attemptEvents ms true prompt (messages (addPrompt prompt st))
    ∧ requests tr
      = replicate (S n) (prompt, messages (addPrompt prompt st), AllTools ms)
    ∧ length (sleeps tr) = n
    ∧ appends tr = [].
Proof.
  intros Hacts Hn Hrun Hcall Hfatal.
  eexists. split; [|split; [reflexivity|split; [|split]]].
  - rewrite <- addPrompt_messages.
    apply RunPrompt_return, body_loop_error.
    rewrite addPrompt_world.
    apply (retryLoop_fatal_after true prompt _ n (world st) wn Hacts Hrun
             w' message' e); [assumption|assumption|lia|lia].
  - rewrite requests_app, requests_retryEvents, requests_attemptEvents.
    replace (S n) with (n + 1)%nat by lia.
    by rewrite replicate_add.
  - rewrite sleeps_app, length_app, length_sleeps_retryEvents,
      sleeps_attemptEvents. simpl. lia.
  - by rewrite appends_app, appends_retryEvents, appends_attemptEvents.
Qed.

(** ** One tool call *)

Lemma dispatch_malformed (l : Locals World ToolArgs Tool) toolCall :
  length (GoStrings.Split (GetName toolCall) "__") ≠ 2%nat →
  dispatch lib ms callback l toolCall
  = Continue (skipped lib l toolCall
                ("Error: Invalid tool name format: "
                 +:+ GetName toolCall +:+ newline)).
Proof.
  intros Hparts. unfold dispatch, skipped, toolUseOf.
  destruct (GoStrings.Split (GetName toolCall) "__")
    as [|serverName [|toolName [|third more]]]; try reflexivity.
  by destruct Hparts.
Qed.

Lemma dispatch_unknown_server (l : Locals World ToolArgs Tool) toolCall
  serverName toolName :
  GoStrings.Split (GetName toolCall) "__" = [serverName; toolName] →
  MCPClients ms !! serverName = None →
  dispatch lib ms callback l toolCall
  = Continue (skipped lib l toolCall
                ("Error: Server not found: " +:+ serverName +:+ newline)).
Proof.
  intros Hparts Hserver. unfold dispatch, skipped, toolUseOf.
  by rewrite Hparts, Hserver.
Qed.

Lemma dispatch_invocation_error (l : Locals World ToolArgs Tool) toolCall
  serverName toolName mcpClient toolArgs w' ptr e :
  routed lib ms callback toolCall serverName toolName mcpClient toolArgs →
  mcpClient (loc_world l) toolName toolArgs = (w', (ptr, Some e)) →
  dispatch lib ms callback l toolCall
  = Continue
      (mkLocals w'
         (loc_trace l
          ++ [EvCallback MODE_RUN_TOOL toolName;
              EvCallTool serverName toolName toolArgs;
              EvCallback MODE_ERROR
                ("Error calling tool " +:+ toolName +:+ ": " +:+ e)])
         (messageContent l ++ [toolUseOf lib toolCall])
         (toolResults l
          ++ [errorResult (GetID toolCall)
                ("Error calling tool " +:+ toolName +:+ ": " +:+ e)])
         (Some e)).
Proof.
  intros (Hparts & Hserver & Hargs & Hacts) Hcall.
  unfold dispatch, toolUseOf.
  rewrite Hparts, Hserver, Hargs, Hacts, Hcall.
  by rewrite <- !app_assoc.
Qed.

Lemma dispatch_answered (l : Locals World ToolArgs Tool) toolCall
  serverName toolName mcpClient toolArgs w' toolResult :
  routed lib ms callback toolCall serverName toolName mcpClient toolArgs →
  mcpClient (loc_world l) toolName toolArgs = (w', (Some toolResult, None)) →
  dispatch lib ms callback l toolCall
  = Continue
      (mkLocals w'
         (loc_trace l
          ++ [EvCallback MODE_RUN_TOOL toolName;
              EvCallTool serverName toolName toolArgs])
         (messageContent l ++ [toolUseOf lib toolCall])
         (toolResults l
          ++ match result_Content toolResult with
             | Some items =>
                 [toolResultBlock (GetID toolCall)
                    (strings_TrimSpace lib (resultText items))
                    (PayloadMcp items)]
             | None => []
             end)
         None).
Proof.
  intros (Hparts & Hserver & Hargs & Hacts) Hcall.
  unfold dispatch, toolUseOf.
  rewrite Hparts, Hserver, Hargs, Hacts, Hcall.
  destruct (result_Content toolResult); rewrite <- ?app_assoc; simpl;
    by rewrite ?app_nil_r.
Qed.

Lemma toolLoop_continue (l l' : Locals World ToolArgs Tool) toolCall rest :
  dispatch lib ms callback l toolCall = Continue l' →
  toolLoop lib ms callback (toolCall :: rest) l
  = toolLoop lib ms callback rest l'.
Proof. intros Hstep. simpl. by rewrite Hstep. Qed.

(** ** The loop over the tool calls *)

(** Tool calls that each succeed with a nil [Content] leave [toolResults]
    as it was. *)
Lemma toolLoop_nil_content w toolCalls w' :
  allNilContent lib ms callback w toolCalls w' →
  ∀ tr content results err,
    ∃ tr' err',
      toolLoop lib ms callback toolCalls
        (mkLocals w tr content results err)
      = Continue
          (mkLocals w' (tr ++ tr')
             (content ++ map (toolUseOf lib) toolCalls) results err')
      ∧ length (toolRuns tr') = length toolCalls
      ∧ appends tr' = [].
Proof.
  induction 1 as [w|w toolCall w1 rest w2 Hcall Hrest IH];
    intros tr content results err.
  - exists [], err. simpl. by rewrite !app_nil_r.
  - destruct Hcall
      as (serverName & toolName & mcpClient & toolArgs & toolResult
          & Hrouted & Hcall & Hnil).
    erewrite toolLoop_continue
      by (eapply dispatch_answered; [exact Hrouted|exact Hcall]).
    rewrite Hnil, app_nil_r. simpl.
    edestruct IH as (tr' & err' & Hloop & Hruns & Happ).
    rewrite Hloop.
    eexists (_ :: _ :: tr'), err'. rewrite <- !app_assoc. simpl.
    split; [reflexivity|]. split; [|exact Happ].
    change (S (length (toolRuns tr')) = S (length rest)).
    by rewrite Hruns.
Qed.

Lemma body_loop_break prompt (st : State World ToolArgs Tool) w tr message :
  retryLoop ms callback true prompt (messages (addPrompt prompt st))
    (world (addPrompt prompt st)) (trace (addPrompt prompt st))
    None None initialBackoff 0 = (w, tr, LoopBreak (Some message)) →
  body lib ms callback prompt st
  = match
      toolLoop lib ms callback (GetToolCalls message)
        (mkLocals w
           (tr ++ [EvCallback MODE_ASSISTANT_MESSAGE (GetContent message)])
           (textOf message) [] None)
    with
    | NilDeref l =>
        (mkState (loc_world l) (messages (addPrompt prompt st)) (loc_trace l),
         Panic)
    | Continue l =>
        if (0 <? length (toolResults l))%nat then
          (foldl (λ st toolResult, appendMessage (toolMessage toolResult) st)
             (appendMessage
                (mkHistoryMessage (GetRole message) (messageContent l))
                (mkState (loc_world l) (messages (addPrompt prompt st))
                   (loc_trace l)))
             (toolResults l),
           Recurse)
        else
          (appendMessage
             (mkHistoryMessage (GetRole message) (messageContent l))
             (mkState (loc_world l) (messages (addPrompt prompt st))
                (loc_trace l)),
           Return None)
    end.
Proof. intros Hloop. unfold body. by rewrite Hloop. Qed.

(** ** The claims about tool dispatch *)

(** C3. A qualified name that [strings.Split] cuts in exactly two parts at
    the separator ["__"] is cut at the first occurrence of the separator,
    into the server name before it and the tool name after it.  Any other
    name, with fewer or more parts, is a format error of that call alone:
    the call is reported and skipped, no tool runs for it, and the loop goes
    on with the remaining tool calls. *)
Theorem malformed_name_skipped (l : Locals World ToolArgs Tool) toolCall rest :
  match GoStrings.Split (GetName toolCall) "__" with
  | [serverName; toolName] =>
      GoStrings.Index (GetName toolCall) "__"
      = Some (String.length serverName)
      ∧ GetName toolCall = serverName +:+ "__" +:+ toolName
  | _ =>
      toolLoop lib ms callback (toolCall :: rest) l
      = toolLoop lib ms callback rest
          (skipped lib l toolCall
             ("Error: Invalid tool name format: "
              +:+ GetName toolCall +:+ newline))
  end.
Proof.
  pose proof (dispatch_malformed l toolCall) as Hbad.
  pose proof (GoStringsFacts.Split_two (GetName toolCall) "__") as Htwo.
  destruct (GoStrings.Split (GetName toolCall) "__")
    as [|serverName [|toolName [|third more]]];
    try (apply toolLoop_continue, Hbad; simpl; lia).
  by apply Htwo.
Qed.

(** C5. A completion without tool calls settles the turn: the body of
    [RunPrompt] returns success instead of calling itself, and the history
    gains one message after the completion, the one built from it (with its
    role and, if it has text, one text block). *)
Theorem RunPrompt_no_tool_calls fuel prompt
  (st : State World ToolArgs Tool) w tr message :
  retryLoop ms callback true prompt (messages (addPrompt prompt st))
    (world (addPrompt prompt st)) (trace (addPrompt prompt st))
    None None initialBackoff 0 = (w, tr, LoopBreak (Some message)) →
  GetToolCalls message = [] →
  body lib ms callback prompt st
  = (mkState w
       (messages (addPrompt prompt st)
        ++ [mkHistoryMessage (GetRole message) (textOf message)])
       (tr ++ [EvCallback MODE_ASSISTANT_MESSAGE (GetContent message);
               EvAppend (mkHistoryMessage (GetRole message)
                           (textOf message))]),
     Return None)
  ∧ RunPrompt lib ms callback (S fuel) prompt st
    = (mkState w
         (messages (addPrompt prompt st)
          ++ [mkHistoryMessage (GetRole message) (textOf message)])
         (tr ++ [EvCallback MODE_ASSISTANT_MESSAGE (GetContent message);
                 EvAppend (mkHistoryMessage (GetRole message)
                             (textOf message))]),
       Returned None).
Proof.
  intros Hloop Hnone.
  assert (Hbody : body lib ms callback prompt st
                  = (mkState w
                       (messages (addPrompt prompt st)
                        ++ [mkHistoryMessage (GetRole message)
                              (textOf message)])
                       (tr ++ [EvCallback MODE_ASSISTANT_MESSAGE
                                 (GetContent message);
                               EvAppend (mkHistoryMessage (GetRole message)
                                           (textOf message))]),
                     Return None)).
  { rewrite (body_loop_break _ _ _ _ _ Hloop), Hnone. simpl.
    unfold appendMessage. simpl. by rewrite <- app_assoc. }
  split; [exact Hbody|]. by apply RunPrompt_return.
Qed.

(** C10. A tool call whose invocation succeeds with a nil [Content] adds
    its [tool_use] block to the assistant message and nothing to
    [toolResults], so no tool message is appended for it.  When every tool
    call of the round is of this kind, the tools run, the assistant message
    with all the [tool_use] blocks is the only message appended, and the
    call returns success without calling itself. *)
Theorem nil_content_no_result :
  (∀ (l : Locals World ToolArgs Tool) toolCall rest w',
     yieldsNilContent lib ms callback (loc_world l) toolCall w' →
     ∃ tr',
       toolLoop lib ms callback (toolCall :: rest) l
       = toolLoop lib ms callback rest
           (mkLocals w' (loc_trace l ++ tr')
              (messageContent l ++ [toolUseOf lib toolCall])
              (toolResults l) None)
       ∧ length (toolRuns tr') = 1%nat
       ∧ appends tr' = [])
  ∧ (∀ fuel prompt (st : State World ToolArgs Tool) w tr message w',
       retryLoop ms callback true prompt (messages (addPrompt prompt st))
         (world (addPrompt prompt st)) (trace (addPrompt prompt st))
         None None initialBackoff 0 = (w, tr, LoopBreak (Some message)) →
       allNilContent lib ms callback w (GetToolCalls message) w' →
       ∃ tr',
         RunPrompt lib ms callback (S fuel) prompt st
         = (mkState w'
              (messages (addPrompt prompt st)
               ++ [mkHistoryMessage (GetRole message)
                     (textOf message
                      ++ map (toolUseOf lib) (GetToolCalls message))])
              (tr ++ tr'),
            Returned None)
         ∧ length (toolRuns tr') = length (GetToolCalls message)
         ∧ appends tr'
           = [mkHistoryMessage (GetRole message)
                (textOf message
                 ++ map (toolUseOf lib) (GetToolCalls message))]).
Proof.
  split.
  - intros l toolCall rest w'
      (serverName & toolName & mcpClient & toolArgs & toolResult
       & Hrouted & Hcall & Hnil).
    eexists. split; [|split].
    + apply toolLoop_continue.
      erewrite dispatch_answered by (exact Hrouted || exact Hcall).
      by rewrite Hnil, app_nil_r.
    + reflexivity.
    + reflexivity.
  - intros fuel prompt st w tr message w' Hloop Hall.
    destruct (toolLoop_nil_content w (GetToolCalls message) w' Hall
                (tr ++ [EvCallback MODE_ASSISTANT_MESSAGE
                          (GetContent message)])
                (textOf message) [] None)
      as (tr' & err' & Htools & Hruns & Happ).
    eexists. split; [|split].
    + apply RunPrompt_return.
      rewrite (body_loop_break _ _ _ _ _ Hloop), Htools. simpl.
      unfold appendMessage. simpl. rewrite <- !app_assoc. reflexivity.
    + rewrite !toolRuns_app, !length_app, Hruns. simpl. lia.
    + rewrite !appends_app, Happ. reflexivity.
Qed.

(** C6, amended. A tool call whose invocation fails is answered with a
    [tool_result] block that carries the error text; a tool call for a
    server that is not connected is reported and skipped, and no
    [tool_result] is made for it.  In both cases the loop goes on with the
    remaining tool calls, and once the completion is there the body of
    [RunPrompt] never returns an error. *)
Theorem tool_failure_is_data :
  (∀ (l : Locals World ToolArgs Tool) toolCall rest
     serverName toolName mcpClient toolArgs w' ptr e,
     routed lib ms callback toolCall serverName toolName mcpClient toolArgs →
     mcpClient (loc_world l) toolName toolArgs = (w', (ptr, Some e)) →
     toolLoop lib ms callback (toolCall :: rest) l
     = toolLoop lib ms callback rest
         (mkLocals w'
            (loc_trace l
             ++ [EvCallback MODE_RUN_TOOL toolName;
                 EvCallTool serverName toolName toolArgs;
                 EvCallback MODE_ERROR
                   ("Error calling tool " +:+ toolName +:+ ": " +:+ e)])
            (messageContent l ++ [toolUseOf lib toolCall])
            (toolResults l
             ++ [errorResult (GetID toolCall)
                   ("Error calling tool " +:+ toolName +:+ ": " +:+ e)])
            (Some e)))
  ∧ (∀ (l : Locals World ToolArgs Tool) toolCall rest serverName toolName,
       GoStrings.Split (GetName toolCall) "__" = [serverName; toolName] →
       MCPClients ms !! serverName = None →
       toolLoop lib ms callback (toolCall :: rest) l
       = toolLoop lib ms callback rest
           (skipped lib l toolCall
              ("Error: Server not found: " +:+ serverName +:+ newline)))
  ∧ (∀ prompt (st : State World ToolArgs Tool) w tr message e,
       retryLoop ms callback true prompt (messages (addPrompt prompt st))
         (world (addPrompt prompt st)) (trace (addPrompt prompt st))
         None None initialBackoff 0 = (w, tr, LoopBreak (Some message)) →
       snd (body lib ms callback prompt st) ≠ Return (Some e)).
Proof.
  split; [|split].
  - intros l toolCall rest serverName toolName mcpClient toolArgs w' ptr e
      Hrouted Hcall.
    apply toolLoop_continue.
    by apply (dispatch_invocation_error l toolCall serverName toolName
                mcpClient toolArgs w' ptr e).
  - intros l toolCall rest serverName toolName Hparts Hserver.
    apply toolLoop_continue.
    by apply (dispatch_unknown_server l toolCall serverName toolName).
  - intros prompt st w tr message e Hloop.
    rewrite (body_loop_break _ _ _ _ _ Hloop).
    destruct (toolLoop _ _ _ _ _) as [l|l]; [|discriminate].
    destruct (0 <? length (toolResults l))%nat; discriminate.
Qed.

(** C4, amended. When a completion asks for exactly two tool calls and both
    are dispatched and answered with content, [RunPrompt] runs the two tools
    in the order of the completion, and only then appends the assistant
    message with both [tool_use] blocks followed by two tool messages, one
    for each result in the same order; after that it calls itself once with
    the empty prompt. *)
Theorem RunPrompt_two_tool_calls fuel prompt
  (st : State World ToolArgs Tool) w tr message
  first serverName1 toolName1 mcpClient1 toolArgs1 w1 toolResult1 items1
  second serverName2 toolName2 mcpClient2 toolArgs2 w2 toolResult2 items2 :
  retryLoop ms callback true prompt (messages (addPrompt prompt st))
    (world (addPrompt prompt st)) (trace (addPrompt prompt st))
    None None initialBackoff 0 = (w, tr, LoopBreak (Some message)) →
  GetToolCalls message = [first; second] →
  routed lib ms callback first serverName1 toolName1 mcpClient1 toolArgs1 →
  mcpClient1 w toolName1 toolArgs1 = (w1, (Some toolResult1, None)) →
  result_Content toolResult1 = Some items1 →
  routed lib ms callback second serverName2 toolName2 mcpClient2 toolArgs2 →
  mcpClient2 w1 toolName2 toolArgs2 = (w2, (Some toolResult2, None)) →
  result_Content toolResult2 = Some items2 →
  RunPrompt lib ms callback (S fuel) prompt st
  = RunPrompt lib ms callback fuel ""
      (mkState w2
         (messages (addPrompt prompt st)
          ++ [mkHistoryMessage (GetRole message)
                (textOf message
                 ++ [toolUseOf lib first; toolUseOf lib second]);
              toolMessage
                (toolResultBlock (GetID first)
                   (strings_TrimSpace lib (resultText items1))
                   (PayloadMcp items1));
              toolMessage
                (toolResultBlock (GetID second)
                   (strings_TrimSpace lib (resultText items2))
                   (PayloadMcp items2))])
         (tr
          ++ [EvCallback MODE_ASSISTANT_MESSAGE (GetContent message);
              EvCallback MODE_RUN_TOOL toolName1;
              EvCallTool serverName1 toolName1 toolArgs1;
              EvCallback MODE_RUN_TOOL toolName2;
              EvCallTool serverName2 toolName2 toolArgs2;
              EvAppend
                (mkHistoryMessage (GetRole message)
                   (textOf message
                    ++ [toolUseOf lib first; toolUseOf lib second]));
              EvAppend
                (toolMessage
                   (toolResultBlock (GetID first)
                      (strings_TrimSpace lib (resultText items1))
                      (PayloadMcp items1)));
              EvAppend
                (toolMessage
                   (toolResultBlock (GetID second)
                      (strings_TrimSpace lib (resultText items2))
                      (PayloadMcp items2)))])).
Proof.
  intros Hloop Hcalls Hrouted1 Hcall1 Hitems1 Hrouted2 Hcall2 Hitems2.
  apply RunPrompt_recurse.
  rewrite (body_loop_break _ _ _ _ _ Hloop), Hcalls.
  erewrite toolLoop_continue
    by (eapply dispatch_answered; [exact Hrouted1|exact Hcall1]).
  erewrite toolLoop_continue
    by (eapply dispatch_answered; [exact Hrouted2|exact Hcall2]).
  rewrite Hitems1, Hitems2. simpl.
  unfold appendMessage. simpl. rewrite <- !app_assoc. reflexivity.
Qed.

(** ** The order of dispatches and appends *)

Lemma runsAfterToolAppend_seen (between after : list (Event ToolArgs Tool))
  serverName toolName toolArgs :
  runsAfterToolAppend true
    (between ++ EvCallTool serverName toolName toolArgs :: after) = true.
Proof.
  induction between as [|ev between IH]; [reflexivity|].
  destruct ev; simpl; auto.
Qed.

(** The test finds every tool-role append that comes before a dispatch. *)
Lemma appendedBetweenDispatches_test (tr : list (Event ToolArgs Tool)) :
  appendedBetweenDispatches tr → runsAfterToolAppend false tr = true.
Proof.
  intros (before & toolResult & between & serverName & toolName & toolArgs
          & after & ->).
  generalize false as seen.
  induction before as [|ev before IH]; intros seen; simpl.
  - rewrite orb_true_r. apply runsAfterToolAppend_seen.
  - destruct ev; simpl; auto.
    rewrite IH. apply orb_true_r.
Qed.

End WithSession.

(** ** The claims at concrete sessions *)

Lemma RunPrompt_overloaded_backoff_witness :
  cliCallback MODE_CREATE_MESSAGE "" = true
  ∧ overloadedRun (Examples.session Examples.overloaded) "hi"
      (messages (addPrompt "hi" Examples.start)) (world Examples.start) 6 6
  ∧ ∃ tr,
      RunPrompt Examples.lib (Examples.session Examples.overloaded)
        cliCallback 1 "hi" Examples.start
      = (mkState 6 (messages (addPrompt "hi" Examples.start))
           (trace (addPrompt "hi" Examples.start) ++ tr),
         Returned (Some overloadedMessage))
      ∧ sleeps tr
        = [1 * Second; 2 * Second; 4 * Second; 8 * Second; 16 * Second]%Z
      ∧ Forall (λ d, (d ≤ maxBackoff)%Z) (sleeps tr)
      ∧ requests tr
        = replicate 6
            ("hi", messages (addPrompt "hi" Examples.start),
             AllTools (Examples.session Examples.overloaded))
      ∧ appends tr = [].
Proof.
  assert (Hrun : overloadedRun (Examples.session Examples.overloaded) "hi"
                   (messages (addPrompt "hi" Examples.start))
                   (world Examples.start) 6 6).
  { repeat (eapply overloaded_again; [reflexivity|reflexivity|]).
    apply overloaded_none. }
  split; [reflexivity|]. split; [exact Hrun|].
  apply (RunPrompt_overloaded_backoff Examples.lib
           (Examples.session Examples.overloaded) cliCallback 0 "hi"
           Examples.start 6); [reflexivity|exact Hrun].
Defined.

Lemma RunPrompt_provider_error_witness :
  cliCallback MODE_CREATE_MESSAGE "" = true
  ∧ (Z.of_nat 1 ≤ maxRetries)%Z
  ∧ overloadedRun (Examples.session Examples.rejected) "hi"
      (messages (addPrompt "hi" Examples.start)) (world Examples.start) 1 1
  ∧ Provider_CreateMessage (Examples.session Examples.rejected) 1 "hi"
      (messages (addPrompt "hi" Examples.start))
      (AllTools (Examples.session Examples.rejected))
    = (2%nat, (None, Some "401 invalid x-api-key"))
  ∧ GoStrings.Contains "401 invalid x-api-key" "overloaded_error" = false
  ∧ ∃ tr,
      RunPrompt Examples.lib (Examples.session Examples.rejected)
        cliCallback 1 "hi" Examples.start
      = (mkState 2 [userMessage "hi"]
           (trace (addPrompt "hi" Examples.start) ++ tr),
         Returned (Some "401 invalid x-api-key"))
      ∧ length (requests tr) = 2%nat
      ∧ sleeps tr = [1 * Second]%Z
      ∧ appends tr = [].
Proof.
  assert (Hrun : overloadedRun (Examples.session Examples.rejected) "hi"
                   (messages (addPrompt "hi" Examples.start))
                   (world Examples.start) 1 1).
  { eapply overloaded_again; [reflexivity|reflexivity|].
    apply overloaded_none. }
  split; [reflexivity|]. split; [unfold maxRetries; lia|].
  split; [exact Hrun|]. split; [reflexivity|]. split; [reflexivity|].
  destruct (RunPrompt_provider_error Examples.lib
              (Examples.session Examples.rejected) cliCallback 0 "hi"
              Examples.start 1 1 2 None "401 invalid x-api-key"
              eq_refl ltac:(unfold maxRetries; lia) Hrun eq_refl eq_refl)
    as (tr & Hrun' & -> & Hreq & Hsleeps & Happ).
  eexists. split; [exact Hrun'|]. split; [by rewrite Hreq|].
  split; [reflexivity|exact Happ].
Defined.

Lemma RunPrompt_no_tool_calls_witness :
  Examples.ask Examples.plainAnswer
  = (1%nat, Examples.firstAttempt Examples.plainAnswer,
     LoopBreak (Some (Examples.answer "done" [])))
  ∧ GetToolCalls (Examples.answer "done" []) = []
  ∧ RunPrompt Examples.lib (Examples.session Examples.plainAnswer)
      cliCallback 1 "hi" Examples.start
    = (mkState 1
         [userMessage "hi"; mkHistoryMessage "assistant" [textBlock "done"]]
         (Examples.firstAttempt Examples.plainAnswer
          ++ [EvCallback MODE_ASSISTANT_MESSAGE "done";
              EvAppend (mkHistoryMessage "assistant" [textBlock "done"])]),
       Returned None).
Proof.
  assert (Hloop : Examples.ask Examples.plainAnswer
                  = (1%nat, Examples.firstAttempt Examples.plainAnswer,
                     LoopBreak (Some (Examples.answer "done" []))))
    by reflexivity.
  split; [exact Hloop|]. split; [reflexivity|].
  apply (RunPrompt_no_tool_calls Examples.lib
           (Examples.session Examples.plainAnswer) cliCallback 0 "hi"
           Examples.start _ _ _ Hloop eq_refl).
Defined.

(** The name ["nodelimiter"] is skipped and the tool call after it runs. *)
Lemma malformed_name_skipped_witness :
  GoStrings.Split (GetName Examples.badCall) "__" = ["nodelimiter"]
  ∧ GoStrings.Split "fs__read__all" "__" = ["fs"; "read"; "all"]
  ∧ toolLoop Examples.lib (Examples.session Examples.badThenGood)
      cliCallback [Examples.badCall; Examples.readCall]
      (mkLocals 1%nat [] [] [] None)
    = Continue
        (mkLocals 1%nat
           [EvPrintf ("Error: Invalid tool name format: nodelimiter"
                      +:+ newline);
            EvCallback MODE_RUN_TOOL "read"; EvCallTool "fs" "read" "{}"]
           [toolUseBlock "t6" "nodelimiter" "{}";
            toolUseBlock "t1" "fs__read" "{}"]
           [toolResultBlock "t1" "ran read {}"
              (PayloadMcp [TextContent "ran read"; OtherContent;
                           TextContent "{}"])]
           None).
Proof.
  split; [reflexivity|]. split; [reflexivity|].
  rewrite (malformed_name_skipped Examples.lib
             (Examples.session Examples.badThenGood) cliCallback
             (mkLocals 1%nat [] [] [] None) Examples.badCall
             [Examples.readCall]).
  reflexivity.
Defined.

Lemma nil_content_no_result_witness :
  Examples.ask Examples.silentTool
  = (1%nat, Examples.firstAttempt Examples.silentTool,
     LoopBreak (Some (Examples.answer "checking" [Examples.nullCall])))
  ∧ allNilContent Examples.lib (Examples.session Examples.silentTool)
      cliCallback 1%nat [Examples.nullCall] 1%nat
  ∧ ∃ tr',
      RunPrompt Examples.lib (Examples.session Examples.silentTool)
        cliCallback 1 "hi" Examples.start
      = (mkState 1
           [userMessage "hi";
            mkHistoryMessage "assistant"
              [textBlock "checking"; toolUseBlock "t5" "null__noop" "{}"]]
           (Examples.firstAttempt Examples.silentTool ++ tr'),
         Returned None)
      ∧ length (toolRuns tr') = 1%nat.
Proof.
  assert (Hloop : Examples.ask Examples.silentTool
                  = (1%nat, Examples.firstAttempt Examples.silentTool,
                     LoopBreak (Some (Examples.answer "checking"
                                        [Examples.nullCall]))))
    by reflexivity.
  assert (Hnil : allNilContent Examples.lib
                   (Examples.session Examples.silentTool) cliCallback
                   1%nat [Examples.nullCall] 1%nat).
  { eapply nil_content_next; [|apply nil_content_done].
    exists "null", "noop", Examples.silent, "{}",
      (mkCallToolResult None false).
    repeat split; reflexivity. }
  split; [exact Hloop|]. split; [exact Hnil|].
  destruct (proj2 (nil_content_no_result Examples.lib
                     (Examples.session Examples.silentTool) cliCallback)
              0%nat "hi" Examples.start _ _ _ _ Hloop Hnil)
    as (tr' & Hrun & Hruns & _).
  exists tr'. split; [exact Hrun|exact Hruns].
Defined.

(** C6, as stated, fails: a tool call for a server that is not connected
    is skipped, and the history that the call of [RunPrompt] leaves holds the
    [tool_use] but no [tool_result] for it. *)
Lemma unknown_server_leaves_no_result :
  MCPClients (Examples.session Examples.ghostTool) !! "ghost" = None
  ∧ snd (RunPrompt Examples.lib (Examples.session Examples.ghostTool)
           cliCallback 5 "hi" Examples.start) = Returned None
  ∧ messages (fst (RunPrompt Examples.lib
                     (Examples.session Examples.ghostTool)
                     cliCallback 5 "hi" Examples.start))
    = [userMessage "hi";
       mkHistoryMessage "assistant" [toolUseBlock "t3" "ghost__read" "{}"]]
  ∧ ¬ hasToolResult "t3"
        (messages (fst (RunPrompt Examples.lib
                          (Examples.session Examples.ghostTool)
                          cliCallback 5 "hi" Examples.start))).
Proof.
  assert (Hhistory :
            messages (fst (RunPrompt Examples.lib
                             (Examples.session Examples.ghostTool)
                             cliCallback 5 "hi" Examples.start))
            = [userMessage "hi";
               mkHistoryMessage "assistant"
                 [toolUseBlock "t3" "ghost__read" "{}"]])
    by reflexivity.
  split; [reflexivity|]. split; [reflexivity|]. split; [exact Hhistory|].
  rewrite Hhistory.
  intros (msg & block & Hmsg & Hblock & Htype & _).
  apply elem_of_cons in Hmsg as [->|Hmsg].
  - apply elem_of_cons in Hblock as [->|Hblock]; [discriminate|].
    inversion Hblock.
  - apply elem_of_cons in Hmsg as [->|Hmsg]; [|inversion Hmsg].
    apply elem_of_cons in Hblock as [->|Hblock]; [discriminate|].
    inversion Hblock.
Qed.

Lemma tool_failure_is_data_witness :
  routed Examples.lib (Examples.session Examples.failingTool) cliCallback
    Examples.netCall "net" "get" Examples.broken "{}"
  ∧ Examples.broken 1%nat "get" "{}"
    = (1%nat, (None, Some "connection refused"))
  ∧ toolLoop Examples.lib (Examples.session Examples.failingTool)
      cliCallback [Examples.netCall; Examples.ghostCall]
      (mkLocals 1%nat [] [] [] None)
    = Continue
        (mkLocals 1%nat
           [EvCallback MODE_RUN_TOOL "get"; EvCallTool "net" "get" "{}";
            EvCallback MODE_ERROR
              "Error calling tool get: connection refused";
            EvPrintf ("Error: Server not found: ghost" +:+ newline)]
           [toolUseBlock "t4" "net__get" "{}";
            toolUseBlock "t3" "ghost__read" "{}"]
           [errorResult "t4" "Error calling tool get: connection refused"]
           (Some "connection refused"))
  ∧ Examples.ask Examples.failingTool
    = (1%nat, Examples.firstAttempt Examples.failingTool,
       LoopBreak (Some (Examples.answer "" [Examples.netCall])))
  ∧ snd (body Examples.lib (Examples.session Examples.failingTool)
           cliCallback "hi" Examples.start)
    ≠ Return (Some "connection refused").
Proof.
  assert (Hrouted : routed Examples.lib
                      (Examples.session Examples.failingTool) cliCallback
                      Examples.netCall "net" "get" Examples.broken "{}")
    by (repeat split; reflexivity).
  assert (Hloop : Examples.ask Examples.failingTool
                  = (1%nat, Examples.firstAttempt Examples.failingTool,
                     LoopBreak (Some (Examples.answer ""
                                        [Examples.netCall]))))
    by reflexivity.
  destruct (tool_failure_is_data Examples.lib
              (Examples.session Examples.failingTool) cliCallback)
    as (Hfails & Hunknown & Hnever).
  split; [exact Hrouted|]. split; [reflexivity|]. split; [|split].
  - rewrite (Hfails (mkLocals 1%nat [] [] [] None) Examples.netCall
               [Examples.ghostCall] "net" "get" Examples.broken "{}"
               1%nat None "connection refused" Hrouted eq_refl).
    rewrite (Hunknown _ Examples.ghostCall [] "ghost" "read"
               eq_refl eq_refl).
    reflexivity.
  - exact Hloop.
  - exact (Hnever "hi" Examples.start _ _ _ "connection refused" Hloop).
Defined.

(** C4, as stated, fails: with two tool calls in one completion, both tools
    have run before the first tool message is appended; no tool message is
    appended between the dispatches. *)
Lemma results_appended_after_both_dispatches :
  snd (RunPrompt Examples.lib (Examples.session Examples.twoTools)
         cliCallback 5 "hi" Examples.start) = Returned None
  ∧ toolRuns (trace (fst (RunPrompt Examples.lib
                            (Examples.session Examples.twoTools)
                            cliCallback 5 "hi" Examples.start)))
    = [("fs", "read", "{}"); ("fs", "list", "{a}")]
  ∧ ¬ appendedBetweenDispatches
        (trace (fst (RunPrompt Examples.lib
                       (Examples.session Examples.twoTools)
                       cliCallback 5 "hi" Examples.start))).
Proof.
  split; [reflexivity|]. split; [reflexivity|].
  intros Hbetween. apply appendedBetweenDispatches_test in Hbetween.
  vm_compute in Hbetween. discriminate Hbetween.
Qed.

Lemma RunPrompt_two_tool_calls_witness :
  Examples.ask Examples.twoTools
  = (1%nat, Examples.firstAttempt Examples.twoTools,
     LoopBreak (Some (Examples.answer "let me look"
                        [Examples.readCall; Examples.listCall])))
  ∧ routed Examples.lib (Examples.session Examples.twoTools) cliCallback
      Examples.readCall "fs" "read" Examples.echo "{}"
  ∧ routed Examples.lib (Examples.session Examples.twoTools) cliCallback
      Examples.listCall "fs" "list" Examples.echo "{a}"
  ∧ RunPrompt Examples.lib (Examples.session Examples.twoTools)
      cliCallback 2 "hi" Examples.start
    = RunPrompt Examples.lib (Examples.session Examples.twoTools)
        cliCallback 1 ""
        (mkState 1
           [userMessage "hi";
            mkHistoryMessage "assistant"
              [textBlock "let me look"; toolUseBlock "t1" "fs__read" "{}";
               toolUseBlock "t2" "fs__list" "{a}"];
            toolMessage
              (toolResultBlock "t1" "ran read {}"
                 (PayloadMcp [TextContent "ran read"; OtherContent;
                              TextContent "{}"]));
            toolMessage
              (toolResultBlock "t2" "ran list {a}"
                 (PayloadMcp [TextContent "ran list"; OtherContent;
                              TextContent "{a}"]))]
           (trace (fst (body Examples.lib (Examples.session Examples.twoTools)
                          cliCallback "hi" Examples.start)))).
Proof.
  assert (Hloop : Examples.ask Examples.twoTools
                  = (1%nat, Examples.firstAttempt Examples.twoTools,
                     LoopBreak (Some (Examples.answer "let me look"
                                        [Examples.readCall;
                                         Examples.listCall]))))
    by reflexivity.
  assert (Hfirst : routed Examples.lib (Examples.session Examples.twoTools)
                     cliCallback Examples.readCall "fs" "read"
                     Examples.echo "{}")
    by (repeat split; reflexivity).
  assert (Hsecond : routed Examples.lib (Examples.session Examples.twoTools)
                      cliCallback Examples.listCall "fs" "list"
                      Examples.echo "{a}")
    by (repeat split; reflexivity).
  split; [exact Hloop|]. split; [exact Hfirst|]. split; [exact Hsecond|].
  rewrite (RunPrompt_two_tool_calls Examples.lib
             (Examples.session Examples.twoTools) cliCallback 1 "hi"
             Examples.start _ _ _
             Examples.readCall "fs" "read" Examples.echo "{}" 1%nat
             _ [TextContent "ran read"; OtherContent; TextContent "{}"]
             Examples.listCall "fs" "list" Examples.echo "{a}" 1%nat
             _ [TextContent "ran list"; OtherContent; TextContent "{a}"]
             Hloop eq_refl Hfirst eq_refl eq_refl Hsecond eq_refl eq_refl).
  reflexivity.
Defined.

End TurnFacts.

(** * More properties of pruneMessages *)

Module PruneMore.

Import Prune History.

Lemma lastWindow_within messageWindow messages :
  (Z.of_nat (length messages) ≤ messageWindow)%Z →
  lastWindow messageWindow messages = messages.
Proof.
  intros Hle. unfold lastWindow.
  replace (Z.to_nat (Z.of_nat (length messages) - messageWindow)) with 0%nat
    by lia.
  reflexivity.
Qed.

(** Whatever the length of the history, a window that is not negative gives
    the two passes over the last window, or that window untouched. *)
Lemma pruneMessages_cases messageWindow messages out :
  (0 ≤ messageWindow)%Z →
  pruneMessages messageWindow messages = Some out →
  out = lastWindow messageWindow messages
  ∨ out = omap (pruneMessage (collectIds (lastWindow messageWindow messages)))
            (lastWindow messageWindow messages).
Proof.
  intros Hw Hout.
  destruct (Z.le_gt_cases (Z.of_nat (length messages)) messageWindow)
    as [Hle|Hgt].
  - left. rewrite PruneFacts.pruneMessages_within in Hout by exact Hle.
    rewrite lastWindow_within by exact Hle. congruence.
  - right. rewrite PruneFacts.pruneMessages_beyond in Hout by lia.
    congruence.
Qed.

Lemma keepBlock_plain ids block :
  isToolBlock block = false → keepBlock ids block = true.
Proof.
  unfold isToolBlock, keepBlock. intros Hplain.
  apply orb_false_elim in Hplain as [-> ->]. reflexivity.
Qed.

Lemma filter_filter_plain ids blocks :
  List.filter (λ block, negb (isToolBlock block))
    (List.filter (keepBlock ids) blocks)
  = List.filter (λ block, negb (isToolBlock block)) blocks.
Proof.
  induction blocks as [|block blocks IH]; [reflexivity|]. simpl.
  destruct (isToolBlock block) eqn:Htool.
  - destruct (keepBlock ids block); simpl; rewrite ?Htool; simpl; exact IH.
  - rewrite (keepBlock_plain ids block Htool). simpl. rewrite Htool. simpl.
    by rewrite IH.
Qed.

Lemma plainBlocks_cons msg messages :
  plainBlocks (msg :: messages)
  = List.filter (λ block, negb (isToolBlock block)) (msg_Content msg)
    ++ plainBlocks messages.
Proof. unfold plainBlocks, blocksOf. simpl. apply List.filter_app. Qed.

Lemma plainBlocks_pruned ids kept :
  plainBlocks (omap (pruneMessage ids) kept) = plainBlocks kept.
Proof.
  induction kept as [|msg kept IH]; [reflexivity|]. csimpl.
  rewrite (plainBlocks_cons msg).
  destruct (pruneMessage ids msg) as [msg'|] eqn:Hprune.
  - apply PruneFacts.pruneMessage_Some in Hprune as [-> _].
    rewrite plainBlocks_cons. simpl.
    unfold prunedBlocks. by rewrite filter_filter_plain, IH.
  - apply PruneFacts.pruneMessage_None in Hprune as [Hnil _].
    rewrite IH. rewrite <- (filter_filter_plain ids).
    unfold prunedBlocks in Hnil. by rewrite Hnil.
Qed.

(** X1. For a window that is not negative, pruning returns at most [window]
    messages, and never more than it was given. *)
Theorem pruneMessages_bounded messageWindow messages out :
  (0 ≤ messageWindow)%Z →
  pruneMessages messageWindow messages = Some out →
  (Z.of_nat (length out) ≤ messageWindow)%Z
  ∧ (length out ≤ length messages)%nat.
Proof.
  intros Hw Hout. split.
  - by apply (PruneFacts.pruneMessages_length messageWindow messages).
  - assert (Hkept : (length (lastWindow messageWindow messages)
                     ≤ length messages)%nat)
      by (unfold lastWindow; rewrite length_drop; lia).
    destruct (pruneMessages_cases _ _ _ Hw Hout) as [->| ->]; [exact Hkept|].
    etransitivity; [apply PruneFacts.length_omap_le|exact Hkept].
Qed.

Lemma pruneMessages_bounded_witness :
  (0 ≤ 3)%Z
  ∧ pruneMessages 3 Examples.fiveMessages
    = Some [mkHistoryMessage "user" [textBlock "four"];
            mkHistoryMessage "assistant" [textBlock "five"]]
  ∧ (Z.of_nat 2 ≤ 3)%Z ∧ (2 ≤ 5)%nat.
Proof.
  split; [lia|]. split; [reflexivity|].
  apply (pruneMessages_bounded 3 Examples.fiveMessages
           [mkHistoryMessage "user" [textBlock "four"];
            mkHistoryMessage "assistant" [textBlock "five"]]);
    [lia|reflexivity].
Defined.

(** X2. Pruning only ever removes [tool_use] and [tool_result] blocks: the
    blocks of every other kind that lie in the last [window] messages come
    out all, and in the same order. *)
Theorem pruneMessages_keeps_plain_blocks messageWindow messages out :
  (0 ≤ messageWindow)%Z →
  pruneMessages messageWindow messages = Some out →
  plainBlocks out = plainBlocks (lastWindow messageWindow messages).
Proof.
  intros Hw Hout.
  destruct (pruneMessages_cases _ _ _ Hw Hout) as [->| ->]; [reflexivity|].
  apply plainBlocks_pruned.
Qed.

Lemma pruneMessages_keeps_plain_blocks_witness :
  (0 ≤ 3)%Z
  ∧ pruneMessages 3 Examples.fiveMessages
    = Some [mkHistoryMessage "user" [textBlock "four"];
            mkHistoryMessage "assistant" [textBlock "five"]]
  ∧ plainBlocks [mkHistoryMessage "user" [textBlock "four"];
                 mkHistoryMessage "assistant" [textBlock "five"]]
    = plainBlocks (lastWindow 3 Examples.fiveMessages).
Proof.
  split; [lia|]. split; [reflexivity|].
  apply (pruneMessages_keeps_plain_blocks 3 Examples.fiveMessages);
    [lia|reflexivity].
Defined.

(** X3. A [tool_use] and a [tool_result] that refers to it, both within the
    last [window] messages, both survive pruning. *)
Theorem pruneMessages_keeps_pairs messageWindow messages out use res :
  (0 ≤ messageWindow)%Z →
  pruneMessages messageWindow messages = Some out →
  occurs "tool_use" use (lastWindow messageWindow messages) →
  occurs "tool_result" res (lastWindow messageWindow messages) →
  block_ToolUseID res = block_ID use →
  occurs "tool_use" use out ∧ occurs "tool_result" res out.
Proof.
  intros Hw Hout Huse Hres Hid.
  destruct (pruneMessages_cases _ _ _ Hw Hout) as [->| ->]; [by split|].
  assert (Hu : block_Type use = "tool_use")
    by (destruct Huse as (? & ? & ? & Hu); exact Hu).
  assert (Ht : block_Type res = "tool_result")
    by (destruct Hres as (? & ? & ? & Ht); exact Ht).
  split; apply PruneFacts.occurs_pruned; (split; [assumption|]);
    unfold keepBlock.
  - rewrite Hu. simpl. apply PruneFacts.collectIds_result. by exists res.
  - rewrite Ht. simpl. apply PruneFacts.collectIds_use. by exists use.
Qed.

Lemma pruneMessages_keeps_pairs_witness :
  (0 ≤ 2)%Z
  ∧ pruneMessages 2 Scenarios.pairedHistory
    = Some [mkHistoryMessage "assistant" [toolUseBlock "t1" "fs__list" "{}"];
            mkHistoryMessage "tool" [toolResultBlock "t1" "a.txt" PayloadNil]]
  ∧ block_ToolUseID (toolResultBlock "t1" "a.txt" PayloadNil)
    = block_ID (toolUseBlock "t1" "fs__list" "{}")
  ∧ occurs "tool_use" (toolUseBlock "t1" "fs__list" "{}")
      [mkHistoryMessage "assistant" [toolUseBlock "t1" "fs__list" "{}"];
       mkHistoryMessage "tool" [toolResultBlock "t1" "a.txt" PayloadNil]]
  ∧ occurs "tool_result" (toolResultBlock "t1" "a.txt" PayloadNil)
      [mkHistoryMessage "assistant" [toolUseBlock "t1" "fs__list" "{}"];
       mkHistoryMessage "tool" [toolResultBlock "t1" "a.txt" PayloadNil]].
Proof.
  split; [lia|]. split; [reflexivity|]. split; [reflexivity|].
  apply (pruneMessages_keeps_pairs 2 Scenarios.pairedHistory);
    [lia|reflexivity| | |reflexivity].
  - eexists. split; [apply list_elem_of_here|].
    split; [apply list_elem_of_here|reflexivity].
  - eexists. split; [apply list_elem_of_further, list_elem_of_here|].
    split; [apply list_elem_of_here|reflexivity].
Defined.

(** X4. A history whose last [window] messages are all non-empty and hold no
    tool block is cut to those messages and otherwise left alone. *)
Theorem pruneMessages_truncates_plain_history messageWindow messages :
  (0 ≤ messageWindow)%Z →
  Forall plainMessage (lastWindow messageWindow messages) →
  pruneMessages messageWindow messages
  = Some (lastWindow messageWindow messages).
Proof.
  intros Hw Hplain.
  destruct (Z.le_gt_cases (Z.of_nat (length messages)) messageWindow)
    as [Hle|Hgt].
  - rewrite lastWindow_within by exact Hle.
    by apply PruneFacts.pruneMessages_within.
  - rewrite PruneFacts.pruneMessages_beyond by lia. f_equal.
    generalize (collectIds (lastWindow messageWindow messages)) as ids.
    intros ids.
    induction Hplain as [|msg kept [Hne Hblocks] Hrest IH]; [reflexivity|].
    csimpl.
    assert (Hsame : prunedBlocks ids msg = msg_Content msg).
    { unfold prunedBlocks. clear Hne.
      induction Hblocks as [|block blocks Hblock Hblocks IHb];
        [reflexivity|].
      simpl. rewrite (keepBlock_plain ids block Hblock). by rewrite IHb. }
    rewrite PruneFacts.pruneMessage_kept by (by rewrite Hsame).
    rewrite Hsame, IH. by destruct msg.
Qed.

Lemma pruneMessages_truncates_plain_history_witness :
  (0 ≤ 2)%Z
  ∧ Forall plainMessage (lastWindow 2 Scenarios.plainHistory)
  ∧ pruneMessages 2 Scenarios.plainHistory
    = Some [mkHistoryMessage "assistant" [textBlock "two"];
            mkHistoryMessage "user" [textBlock "three"]].
Proof.
  assert (Hplain : Forall plainMessage (lastWindow 2 Scenarios.plainHistory)).
  { repeat constructor; discriminate. }
  split; [lia|]. split; [exact Hplain|].
  apply (pruneMessages_truncates_plain_history 2 Scenarios.plainHistory);
    [lia|exact Hplain].
Defined.

End PruneMore.

(** * More properties of RunPrompt *)

Module TurnMore.

Import Turn Rounds.

Section WithSession.

Context {World ToolArgs Tool : Type}.
Variable lib : GoLib ToolArgs.
Variable ms : MCPSession World ToolArgs Tool.
Variable callback : Callback.

(** ** One attempt *)

(** An attempt adds the events of the callback and of at most one request,
    and nothing else. *)
Lemma attempt_events (observed : bool) prompt llmMessages w tr message err :
  ∃ ev,
    snd (fst (fst (attempt ms callback observed prompt llmMessages w tr
                     message err))) = tr ++ ev
    ∧ (requests ev = [] ∨ requests ev = [(prompt, llmMessages, AllTools ms)])
    ∧ sleeps ev = [] ∧ appends ev = [] ∧ toolRuns ev = [].
Proof.
  unfold attempt, action.
  destruct (Provider_CreateMessage ms w prompt llmMessages (AllTools ms))
    as [w1 [message1 err1]].
  destruct observed; [destruct (callback MODE_CREATE_MESSAGE "")|]; simpl.
  - exists [EvCallback MODE_CREATE_MESSAGE "";
            EvCreateMessage prompt llmMessages (AllTools ms)].
    rewrite <- app_assoc. auto 10.
  - exists [EvCallback MODE_CREATE_MESSAGE ""]. auto 10.
  - exists [EvCreateMessage prompt llmMessages (AllTools ms)]. auto 10.
Qed.

Lemma prefix_replicate_S {A} (x : A) (l : list A) n :
  l `prefix_of` replicate n x → l `prefix_of` replicate (S n) x.
Proof.
  intros [rest Hrest]. exists (rest ++ [x]).
  rewrite app_assoc, <- Hrest.
  change (replicate (S n) x) with ([x] ++ replicate n x).
  clear. induction n as [|n IH]; [reflexivity|].
  simpl in *. by rewrite <- IH.
Qed.

(** ** The retry loop, whatever the provider does *)

(** With [k] retries left, the loop sends at most [k + 1] requests, all the
    same, sleeps at most [k] times with the delays of the back-off sequence,
    appends nothing and runs no tool. *)
Lemma retryLoop_events (observed : bool) prompt llmMessages (k : nat) :
  ∀ w tr message err backoff retries,
    (retries = maxRetries - Z.of_nat k)%Z →
    (0 ≤ retries)%Z →
    ∃ new,
      snd (fst (retryLoop ms callback observed prompt llmMessages w tr
                  message err backoff retries)) = tr ++ new
      ∧ requests new
        `prefix_of` replicate (S k) (prompt, llmMessages, AllTools ms)
      ∧ sleeps new
        `prefix_of`
          sleeps (retryEvents ms observed prompt llmMessages k backoff)
      ∧ appends new = [] ∧ toolRuns new = [].
Proof.
  induction k as [|k IH]; intros w tr message err backoff retries Hk Hlo;
    rewrite TurnFacts.retryLoop_unfold;
    destruct (attempt_events observed prompt llmMessages w tr message err)
      as (ev & Htr & Hreq & Hsl & Happ & Hrun);
    destruct (attempt ms callback observed prompt llmMessages w tr
                message err) as [[[w1 tr1] message1] err1];
    simpl in Htr; subst tr1.
  - assert (Hstop : ∃ exit,
              match err1 with
              | Some e =>
                  if GoStrings.Contains e "overloaded_error"
                  then if (retries >=? maxRetries)%Z
                       then (w1, tr ++ ev, LoopReturn overloadedMessage)
                       else retryLoop ms callback observed prompt llmMessages
                              w1 ((tr ++ ev) ++ [EvSleep backoff]) message1
                              (Some e) (nextBackoff backoff)
                              (wrap64 (retries + 1))
                  else (w1, tr ++ ev, LoopReturn e)
              | None => (w1, tr ++ ev, LoopBreak message1)
              end = (w1, tr ++ ev, exit)).
    { destruct err1 as [e|]; [|by eexists].
      destruct (GoStrings.Contains e "overloaded_error"); [|by eexists].
      destruct (Z.geb_spec retries maxRetries); [by eexists|lia]. }
    destruct Hstop as [exit ->]. simpl.
    exists ev. split; [reflexivity|]. rewrite Hsl, Happ, Hrun.
    split; [|split; [apply prefix_nil|done]].
    destruct Hreq as [-> | ->]; [apply prefix_nil|reflexivity].
  - assert (Hreq' : ∀ more,
              more `prefix_of` replicate (S k)
                                 (prompt, llmMessages, AllTools ms) →
              requests ev ++ more
              `prefix_of` replicate (S (S k))
                            (prompt, llmMessages, AllTools ms)).
    { intros more Hmore. destruct Hreq as [-> | ->].
      - by apply (prefix_replicate_S _ more).
      - by apply (prefix_cons (prompt, llmMessages, AllTools ms) more). }
    destruct err1 as [e|]; [destruct (GoStrings.Contains e "overloaded_error");
                            [destruct (Z.geb_spec retries maxRetries)|]|].
    + lia.
    + unfold maxRetries in *.
      rewrite TurnFacts.wrap64_small by lia.
      destruct (IH w1 ((tr ++ ev) ++ [EvSleep backoff]) message1 (Some e)
                  (nextBackoff backoff) (retries + 1)%Z)
        as (new & -> & Hreqs & Hsls & Happs & Hruns); [lia|lia|].
      exists (ev ++ [EvSleep backoff] ++ new).
      rewrite <- !app_assoc. split; [reflexivity|].
      rewrite !TurnFacts.requests_app, !TurnFacts.sleeps_app,
        !TurnFacts.appends_app, !TurnFacts.toolRuns_app.
      rewrite Hsl, Happ, Hrun, Happs, Hruns.
      rewrite TurnFacts.sleeps_retryEvents. simpl.
      split; [by apply Hreq'|]. split; [by apply prefix_cons|done].
    + simpl. exists ev. split; [reflexivity|].
      rewrite Hsl, Happ, Hrun. rewrite <- (app_nil_r (requests ev)).
      split; [apply Hreq', prefix_nil|]. split; [apply prefix_nil|done].
    + simpl. exists ev. split; [reflexivity|].
      rewrite Hsl, Happ, Hrun. rewrite <- (app_nil_r (requests ev)).
      split; [apply Hreq', prefix_nil|]. split; [apply prefix_nil|done].
Qed.


(** ** The tool loop, whatever the tools do *)

Lemma quiet_app (ev1 ev2 : list (Event ToolArgs Tool)) :
  quiet ev1 → quiet ev2 → quiet (ev1 ++ ev2).
Proof.
  intros (Ha1 & Hr1 & Hs1) (Ha2 & Hr2 & Hs2). unfold quiet.
  by rewrite TurnFacts.appends_app, TurnFacts.requests_app,
    TurnFacts.sleeps_app, Ha1, Hr1, Hs1, Ha2, Hr2, Hs2.
Qed.

Lemma quiet_nil : quiet ([] : list (Event ToolArgs Tool)).
Proof. by repeat split. Qed.

(** One tool call adds its [tool_use] block and at most one result, which
    answers it. *)
Lemma dispatch_shape (l : Locals World ToolArgs Tool) toolCall :
  ∃ l' ev,
    (dispatch lib ms callback l toolCall = Continue l'
     ∨ dispatch lib ms callback l toolCall = NilDeref l')
    ∧ loc_trace l' = loc_trace l ++ ev ∧ quiet ev
    ∧ messageContent l' = messageContent l ++ [toolUseOf lib toolCall]
    ∧ (toolResults l' = toolResults l
       ∨ ∃ result,
           toolResults l' = toolResults l ++ [result]
           ∧ block_Type result = "tool_result"
           ∧ block_ToolUseID result = GetID toolCall).
Proof.
  unfold dispatch, toolUseOf.
  destruct (GoStrings.Split (GetName toolCall) "__")
    as [|serverName [|toolName [|third more]]];
    try (eexists _, [_]; split; [left; reflexivity|]; simpl;
         repeat split; auto; fail).
  destruct (MCPClients ms !! serverName) as [mcpClient|];
    [|eexists _, [_]; split; [left; reflexivity|]; simpl;
      repeat split; auto].
  destruct (json_Unmarshal lib (marshalInput lib toolCall)) as [toolArgs|e];
    [|eexists _, [_]; split; [left; reflexivity|]; simpl;
      repeat split; auto].
  destruct (callback MODE_RUN_TOOL toolName).
  - destruct (mcpClient (loc_world l) toolName toolArgs)
      as [w' [[toolResult|] [e|]]].
    + eexists _, [_; _; _]. split; [left; reflexivity|]. simpl.
      rewrite <- !app_assoc. repeat split; eauto.
    + destruct (result_Content toolResult);
        (eexists _, [_; _]; split; [left; reflexivity|]; simpl;
         rewrite <- !app_assoc; repeat split; eauto).
    + eexists _, [_; _; _]. split; [left; reflexivity|]. simpl.
      rewrite <- !app_assoc. repeat split; eauto.
    + eexists _, [_; _]. split; [right; reflexivity|]. simpl.
      rewrite <- !app_assoc. repeat split; eauto.
  - destruct (loc_err l) as [e|].
    + eexists _, [_; _]. split; [left; reflexivity|]. simpl.
      rewrite <- !app_assoc. repeat split; eauto.
    + eexists _, [_]. split; [right; reflexivity|]. simpl.
      repeat split; eauto.
Qed.

(** The whole loop adds one [tool_use] block for each tool call, in order,
    and at most as many results, each for one of the tool calls. *)
Lemma toolLoop_shape toolCalls :
  ∀ l : Locals World ToolArgs Tool,
    ∃ l' ev,
      loc_trace l' = loc_trace l ++ ev ∧ quiet ev
      ∧ (toolLoop lib ms callback toolCalls l = NilDeref l'
         ∨ toolLoop lib ms callback toolCalls l = Continue l'
           ∧ messageContent l'
             = messageContent l ++ map (toolUseOf lib) toolCalls
           ∧ ∃ results,
               toolResults l' = toolResults l ++ results
               ∧ map block_ToolUseID results
                 `sublist_of` map GetID toolCalls
               ∧ Forall (λ result,
                           block_Type result = "tool_result"
                           ∧ ∃ toolCall,
                               toolCall ∈ toolCalls
                               ∧ block_ToolUseID result = GetID toolCall)
                   results).
Proof.
  induction toolCalls as [|toolCall rest IH]; intros l.
  - exists l, []. rewrite !app_nil_r. split; [reflexivity|].
    split; [apply quiet_nil|]. right. split; [reflexivity|].
    split; [reflexivity|]. exists []. rewrite app_nil_r.
    split; [reflexivity|]. split; [constructor|constructor].
  - destruct (dispatch_shape l toolCall)
      as (l1 & ev1 & Hstep & Htr1 & Hq1 & Hcontent1 & Hres1).
    simpl. destruct Hstep as [-> | ->].
    + destruct (IH l1) as (l' & ev & Htr & Hq & Hloop).
      exists l', (ev1 ++ ev). rewrite Htr, Htr1, <- app_assoc.
      split; [reflexivity|]. split; [by apply quiet_app|].
      destruct Hloop as [Hnil|(Hcont & Hcontent & results & Hres & Hlen & Hall)];
        [by left|].
      right. split; [exact Hcont|].
      split; [by rewrite Hcontent, Hcontent1, <- app_assoc|].
      assert (Hall' : Forall (λ result,
                                block_Type result = "tool_result"
                                ∧ ∃ call, call ∈ toolCall :: rest
                                          ∧ block_ToolUseID result
                                            = GetID call) results).
      { eapply Forall_impl; [exact Hall|].
        intros result (Ht & call & Hin & Hid). split; [exact Ht|].
        exists call. split; [by apply list_elem_of_further|exact Hid]. }
      destruct Hres1 as [Hsame|(result & Hone & Ht & Hid)].
      * exists results. rewrite Hres, Hsame.
        split; [reflexivity|].
        split; [simpl; by apply sublist_cons|exact Hall'].
      * exists (result :: results). rewrite Hres, Hone, <- app_assoc.
        split; [reflexivity|].
        split; [simpl; rewrite Hid; by apply sublist_skip|].
        constructor; [|exact Hall']. split; [exact Ht|].
        exists toolCall. split; [apply list_elem_of_here|exact Hid].
    + exists l1, ev1. split; [exact Htr1|]. split; [exact Hq1|]. by left.
Qed.

Lemma foldl_appendMessage (results : list ContentBlock) :
  ∀ st : State World ToolArgs Tool,
    messages (foldl (λ st toolResult,
                       appendMessage (toolMessage toolResult) st) st results)
    = messages st ++ map toolMessage results
    ∧ trace st
      `prefix_of`
        trace (foldl (λ st toolResult,
                        appendMessage (toolMessage toolResult) st)
                 st results).
Proof.
  induction results as [|result results IH]; intros st; simpl.
  - by rewrite app_nil_r.
  - destruct (IH (appendMessage (toolMessage result) st)) as [-> Htr].
    simpl. rewrite <- app_assoc. split; [reflexivity|].
    etransitivity; [|exact Htr]. by apply prefix_app_r.
Qed.

Lemma addPrompt_trace prompt (st : State World ToolArgs Tool) :
  trace st `prefix_of` trace (addPrompt prompt st).
Proof.
  unfold addPrompt. destruct (String.eqb prompt ""); [reflexivity|].
  simpl. rewrite <- app_assoc. by apply prefix_app_r.
Qed.

Lemma addPrompt_prefix prompt (st : State World ToolArgs Tool) :
  messages st `prefix_of` messages (addPrompt prompt st).
Proof. rewrite TurnFacts.addPrompt_messages. by apply prefix_app_r. Qed.

(** The body keeps the history with the prompt and the trace of its retry
    loop, and appends to them. *)
Lemma body_keeps prompt (st : State World ToolArgs Tool) :
  messages (addPrompt prompt st)
  `prefix_of` messages (fst (body lib ms callback prompt st))
  ∧ snd (fst (retryLoop ms callback true prompt
                (messages (addPrompt prompt st))
                (world (addPrompt prompt st)) (trace (addPrompt prompt st))
                None None initialBackoff 0))
    `prefix_of` trace (fst (body lib ms callback prompt st)).
Proof.
  unfold body.
  destruct (retryLoop ms callback true prompt _ _ _ None None
              initialBackoff 0) as [[w tr] [[message|]|e]];
    try (by split).
  match goal with
  | |- context [toolLoop lib ms callback ?calls ?l0] =>
      destruct (toolLoop_shape calls l0) as (l' & ev & Htr' & _ & Hloop);
      assert (Hl' : tr `prefix_of` loc_trace l')
        by (rewrite Htr'; simpl; rewrite <- !app_assoc;
            by apply prefix_app_r);
      destruct Hloop as [-> | (-> & _)]
  end; [by split|].
  destruct (0 <? length (toolResults l'))%nat.
  - match goal with
    | |- context [foldl ?f ?st0 ?rs] =>
        destruct (foldl_appendMessage rs st0) as [Hm Ht]
    end.
    simpl. rewrite Hm. simpl. split.
    + rewrite <- app_assoc. by apply prefix_app_r.
    + etransitivity; [|exact Ht]. simpl.
      etransitivity; [exact Hl'|]. by apply prefix_app_r.
  - simpl. split; [by apply prefix_app_r|].
    etransitivity; [exact Hl'|]. by apply prefix_app_r.
Qed.

Lemma body_extends prompt (st : State World ToolArgs Tool) :
  messages st `prefix_of` messages (fst (body lib ms callback prompt st))
  ∧ trace st `prefix_of` trace (fst (body lib ms callback prompt st)).
Proof.
  destruct (body_keeps prompt st) as [Hmsgs Htrace].
  split.
  - etransitivity; [apply addPrompt_prefix|exact Hmsgs].
  - etransitivity; [apply addPrompt_trace|].
    etransitivity; [|exact Htrace].
    destruct (retryLoop_events true prompt (messages (addPrompt prompt st))
                5 (world (addPrompt prompt st)) (trace (addPrompt prompt st))
                None None initialBackoff 0 eq_refl ltac:(lia))
      as (new & -> & _).
    by apply prefix_app_r.
Qed.

(** Whatever is an initial part of the history and of the trace stays one
    through a call of [RunPrompt]. *)
Lemma RunPrompt_prefix fuel prompt (st : State World ToolArgs Tool)
  history events :
  history `prefix_of` messages st →
  events `prefix_of` trace st →
  history
  `prefix_of` messages (fst (RunPrompt lib ms callback fuel prompt st))
  ∧ events
    `prefix_of` trace (fst (RunPrompt lib ms callback fuel prompt st)).
Proof.
  revert prompt st.
  induction fuel as [|fuel IH]; intros prompt st Hmsgs Htrace; [by split|].
  simpl. destruct (body_extends prompt st) as [Hmsgs' Htrace'].
  destruct (body lib ms callback prompt st) as [st' [err| |]]; simpl in *;
    try (split; etransitivity; eassumption).
  apply IH; etransitivity; eassumption.
Qed.

(** A call of [RunPrompt] that runs its body keeps the history with the
    prompt and the trace of the first retry loop. *)
Lemma RunPrompt_keeps fuel prompt (st : State World ToolArgs Tool) :
  messages (addPrompt prompt st)
  `prefix_of` messages (fst (RunPrompt lib ms callback (S fuel) prompt st))
  ∧ snd (fst (retryLoop ms callback true prompt
                (messages (addPrompt prompt st))
                (world (addPrompt prompt st)) (trace (addPrompt prompt st))
                None None initialBackoff 0))
    `prefix_of` trace (fst (RunPrompt lib ms callback (S fuel) prompt st)).
Proof.
  destruct (body_keeps prompt st) as [Hmsgs Htrace]. simpl.
  destruct (body lib ms callback prompt st) as [st' [err| |]]; simpl in *;
    try (by split).
  by apply RunPrompt_prefix.
Qed.

(** When the callback runs the action, the trace of the retry loop begins
    with the first attempt. *)
Lemma retryLoop_first_attempt prompt llmMessages w tr :
  callback MODE_CREATE_MESSAGE "" = true →
  (tr ++ attemptEvents ms true prompt llmMessages)
  `prefix_of`
    snd (fst (retryLoop ms callback true prompt llmMessages w tr
                None None initialBackoff 0)).
Proof.
  intros Hacts. rewrite TurnFacts.retryLoop_unfold.
  destruct (Provider_CreateMessage ms w prompt llmMessages (AllTools ms))
    as [w1 [message1 err1]] eqn:Hcall.
  rewrite (TurnFacts.attempt_calls ms callback true _ _ _ _ _ _ _ _ _
             Hacts Hcall).
  destruct err1 as [e|]; [|reflexivity].
  destruct (GoStrings.Contains e "overloaded_error"); [|reflexivity].
  simpl.
  destruct (retryLoop_events true prompt llmMessages 4 w1
              ((tr ++ attemptEvents ms true prompt llmMessages)
               ++ [EvSleep initialBackoff])
              message1 (Some e) (nextBackoff initialBackoff)
              (wrap64 (0 + 1)) eq_refl ltac:(by compute))
    as (new & -> & _).
  rewrite <- app_assoc. by apply prefix_app_r.
Qed.

(** X6. One round of [RunPrompt] leaves the history in one of three shapes.
    If it returns an error or crashes, nothing is added after the prompt.  If
    it settles, one message is added: the assistant message, with one
    [tool_use] block for every tool call of the completion, dispatched or
    not.  If it goes on to another round, that assistant message is followed
    by at least one tool message; the tool messages answer tool calls of the
    completion, at most one each and in the order of the calls, and each
    wraps a [tool_result] that refers to a [tool_use] of that assistant
    message: a round never adds an orphan [tool_result]. *)
Theorem round_shape prompt (st : State World ToolArgs Tool) :
  match snd (body lib ms callback prompt st) with
  | Recurse =>
      ∃ message results,
        messages (fst (body lib ms callback prompt st))
        = messages (addPrompt prompt st)
          ++ assistantMessage lib message :: map toolMessage results
        ∧ results ≠ []
        ∧ map block_ToolUseID results
          `sublist_of` map GetID (GetToolCalls message)
        ∧ Forall (refersInto (msg_Content (assistantMessage lib message)))
            results
  | Return None =>
      ∃ message,
        messages (fst (body lib ms callback prompt st))
        = messages (addPrompt prompt st) ++ [assistantMessage lib message]
  | Return (Some _) | Panic =>
      messages (fst (body lib ms callback prompt st))
      = messages (addPrompt prompt st)
  end.
Proof.
  unfold body.
  destruct (retryLoop ms callback true prompt _ _ _ None None
              initialBackoff 0) as [[w tr] [[message|]|e]];
    try reflexivity.
  match goal with
  | |- context [toolLoop lib ms callback ?calls ?l0] =>
      destruct (toolLoop_shape calls l0)
        as (l' & ev & _ & _ & [-> | (-> & Hcontent & results & Hres
                                     & Hlen & Hall)])
  end; [reflexivity|].
  simpl in Hcontent, Hres. rewrite Hres, Hcontent.
  destruct results as [|result results]; simpl.
  - by exists message.
  - match goal with
    | |- context [foldl ?f ?st0 ?rs] =>
        destruct (foldl_appendMessage rs st0) as [Hmsgs _]
    end.
    exists message, (result :: results). rewrite Hmsgs. simpl.
    rewrite <- !app_assoc. split; [reflexivity|].
    split; [discriminate|]. split; [exact Hlen|].
    eapply Forall_impl; [exact Hall|].
    intros r (Ht & call & Hin & Hid). split; [exact Ht|].
    exists (toolUseOf lib call). split; [|by split].
    simpl. apply elem_of_app. right.
    apply list_elem_of_fmap. by exists call.
Qed.

(** X7. [RunPrompt] only ever appends: however the call ends and however
    many rounds it runs, the history it was given is an initial part of the
    history it leaves, and so is the trace of events. *)
Theorem RunPrompt_appends_only fuel prompt (st : State World ToolArgs Tool) :
  messages st
  `prefix_of` messages (fst (RunPrompt lib ms callback fuel prompt st))
  ∧ trace st
    `prefix_of` trace (fst (RunPrompt lib ms callback fuel prompt st)).
Proof.
  revert prompt st. induction fuel as [|fuel IH]; intros prompt st; simpl.
  - by split.
  - destruct (body_extends prompt st) as [Hmsgs Htrace].
    destruct (body lib ms callback prompt st) as [st' [err| |]]; simpl in *;
      try (by split).
    destruct (IH "" st') as [Hmsgs' Htrace'].
    split; etransitivity; eassumption.
Qed.

(** ** Every request carries the whole history *)

Lemma carriesHistory_app (ev1 ev2 : list (Event ToolArgs Tool)) :
  ∀ history,
    carriesHistory history (ev1 ++ ev2)
    ↔ carriesHistory history ev1
      ∧ carriesHistory (history ++ appends ev1) ev2.
Proof.
  induction ev1 as [|ev ev1 IH]; intros history.
  - simpl. rewrite app_nil_r. tauto.
  - destruct ev; simpl; rewrite ?IH; csimpl; rewrite <- ?app_assoc; tauto.
Qed.

(** Events without an append, whose requests all carry [history]. *)
Lemma carriesHistory_requests (ev : list (Event ToolArgs Tool)) history :
  appends ev = [] →
  Forall (λ request, snd (fst request) = history) (requests ev) →
  carriesHistory history ev.
Proof.
  induction ev as [|e ev IH]; [done|].
  destruct e; csimpl; intros Happ Hreq; try (by apply IH).
  - inversion Hreq; subst. split; [done|]. by apply IH.
  - discriminate.
Qed.

Lemma carriesHistory_quiet (ev : list (Event ToolArgs Tool)) history :
  quiet ev → carriesHistory history ev.
Proof.
  intros (Happ & Hreq & _). apply carriesHistory_requests; [exact Happ|].
  rewrite Hreq. constructor.
Qed.

Lemma prefix_replicate_all {A} (x : A) (l : list A) n :
  l `prefix_of` replicate n x → Forall (λ y, y = x) l.
Proof.
  intros [rest Hrest].
  assert (Hall : Forall (λ y, y = x) (l ++ rest))
    by (rewrite <- Hrest; apply Forall_replicate; reflexivity).
  by apply Forall_app in Hall as [Hl _].
Qed.

Lemma foldl_appendMessage_trace (results : list ContentBlock) :
  ∀ st : State World ToolArgs Tool,
    trace (foldl (λ st toolResult,
                    appendMessage (toolMessage toolResult) st) st results)
    = trace st ++ map (λ result, EvAppend (toolMessage result)) results.
Proof.
  induction results as [|result results IH]; intros st; simpl.
  - by rewrite app_nil_r.
  - rewrite IH. simpl. by rewrite <- app_assoc.
Qed.

Lemma carriesHistory_appends (results : list ContentBlock) history :
  carriesHistory history
    (map (λ result, EvAppend (toolMessage result)) results
     : list (Event ToolArgs Tool))
  ∧ appends (map (λ result, EvAppend (toolMessage result)) results
             : list (Event ToolArgs Tool))
    = map toolMessage results.
Proof.
  revert history. induction results as [|result results IH];
    intros history; [done|].
  destruct (IH (history ++ [toolMessage result])) as [Hcarries Happ].
  split; [exact Hcarries|].
  change (toolMessage result
          :: appends (map (λ result, EvAppend (toolMessage result)) results
                      : list (Event ToolArgs Tool))
          = toolMessage result :: map toolMessage results).
  by rewrite Happ.
Qed.

(** One round: what it adds to the trace accounts for what it adds to the
    history, and its requests carry the history with the prompt. *)
Lemma body_carries prompt (st : State World ToolArgs Tool) :
  ∃ new,
    trace (fst (body lib ms callback prompt st)) = trace st ++ new
    ∧ carriesHistory (messages st) new
    ∧ messages (fst (body lib ms callback prompt st))
      = messages st ++ appends new.
Proof.
  assert (Hprompt : ∃ pe,
            trace (addPrompt prompt st) = trace st ++ pe
            ∧ carriesHistory (messages st) pe
            ∧ messages (addPrompt prompt st) = messages st ++ appends pe).
  { unfold addPrompt. destruct (String.eqb prompt "").
    - exists []. by rewrite !app_nil_r.
    - exists [EvCallback MODE_USER_PROMPT prompt;
              EvAppend (userMessage prompt)].
      simpl. by rewrite <- app_assoc. }
  destruct Hprompt as (pe & Htr0 & Hc0 & Hm0).
  unfold body.
  destruct (retryLoop_events true prompt (messages (addPrompt prompt st))
              5 (world (addPrompt prompt st)) (trace (addPrompt prompt st))
              None None initialBackoff 0 eq_refl ltac:(lia))
    as (le & Htr1 & Hreq & _ & Happ & _).
  assert (Hc1 : carriesHistory (messages (addPrompt prompt st)) le).
  { apply carriesHistory_requests; [exact Happ|].
    eapply Forall_impl; [exact (prefix_replicate_all _ _ _ Hreq)|].
    by intros request ->. }
  assert (Hloop : carriesHistory (messages st) (pe ++ le)
                  ∧ messages (addPrompt prompt st)
                    = messages st ++ appends (pe ++ le)).
  { split.
    - apply carriesHistory_app. split; [exact Hc0|]. by rewrite <- Hm0.
    - by rewrite TurnFacts.appends_app, Happ, app_nil_r. }
  destruct Hloop as [Hc01 Hm01].
  destruct (retryLoop ms callback true prompt _ _ _ None None
              initialBackoff 0) as [[w tr] [[message|]|e]];
    simpl in Htr1; subst tr; rewrite Htr0, <- app_assoc;
    try (by exists (pe ++ le)).
  match goal with
  | |- context [toolLoop lib ms callback ?calls ?l0] =>
      destruct (toolLoop_shape calls l0) as (l' & ev & Htr' & Hq & Hloop)
  end.
  simpl in Htr'.
  assert (Hc2 : carriesHistory (messages st)
                  (pe ++ le
                   ++ EvCallback MODE_ASSISTANT_MESSAGE (GetContent message)
                      :: ev)
                ∧ appends (pe ++ le
                           ++ EvCallback MODE_ASSISTANT_MESSAGE
                                (GetContent message) :: ev)
                  = appends (pe ++ le)).
  { rewrite (app_assoc pe le). split.
    - apply carriesHistory_app. split; [exact Hc01|].
      simpl. by apply carriesHistory_quiet.
    - rewrite TurnFacts.appends_app. csimpl.
      destruct Hq as (-> & _). by rewrite app_nil_r. }
  destruct Hc2 as [Hc2 Ha2].
  assert (Htrace : loc_trace l'
                   = trace st
                     ++ pe ++ le
                     ++ EvCallback MODE_ASSISTANT_MESSAGE (GetContent message)
                        :: ev)
    by (rewrite Htr', <- !app_assoc; reflexivity).
  destruct Hloop as [-> | (-> & _)].
  { eexists. split; [exact Htrace|]. split; [exact Hc2|].
    simpl. by rewrite Ha2. }
  set (assistant := mkHistoryMessage (GetRole message) (messageContent l')).
  destruct (carriesHistory_appends (toolResults l')
              (messages (addPrompt prompt st) ++ [assistant]))
    as [Hc3 Ha3].
  assert (Hfinal : ∀ tail : list (Event ToolArgs Tool),
            carriesHistory (messages (addPrompt prompt st) ++ [assistant])
              tail →
            carriesHistory (messages st)
              ((pe ++ le
                ++ EvCallback MODE_ASSISTANT_MESSAGE (GetContent message)
                   :: ev)
               ++ EvAppend assistant :: tail)
            ∧ appends ((pe ++ le
                        ++ EvCallback MODE_ASSISTANT_MESSAGE
                             (GetContent message) :: ev)
                       ++ EvAppend assistant :: tail)
              = appends (pe ++ le) ++ assistant :: appends tail).
  { intros tail Htail. split.
    - apply carriesHistory_app. split; [exact Hc2|].
      rewrite Ha2, <- Hm01. exact Htail.
    - rewrite TurnFacts.appends_app, Ha2. reflexivity. }
  destruct (0 <? length (toolResults l'))%nat.
  - destruct (Hfinal _ Hc3) as [Hc Ha].
    exists ((pe ++ le
             ++ EvCallback MODE_ASSISTANT_MESSAGE (GetContent message) :: ev)
            ++ EvAppend assistant
               :: map (λ result, EvAppend (toolMessage result))
                    (toolResults l')).
    split; [|split; [exact Hc|]].
    + simpl. rewrite foldl_appendMessage_trace. simpl.
      rewrite Htrace, <- !app_assoc. reflexivity.
    + cbn [fst]. rewrite (proj1 (foldl_appendMessage _ _)), Ha, Ha3, Hm01.
      simpl.
      by rewrite <- !app_assoc.
  - destruct (Hfinal [] I) as [Hc Ha].
    exists ((pe ++ le
             ++ EvCallback MODE_ASSISTANT_MESSAGE (GetContent message) :: ev)
            ++ [EvAppend assistant]).
    split; [|split; [exact Hc|]].
    + simpl. rewrite Htrace, <- !app_assoc. reflexivity.
    + cbn [fst]. rewrite Ha, Hm01. simpl. by rewrite <- !app_assoc.
Qed.

(** X16. [RunPrompt] always sends the whole history: through all the rounds
    of a call, every request to the provider carries exactly the messages
    that the history holds at that moment, those it began with and all that
    have been appended since, and the history at the end is the one at the
    start followed by the messages appended. *)
Theorem RunPrompt_sends_whole_history fuel prompt
  (st : State World ToolArgs Tool) :
  ∃ new,
    trace (fst (RunPrompt lib ms callback fuel prompt st)) = trace st ++ new
    ∧ carriesHistory (messages st) new
    ∧ messages (fst (RunPrompt lib ms callback fuel prompt st))
      = messages st ++ appends new.
Proof.
  revert prompt st. induction fuel as [|fuel IH]; intros prompt st.
  - exists []. simpl. by rewrite !app_nil_r.
  - simpl. destruct (body_carries prompt st) as (new & Htr & Hc & Hm).
    destruct (body lib ms callback prompt st) as [st' [err| |]]; simpl in *;
      try (by exists new).
    destruct (IH "" st') as (more & Htr' & Hc' & Hm').
    exists (new ++ more). rewrite Htr', Htr, Hm', Hm, <- !app_assoc.
    split; [reflexivity|]. split.
    + apply carriesHistory_app. split; [exact Hc|]. by rewrite <- Hm.
    + by rewrite TurnFacts.appends_app.
Qed.

(** ** The callback of the command line and an empty tool name *)

(** X8. The callback that [runMCPHost] passes does not run the action of
    [MODE_RUN_TOOL] when the tool name is empty.  For a tool call named
    ["server__"] with a connected server, no tool runs: if the error variable
    is nil, [RunPrompt] dereferences the nil result pointer, and when this is
    the first tool call of the completion the call crashes with the history
    as it was before the completion; if an earlier tool call of the round
    failed, its error is reported again as the result of this one. *)
Theorem empty_tool_name_not_run (l : Locals World ToolArgs Tool) toolCall
  serverName mcpClient toolArgs :
  GoStrings.Split (GetName toolCall) "__" = [serverName; ""] →
  MCPClients ms !! serverName = Some mcpClient →
  json_Unmarshal lib (marshalInput lib toolCall) = inl toolArgs →
  dispatch lib ms cliCallback l toolCall
  = match loc_err l with
    | None =>
        NilDeref
          (mkLocals (loc_world l)
             (loc_trace l ++ [EvCallback MODE_RUN_TOOL ""])
             (messageContent l ++ [toolUseOf lib toolCall])
             (toolResults l) None)
    | Some e =>
        Continue
          (mkLocals (loc_world l)
             (loc_trace l
              ++ [EvCallback MODE_RUN_TOOL "";
                  EvCallback MODE_ERROR ("Error calling tool : " +:+ e)])
             (messageContent l ++ [toolUseOf lib toolCall])
             (toolResults l
              ++ [errorResult (GetID toolCall)
                    ("Error calling tool : " +:+ e)])
             (Some e))
    end
  ∧ ∀ fuel prompt (st : State World ToolArgs Tool) w tr message rest,
      retryLoop ms cliCallback true prompt (messages (addPrompt prompt st))
        (world (addPrompt prompt st)) (trace (addPrompt prompt st))
        None None initialBackoff 0 = (w, tr, LoopBreak (Some message)) →
      GetToolCalls message = toolCall :: rest →
      RunPrompt lib ms cliCallback (S fuel) prompt st
      = (mkState w (messages (addPrompt prompt st))
           (tr ++ [EvCallback MODE_ASSISTANT_MESSAGE (GetContent message);
                   EvCallback MODE_RUN_TOOL ""]),
         Panicked).
Proof.
  intros Hparts Hserver Hargs.
  assert (Hstep : ∀ l : Locals World ToolArgs Tool,
            dispatch lib ms cliCallback l toolCall
            = match loc_err l with
              | None =>
                  NilDeref
                    (mkLocals (loc_world l)
                       (loc_trace l ++ [EvCallback MODE_RUN_TOOL ""])
                       (messageContent l ++ [toolUseOf lib toolCall])
                       (toolResults l) None)
              | Some e =>
                  Continue
                    (mkLocals (loc_world l)
                       (loc_trace l
                        ++ [EvCallback MODE_RUN_TOOL "";
                            EvCallback MODE_ERROR
                              ("Error calling tool : " +:+ e)])
                       (messageContent l ++ [toolUseOf lib toolCall])
                       (toolResults l
                        ++ [errorResult (GetID toolCall)
                              ("Error calling tool : " +:+ e)])
                       (Some e))
              end).
  { intros l0. unfold dispatch, toolUseOf.
    rewrite Hparts, Hserver, Hargs. simpl.
    destruct (loc_err l0); [|reflexivity]. by rewrite <- app_assoc. }
  split; [apply Hstep|].
  intros fuel prompt st w tr message rest Hloop Hcalls.
  simpl. rewrite (TurnFacts.body_loop_break _ _ _ _ _ _ _ _ Hloop), Hcalls.
  simpl. rewrite Hstep. simpl. by rewrite <- app_assoc.
Qed.

(** ** CreateMessage and the loop inside RunPrompt *)

Lemma retryLoop_agrees prompt llmMessages (k : nat) :
  callback MODE_CREATE_MESSAGE "" = true →
  ∀ w tr1 tr2 message1 err1 message2 err2 backoff retries,
    (retries = maxRetries - Z.of_nat k)%Z →
    (0 ≤ retries)%Z →
    ∃ w' exit new1 new2,
      retryLoop ms callback true prompt llmMessages w tr1 message1 err1
        backoff retries = (w', tr1 ++ new1, exit)
      ∧ retryLoop ms callback false prompt llmMessages w tr2 message2 err2
          backoff retries = (w', tr2 ++ new2, exit)
      ∧ requests new1 = requests new2
      ∧ sleeps new1 = sleeps new2.
Proof.
  intros Hacts.
  induction k as [|k IH];
    intros w tr1 tr2 message1 err1 message2 err2 backoff retries Hk Hlo;
    rewrite !TurnFacts.retryLoop_unfold;
    destruct (Provider_CreateMessage ms w prompt llmMessages (AllTools ms))
      as [w1 [message' err']] eqn:Hcall;
    rewrite (TurnFacts.attempt_calls ms callback true _ _ _ _ _ _ _ _ _
               Hacts Hcall),
      (TurnFacts.attempt_calls ms callback false _ _ _ _ _ _ _ _ _
         eq_refl Hcall);
    (destruct err' as [e|];
     [destruct (GoStrings.Contains e "overloaded_error");
      [destruct (Z.geb_spec retries maxRetries)|]|]);
    try (eexists _, _, _, _; split; [reflexivity|];
         split; [reflexivity|]; by split).
  - lia.
  - unfold maxRetries in *.
    rewrite TurnFacts.wrap64_small by lia.
    destruct (IH w1
                ((tr1 ++ attemptEvents ms true prompt llmMessages)
                 ++ [EvSleep backoff])
                ((tr2 ++ attemptEvents ms false prompt llmMessages)
                 ++ [EvSleep backoff])
                message' (Some e) message' (Some e)
                (nextBackoff backoff) (retries + 1)%Z)
      as (w' & exit & new1 & new2 & -> & -> & Hreq & Hsl); [lia|lia|].
    exists w', exit,
      (attemptEvents ms true prompt llmMessages
       ++ [EvSleep backoff] ++ new1),
      (attemptEvents ms false prompt llmMessages
       ++ [EvSleep backoff] ++ new2).
    rewrite <- !app_assoc. split; [reflexivity|]. split; [reflexivity|].
    rewrite !TurnFacts.requests_app, !TurnFacts.sleeps_app, Hreq, Hsl.
    by rewrite !TurnFacts.requests_attemptEvents,
      !TurnFacts.sleeps_attemptEvents.
Qed.

(** X9. [CreateMessage] of the session and the retry loop written out in
    [RunPrompt] are the same protocol: when the callback runs the action it
    is handed, both leave the world in the same state and end the same way,
    after the same requests and the same sleeps; [CreateMessage] leaves the
    history as it is. *)
Theorem CreateMessage_agrees prompt (st : State World ToolArgs Tool) :
  callback MODE_CREATE_MESSAGE "" = true →
  ∃ w' exit new1 new2,
    retryLoop ms callback true prompt (messages st) (world st) (trace st)
      None None initialBackoff 0 = (w', trace st ++ new1, exit)
    ∧ CreateMessage ms callback prompt st
      = (mkState w' (messages st) (trace st ++ new2), exit)
    ∧ requests new1 = requests new2
    ∧ sleeps new1 = sleeps new2.
Proof.
  intros Hacts.
  destruct (retryLoop_agrees prompt (messages st) 5 Hacts (world st)
              (trace st) (trace st) None None None None initialBackoff 0
              eq_refl ltac:(lia))
    as (w' & exit & new1 & new2 & Hobserved & Hdirect & Hreq & Hsl).
  exists w', exit, new1, new2. split; [exact Hobserved|].
  split; [|by split].
  unfold CreateMessage. by rewrite Hdirect.
Qed.

End WithSession.

Lemma empty_tool_name_not_run_witness :
  GoStrings.Split (GetName Scenarios.unnamedCall) "__" = ["fs"; ""]
  ∧ MCPClients (Examples.session Scenarios.unnamedTool) !! "fs"
    = Some Examples.echo
  ∧ json_Unmarshal Examples.lib
      (marshalInput Examples.lib Scenarios.unnamedCall) = inl "{}"
  ∧ Examples.ask Scenarios.unnamedTool
    = (1%nat, Examples.firstAttempt Scenarios.unnamedTool,
       LoopBreak (Some (Examples.answer "" [Scenarios.unnamedCall])))
  ∧ RunPrompt Examples.lib (Examples.session Scenarios.unnamedTool)
      cliCallback 1 "hi" Examples.start
    = (mkState 1 [userMessage "hi"]
         (Examples.firstAttempt Scenarios.unnamedTool
          ++ [EvCallback MODE_ASSISTANT_MESSAGE "";
              EvCallback MODE_RUN_TOOL ""]),
       Panicked).
Proof.
  assert (Hloop : Examples.ask Scenarios.unnamedTool
                  = (1%nat, Examples.firstAttempt Scenarios.unnamedTool,
                     LoopBreak (Some (Examples.answer ""
                                        [Scenarios.unnamedCall]))))
    by reflexivity.
  split; [reflexivity|]. split; [reflexivity|]. split; [reflexivity|].
  split; [exact Hloop|].
  apply (proj2 (empty_tool_name_not_run Examples.lib
                  (Examples.session Scenarios.unnamedTool)
                  (mkLocals 1%nat [] [] [] None) Scenarios.unnamedCall
                  "fs" Examples.echo "{}" eq_refl eq_refl eq_refl)
           0%nat "hi" Examples.start _ _ _ [] Hloop eq_refl).
Defined.

Lemma CreateMessage_agrees_witness :
  cliCallback MODE_CREATE_MESSAGE "" = true
  ∧ ∃ w' exit new1 new2,
      retryLoop (Examples.session Examples.rejected) cliCallback true "hi"
        (messages Examples.start) (world Examples.start)
        (trace Examples.start) None None initialBackoff 0
      = (w', trace Examples.start ++ new1, exit)
      ∧ CreateMessage (Examples.session Examples.rejected) cliCallback "hi"
          Examples.start
        = (mkState w' (messages Examples.start)
             (trace Examples.start ++ new2), exit)
      ∧ requests new1 = requests new2
      ∧ sleeps new1 = sleeps new2.
Proof.
  split; [reflexivity|].
  apply (CreateMessage_agrees (Examples.session Examples.rejected)
           cliCallback "hi" Examples.start).
  reflexivity.
Defined.

End TurnMore.

(** * Properties of the session set-up *)

Module SessionFacts.

Import Turn Session.

(** ** Splitting at the first colon *)

Lemma prefix_char a c s :
  String.prefix (String a EmptyString) (String c s)
  = if ascii_dec a c then true else false.
Proof.
  change (String.prefix (String a EmptyString) (String c s))
    with (match ascii_dec a c with
          | left _ => String.prefix EmptyString s
          | right _ => false
          end).
  destruct (ascii_dec a c); [by destruct s|reflexivity].
Qed.

Lemma Index_before_colon provider rest :
  GoStrings.Index provider ":" = None →
  GoStrings.Index (provider +:+ ":" +:+ rest) ":"
  = Some (String.length provider).
Proof.
  induction provider as [|c provider IH]; intros Hnone;
    [by destruct rest|].
  rewrite GoStringsFacts.Index_unfold in Hnone.
  change ((String c provider) +:+ ":" +:+ rest)
    with (String c (provider +:+ ":" +:+ rest)).
  rewrite GoStringsFacts.Index_unfold.
  change ":" with (String ":"%char EmptyString) in Hnone |- *.
  rewrite prefix_char in Hnone |- *.
  destruct (ascii_dec ":" c) as [Heq|Hne]; [discriminate|].
  change (String ":"%char EmptyString) with ":" in Hnone |- *.
  destruct (GoStrings.Index provider ":"); [discriminate|].
  by rewrite IH.
Qed.

Lemma upto_length_app s rest :
  GoStrings.upto (String.length s) (s +:+ rest) = s.
Proof.
  induction s as [|c s IH]; simpl; [by destruct rest|].
  change (String c s +:+ rest) with (String c (s +:+ rest)).
  by rewrite IH.
Qed.

Lemma from_length_app s rest k :
  GoStrings.from (String.length s + k) (s +:+ rest) = GoStrings.from k rest.
Proof.
  induction s as [|c s IH]; [reflexivity|].
  change (String c s +:+ rest) with (String c (s +:+ rest)).
  simpl. exact IH.
Qed.

Lemma length_app_colon s rest :
  String.length (s +:+ ":" +:+ rest) = S (String.length s + String.length rest).
Proof.
  induction s as [|c s IH]; [reflexivity|].
  change (String c s +:+ ":" +:+ rest)
    with (String c (s +:+ ":" +:+ rest)).
  simpl. by rewrite IH.
Qed.

(** A qualified name is cut once, at its first colon. *)
Lemma SplitN_first_colon provider model :
  GoStrings.Index provider ":" = None →
  SplitN (provider +:+ ":" +:+ model) ":" 2 = [provider; model].
Proof.
  intros Hnone. unfold SplitN. simpl.
  rewrite length_app_colon. simpl.
  rewrite (Index_before_colon provider model Hnone).
  by rewrite upto_length_app, from_length_app.
Qed.

Lemma SplitN_no_colon s :
  GoStrings.Index s ":" = None → SplitN s ":" 2 = [s].
Proof.
  intros Hnone. unfold SplitN. simpl.
  destruct (String.length s); simpl; [reflexivity|].
  by rewrite Hnone.
Qed.

Section WithEnvironment.

Context {P : Type}.
Variable flags : Flags.
Variable os_Getenv : string → string.
Variable new : Constructors P.

(** X10. [createProvider] cuts the model string at its first colon: a
    provider name without colon, a colon and any model name, colons in it or
    not, select the provider by that name and hand it the whole model name;
    the provider name alone, with no colon, is rejected with the format
    error. *)
Theorem createProvider_first_colon provider model systemPrompt :
  GoStrings.Index provider ":" = None →
  createProvider flags os_Getenv new (provider +:+ ":" +:+ model)
    systemPrompt
  = selectProvider flags os_Getenv new provider model systemPrompt
  ∧ createProvider flags os_Getenv new provider systemPrompt
    = (None, Some (invalidModelFormat provider)).
Proof.
  intros Hnone. unfold createProvider.
  by rewrite (SplitN_first_colon provider model Hnone),
    (SplitN_no_colon provider Hnone).
Qed.

(** The two switches do the same, the method on the field of the session. *)
Lemma assignProvider_selectProvider (ms : Setup P) provider model :
  snd (assignProvider flags os_Getenv new ms provider model)
  = snd (selectProvider flags os_Getenv new provider model
           (SystemPrompt ms))
  ∧ SystemPrompt (fst (assignProvider flags os_Getenv new ms provider model))
    = SystemPrompt ms
  ∧ Model (fst (assignProvider flags os_Getenv new ms provider model))
    = Model ms
  ∧ (Provider (fst (assignProvider flags os_Getenv new ms provider model))
     = fst (selectProvider flags os_Getenv new provider model
              (SystemPrompt ms))
     ∨ fst (selectProvider flags os_Getenv new provider model
              (SystemPrompt ms)) = None
       ∧ Provider (fst (assignProvider flags os_Getenv new ms provider model))
         = Provider ms).
Proof.
  unfold assignProvider, selectProvider.
  destruct (String.eqb provider "anthropic").
  { destruct (String.eqb (keyOr _ _ _) ""); simpl; auto 10. }
  destruct (String.eqb provider "ollama").
  { destruct (ollama_NewProvider new model (SystemPrompt ms)); simpl; auto. }
  destruct (String.eqb provider "openai").
  { destruct (String.eqb (keyOr _ _ _) ""); simpl; auto 10. }
  destruct (String.eqb provider "google").
  { destruct (google_NewProvider new _ model (SystemPrompt ms)); simpl;
      auto. }
  simpl. auto 10.
Qed.

(** X11. The method [CreateProvider] of the session and the function
    [createProvider] agree on a session whose system prompt and model are
    set: they return the same error, the method leaves the prompt and the
    model as they are, and it stores in the session the provider that the
    function returns, or leaves the field alone when there is none. *)
Theorem CreateProvider_agrees (ms : Setup P) :
  SystemPrompt ms ≠ "" →
  Model ms ≠ "" →
  snd (CreateProvider flags os_Getenv new ms)
  = snd (createProvider flags os_Getenv new (Model ms) (SystemPrompt ms))
  ∧ SystemPrompt (fst (CreateProvider flags os_Getenv new ms))
    = SystemPrompt ms
  ∧ Model (fst (CreateProvider flags os_Getenv new ms)) = Model ms
  ∧ (Provider (fst (CreateProvider flags os_Getenv new ms))
     = fst (createProvider flags os_Getenv new (Model ms) (SystemPrompt ms))
     ∨ fst (createProvider flags os_Getenv new (Model ms) (SystemPrompt ms))
       = None
       ∧ Provider (fst (CreateProvider flags os_Getenv new ms))
         = Provider ms).
Proof.
  intros Hprompt Hmodel.
  apply String.eqb_neq in Hprompt, Hmodel.
  unfold CreateProvider, createProvider. rewrite Hprompt, Hmodel.
  destruct (SplitN (Model ms) ":" 2) as [|provider [|model rest]];
    [simpl; auto 10..|].
  apply assignProvider_selectProvider.
Qed.

(** X12. With the three keys given on the command line, [createProvider]
    never depends on the environment. *)
Theorem createProvider_flags_first (os_Getenv' : string → string)
  modelString systemPrompt :
  anthropicAPIKey flags ≠ "" →
  openaiAPIKey flags ≠ "" →
  googleAPIKey flags ≠ "" →
  createProvider flags os_Getenv new modelString systemPrompt
  = createProvider flags os_Getenv' new modelString systemPrompt.
Proof.
  intros Ha Ho Hg. apply String.eqb_neq in Ha, Ho, Hg.
  unfold createProvider, selectProvider, googleKey, keyOr.
  by rewrite Ha, Ho, Hg, Ha, Ho, Hg.
Qed.

End WithEnvironment.

Lemma createProvider_first_colon_witness :
  GoStrings.Index "ollama" ":" = None
  ∧ Session.createProvider Scenarios.noFlags Scenarios.emptyEnv
      Scenarios.recording "ollama:qwen2.5:3b" "be brief"
    = (Some ["ollama"; "qwen2.5:3b"; "be brief"], None)
  ∧ Session.createProvider Scenarios.noFlags Scenarios.emptyEnv
      Scenarios.recording "ollama" "be brief"
    = (None, Some "invalid model format. Expected provider:model, got ollama").
Proof.
  split; [reflexivity|].
  apply (createProvider_first_colon Scenarios.noFlags Scenarios.emptyEnv
           Scenarios.recording "ollama" "qwen2.5:3b" "be brief").
  reflexivity.
Defined.

Lemma CreateProvider_agrees_witness :
  "be brief" ≠ "" ∧ "anthropic:claude" ≠ ""
  ∧ Session.CreateProvider Scenarios.noFlags Scenarios.anthropicEnv
      Scenarios.recording (mkSetup "be brief" "anthropic:claude" None)
    = (mkSetup "be brief" "anthropic:claude"
         (Some ["anthropic"; "sk-env"; ""; "claude"; "be brief"]), None)
  ∧ Session.createProvider Scenarios.noFlags Scenarios.anthropicEnv
      Scenarios.recording "anthropic:claude" "be brief"
    = (Some ["anthropic"; "sk-env"; ""; "claude"; "be brief"], None).
Proof.
  destruct (CreateProvider_agrees Scenarios.noFlags Scenarios.anthropicEnv
              Scenarios.recording (mkSetup "be brief" "anthropic:claude" None))
    as (Herr & Hprompt & Hmodel & Hprovider); [discriminate|discriminate|].
  split; [discriminate|]. split; [discriminate|].
  split; reflexivity.
Defined.

Lemma createProvider_flags_first_witness :
  Session.anthropicAPIKey Scenarios.allFlags ≠ ""
  ∧ Session.openaiAPIKey Scenarios.allFlags ≠ ""
  ∧ Session.googleAPIKey Scenarios.allFlags ≠ ""
  ∧ Session.createProvider Scenarios.allFlags Scenarios.anthropicEnv
      Scenarios.recording "anthropic:claude" "be brief"
    = Session.createProvider Scenarios.allFlags Scenarios.emptyEnv
        Scenarios.recording "anthropic:claude" "be brief".
Proof.
  split; [discriminate|]. split; [discriminate|]. split; [discriminate|].
  apply (createProvider_flags_first Scenarios.allFlags Scenarios.anthropicEnv
           Scenarios.recording Scenarios.emptyEnv); discriminate.
Defined.

(** ** Close *)



(** ** The main interaction loop *)

Lemma pruneMessages_total messageWindow messages :
  (0 ≤ messageWindow)%Z →
  ∃ out, Prune.pruneMessages messageWindow messages = Some out
         ∧ (Z.of_nat (length out) ≤ messageWindow)%Z.
Proof.
  intros Hw.
  assert (Hout : ∃ out, Prune.pruneMessages messageWindow messages = Some out).
  { destruct (Z.le_gt_cases (Z.of_nat (length messages)) messageWindow).
    - eexists. by apply PruneFacts.pruneMessages_within.
    - eexists. apply PruneFacts.pruneMessages_beyond. lia. }
  destruct Hout as [out Hout]. exists out. split; [exact Hout|].
  by apply (PruneFacts.pruneMessages_length messageWindow messages).
Qed.

Lemma pruneMessages_negative messageWindow messages :
  (messageWindow < 0)%Z → Prune.pruneMessages messageWindow messages = None.
Proof.
  intros Hw. unfold Prune.pruneMessages.
  destruct (Z.leb_spec (Z.of_nat (length messages)) messageWindow); [lia|].
  destruct (Z.ltb_spec messageWindow 0); [reflexivity|lia].
Qed.

Section WithHost.

Context {World ToolArgs Tool : Type}.
Variable lib : GoLib ToolArgs.
Variable ms : MCPSession World ToolArgs Tool.
Variable messageWindow : Z.
Variable handleSlashCommand : string → list HistoryMessage → bool * option error.

(** X14. With a window that is not negative, the first request of a turn
    carries the prompt and at most [window + 1] messages: the pruned history
    and the new user message. *)
Theorem turn_request_bounded fuel prompt (st : State World ToolArgs Tool) :
  (0 ≤ messageWindow)%Z →
  prompt ≠ "" →
  ∃ new llmMessages more,
    trace (fst (turn lib ms messageWindow (S fuel) prompt st))
    = trace st ++ new
    ∧ requests new = (prompt, llmMessages, AllTools ms) :: more
    ∧ (Z.of_nat (length llmMessages) ≤ messageWindow + 1)%Z.
Proof.
  intros Hw Hprompt. apply String.eqb_neq in Hprompt. unfold turn.
  assert (Hpruned : ∃ pruned,
            (if (0 <? length (messages st))%nat
             then Prune.pruneMessages messageWindow (messages st)
             else Some (messages st)) = Some pruned
            ∧ (Z.of_nat (length pruned) ≤ messageWindow)%Z).
  { destruct (Nat.ltb_spec 0 (length (messages st))).
    - by apply pruneMessages_total.
    - exists (messages st). split; [reflexivity|lia]. }
  destruct Hpruned as (pruned & -> & Hlen).
  destruct (TurnMore.RunPrompt_keeps lib ms cliCallback fuel prompt
              (mkState (world st) pruned (trace st))) as [_ Htrace].
  pose proof (TurnMore.retryLoop_first_attempt ms cliCallback prompt
                (messages (addPrompt prompt
                             (mkState (world st) pruned (trace st))))
                (world (addPrompt prompt
                          (mkState (world st) pruned (trace st))))
                (trace (addPrompt prompt
                          (mkState (world st) pruned (trace st))))
                eq_refl) as Hfirst.
  destruct (transitivity Hfirst Htrace) as [rest ->].
  unfold addPrompt. rewrite Hprompt. simpl.
  eexists _, (pruned ++ [userMessage prompt]), (requests rest).
  rewrite <- !app_assoc. split; [reflexivity|].
  split; [by rewrite !TurnFacts.requests_app|].
  rewrite length_app. simpl. lia.
Qed.

(** X15. With a negative window, pruning is skipped for the empty history of
    a fresh session and crashes on every other: the first prompt is served
    and the second one ends the program in the slice expression of
    [pruneMessages], before any request is sent. *)
Theorem negative_window_crashes fuel first second rest
  (st st1 : State World ToolArgs Tool) :
  (messageWindow < 0)%Z →
  messages st = [] →
  first ≠ "" →
  second ≠ "" →
  handleSlashCommand first (messages st) = (false, None) →
  RunPrompt lib ms cliCallback fuel first st = (st1, Returned None) →
  handleSlashCommand second (messages st1) = (false, None) →
  promptLoop lib ms messageWindow handleSlashCommand fuel
    (Entered first :: Entered second :: rest) st
  = (st1, Crashed).
Proof.
  intros Hw Hfresh Hfirst Hsecond Hcmd1 Hrun Hcmd2.
  apply String.eqb_neq in Hfirst as Hne1.
  apply String.eqb_neq in Hsecond as Hne2.
  assert (Hhistory : messages st1 ≠ []).
  { destruct fuel as [|fuel]; [discriminate|].
    destruct (TurnMore.RunPrompt_keeps lib ms cliCallback fuel first st)
      as [[more Hmsgs] _].
    rewrite Hrun in Hmsgs. simpl in Hmsgs. rewrite Hmsgs.
    rewrite TurnFacts.addPrompt_messages, Hne1, Hfresh. discriminate. }
  simpl. rewrite Hne1, Hcmd1. unfold turn at 1. rewrite Hfresh. simpl.
  replace (mkState (world st) [] (trace st)) with st
    by (destruct st; simpl in *; by subst).
  rewrite Hrun, Hne2, Hcmd2. unfold turn.
  destruct (messages st1) as [|msg msgs] eqn:Hmsgs; [done|]. simpl.
  by rewrite (pruneMessages_negative messageWindow (msg :: msgs) Hw).
Qed.

End WithHost.

Lemma turn_request_bounded_witness :
  (0 ≤ 3)%Z ∧ "hi" ≠ ""
  ∧ ∃ new llmMessages more,
      trace (fst (turn Examples.lib (Examples.session Examples.plainAnswer)
                    3 1 "hi" Scenarios.resumed))
      = trace Scenarios.resumed ++ new
      ∧ requests new
        = ("hi", llmMessages,
           AllTools (Examples.session Examples.plainAnswer)) :: more
      ∧ (Z.of_nat (length llmMessages) ≤ 3 + 1)%Z.
Proof.
  split; [lia|]. split; [discriminate|].
  apply (turn_request_bounded Examples.lib
           (Examples.session Examples.plainAnswer) 3 0 "hi"
           Scenarios.resumed); [lia|discriminate].
Defined.

Lemma negative_window_crashes_witness :
  (-1 < 0)%Z ∧ messages Examples.start = []
  ∧ "hi" ≠ "" ∧ "again" ≠ ""
  ∧ RunPrompt Examples.lib (Examples.session Examples.plainAnswer)
      cliCallback 1 "hi" Examples.start
    = (fst (RunPrompt Examples.lib (Examples.session Examples.plainAnswer)
              cliCallback 1 "hi" Examples.start), Returned None)
  ∧ promptLoop Examples.lib (Examples.session Examples.plainAnswer) (-1)
      Scenarios.noCommands 1 [Entered "hi"; Entered "again"] Examples.start
    = (fst (RunPrompt Examples.lib (Examples.session Examples.plainAnswer)
              cliCallback 1 "hi" Examples.start), Crashed).
Proof.
  assert (Hrun : RunPrompt Examples.lib
                   (Examples.session Examples.plainAnswer)
                   cliCallback 1 "hi" Examples.start
                 = (fst (RunPrompt Examples.lib
                           (Examples.session Examples.plainAnswer)
                           cliCallback 1 "hi" Examples.start),
                    Returned None)) by reflexivity.
  split; [lia|]. split; [reflexivity|].
  split; [discriminate|]. split; [discriminate|]. split; [exact Hrun|].
  apply (negative_window_crashes Examples.lib
           (Examples.session Examples.plainAnswer) (-1) Scenarios.noCommands
           1 "hi" "again" [] Examples.start _);
    [lia|reflexivity|discriminate|discriminate|reflexivity|exact Hrun
    |reflexivity].
Defined.

(** ** The system prompt file and NewSession *)

Section WithFiles.

Context {P Connected : Type}.
Variable flags : Flags.
Variable os_Getenv : string → string.
Variable new : Constructors P.
Variable os_ReadFile : string → string + error.
Variable unmarshalSystemPrompt : string → string + error.
Variable connect : string → Setup P → Returns Connected.

Lemma LoadSystemPrompt_error filePath (ms : Setup P) :
  snd (LoadSystemPrompt os_ReadFile unmarshalSystemPrompt filePath ms)
  = snd (loadSystemPrompt os_ReadFile unmarshalSystemPrompt filePath)
  ∧ Model (fst (LoadSystemPrompt os_ReadFile unmarshalSystemPrompt
                  filePath ms)) = Model ms.
Proof.
  unfold LoadSystemPrompt, loadSystemPrompt.
  destruct (String.eqb filePath ""); [done|].
  destruct (os_ReadFile filePath) as [data|err]; [|done].
  by destruct (unmarshalSystemPrompt data).
Qed.

(** X17. The method [LoadSystemPrompt] and the function [loadSystemPrompt]
    agree: they return the same error; the method changes nothing but the
    system prompt of the session; with a file named and no error the
    session holds the prompt that the function returns, and in every other
    case the session is as it was. *)
Theorem LoadSystemPrompt_agrees filePath (ms : Setup P) :
  snd (LoadSystemPrompt os_ReadFile unmarshalSystemPrompt filePath ms)
  = snd (loadSystemPrompt os_ReadFile unmarshalSystemPrompt filePath)
  ∧ Model (fst (LoadSystemPrompt os_ReadFile unmarshalSystemPrompt
                  filePath ms)) = Model ms
  ∧ Provider (fst (LoadSystemPrompt os_ReadFile unmarshalSystemPrompt
                     filePath ms)) = Provider ms
  ∧ SystemPrompt (fst (LoadSystemPrompt os_ReadFile unmarshalSystemPrompt
                         filePath ms))
    = match snd (loadSystemPrompt os_ReadFile unmarshalSystemPrompt
                   filePath) with
      | None =>
          if String.eqb filePath "" then SystemPrompt ms
          else fst (loadSystemPrompt os_ReadFile unmarshalSystemPrompt
                      filePath)
      | Some _ => SystemPrompt ms
      end.
Proof.
  unfold LoadSystemPrompt, loadSystemPrompt.
  destruct (String.eqb filePath ""); [done|].
  destruct (os_ReadFile filePath) as [data|err]; [|done].
  by destruct (unmarshalSystemPrompt data).
Qed.

Lemma LoadSystemPrompt_empty filePath (ms ms' : Setup P) :
  SystemPrompt ms = "" →
  fst (loadSystemPrompt os_ReadFile unmarshalSystemPrompt filePath) = "" →
  LoadSystemPrompt os_ReadFile unmarshalSystemPrompt filePath ms
  = (ms', None) →
  SystemPrompt ms' = "".
Proof.
  unfold LoadSystemPrompt, loadSystemPrompt. intros Hms Hempty.
  destruct (String.eqb filePath ""); [by intros [= <-]|].
  destruct (os_ReadFile filePath) as [data|err]; [|done].
  destruct (unmarshalSystemPrompt data); [|done].
  simpl in Hempty. by intros [= <-].
Qed.

(** X18. [NewSession] cannot succeed without a system prompt: when no file
    is named, or the file named has no or an empty [systemPrompt], it fails
    with the error of [CreateProvider] that the system prompt is not set,
    whatever the model, the keys and the rest of the configuration. *)
Theorem NewSession_needs_system_prompt (cfg : InitConfig) :
  loadSystemPrompt os_ReadFile unmarshalSystemPrompt (SystemPromptFile cfg)
  = ("", None) →
  NewSession flags os_Getenv new os_ReadFile unmarshalSystemPrompt connect
    cfg
  = (None, Some "error creating provider: system prompt is not set").
Proof.
  intros Hload. unfold NewSession.
  pose proof (LoadSystemPrompt_error (SystemPromptFile cfg)
                (mkSetup "" (ModelFlag cfg) None)) as (Herr & _).
  pose proof (LoadSystemPrompt_empty (SystemPromptFile cfg)
                (mkSetup "" (ModelFlag cfg) None)) as Hempty.
  rewrite Hload in Herr, Hempty. simpl in Herr.
  destruct (LoadSystemPrompt os_ReadFile unmarshalSystemPrompt
              (SystemPromptFile cfg) (mkSetup "" (ModelFlag cfg) None))
    as [ms' err]. simpl in Herr. subst err.
  specialize (Hempty ms' eq_refl eq_refl eq_refl).
  unfold CreateProvider. by rewrite Hempty.
Qed.

Lemma CreateProvider_parts (ms ms' : Setup P) :
  CreateProvider flags os_Getenv new ms = (ms', None) →
  SystemPrompt ms ≠ ""
  ∧ (2 ≤ length (SplitN (Model ms) ":" 2))%nat
  ∧ SystemPrompt ms' = SystemPrompt ms
  ∧ Model ms' = Model ms.
Proof.
  unfold CreateProvider.
  destruct (String.eqb (SystemPrompt ms) "") eqn:Hprompt; [done|].
  apply String.eqb_neq in Hprompt.
  destruct (String.eqb (Model ms) ""); [done|].
  destruct (SplitN (Model ms) ":" 2) as [|provider [|model rest]];
    [done|done|].
  intros Hassign. split; [exact Hprompt|]. split; [simpl; lia|].
  revert Hassign. unfold assignProvider.
  repeat match goal with
         | |- context [if ?b then _ else _] => destruct b
         | |- context [let '(_, _) := ?c in _] => destruct c
         end; intros [=]; by subst.
Qed.

(** X19. The check of the model format in [NewSession] never fails: it
    comes after [CreateProvider], which has made the same check.  So a call
    of [NewSession] ends with the error of the system prompt file, with the
    error of [CreateProvider], or goes on to the configuration and the
    clients with a session whose system prompt is not empty and whose model
    is the model flag. *)
Theorem NewSession_format_checked_before (cfg : InitConfig) :
  (∃ err,
     NewSession flags os_Getenv new os_ReadFile unmarshalSystemPrompt
       connect cfg
     = (None, Some ("error loading system prompt: " +:+ err)))
  ∨ (∃ err,
       NewSession flags os_Getenv new os_ReadFile unmarshalSystemPrompt
         connect cfg
       = (None, Some ("error creating provider: " +:+ err)))
  ∨ (∃ ms,
       NewSession flags os_Getenv new os_ReadFile unmarshalSystemPrompt
         connect cfg
       = connect (ConfigFile cfg) ms
       ∧ SystemPrompt ms ≠ ""
       ∧ Model ms = ModelFlag cfg).
Proof.
  unfold NewSession.
  pose proof (LoadSystemPrompt_error (SystemPromptFile cfg)
                (mkSetup "" (ModelFlag cfg) None)) as (_ & Hmodel).
  destruct (LoadSystemPrompt os_ReadFile unmarshalSystemPrompt
              (SystemPromptFile cfg) (mkSetup "" (ModelFlag cfg) None))
    as [ms1 [err|]]; [left; by exists err|].
  simpl in Hmodel.
  destruct (CreateProvider flags os_Getenv new ms1) as [ms2 [err|]]
    eqn:Hcreate; [right; left; by exists err|].
  apply CreateProvider_parts in Hcreate
    as (Hprompt & Hparts & Hprompt' & Hmodel').
  rewrite Hmodel in Hparts. right. right. exists ms2.
  destruct (SplitN (ModelFlag cfg) ":" 2) as [|provider [|model rest]];
    [simpl in Hparts; lia|simpl in Hparts; lia|].
  split; [reflexivity|]. split; congruence.
Qed.

End WithFiles.

Lemma NewSession_needs_system_prompt_witness :
  loadSystemPrompt Scenarios.noFiles Scenarios.noField
    (SystemPromptFile Scenarios.noPromptFile) = ("", None)
  ∧ NewSession Scenarios.allFlags Scenarios.emptyEnv Scenarios.recording
      Scenarios.noFiles Scenarios.noField Scenarios.handOn
      Scenarios.noPromptFile
    = (None, Some "error creating provider: system prompt is not set").
Proof.
  split; [reflexivity|].
  apply (NewSession_needs_system_prompt Scenarios.allFlags
           Scenarios.emptyEnv Scenarios.recording Scenarios.noFiles
           Scenarios.noField Scenarios.handOn Scenarios.noPromptFile).
  reflexivity.
Defined.

End SessionFacts.
